(** * PyPica: the command-line image processor of [app.py]

    A shallow embedding of [ImageProcessor] and [main], together with the
    part of the Python runtime and of the imaging library (Pillow) that the
    program calls.  Python integers are [Z], Python floats are binary64
    primitive floats, a decoded image is a record holding its mode, its size
    and its rows of pixels, every pixel being the list of its band samples.
    Methods of [ImageProcessor] run in a small monad that threads the object
    ([self]), the text printed so far and the files written so far, and that
    hands them on when an exception is raised.  Two calls of the library are
    left open, as the fields of [Library]: the luminance transform of
    [convert] and the outcome of [save]. *)

From Stdlib Require Import ZArith List String Ascii Bool Lia.
From Stdlib Require Import Uint63 PrimFloat FloatOps SpecFloat DecimalString.
Import ListNotations.
Open Scope string_scope.
Open Scope Z_scope.

(* ===================================================================== *)
(** ** The Python runtime used by the program *)
(* ===================================================================== *)

Module Py.

(** The exception classes that can reach the handler of [main]: the one the
    program raises itself and the ones raised underneath it by the calls it
    makes, the library's being named. *)
Inductive exc_class : Type :=
| ValueError
| OverflowError
| OSError
| OtherError (name : string).

Record exception : Type := Exception {
  exc_type : exc_class;
  exc_msg : string              (* [str(e)] *)
}.

Inductive result (A : Type) : Type :=
| Ok (a : A)
| Raise (e : exception).
Arguments Ok {A} a.
Arguments Raise {A} e.

(** A number: [int] or [float]. *)
Inductive number : Type :=
| PyInt (n : Z)
| PyFloat (x : float).

(** [range(n)] *)
Definition range (n : Z) : list Z := map Z.of_nat (seq 0 (Z.to_nat n)).

(** [any(iterable)] over truth values. *)
Fixpoint any (l : list bool) : bool :=
  match l with
  | [] => false
  | b :: l' => if b then true else any l'
  end.

(** [str(n)] for an [int]. *)
Definition str_int (n : Z) : string := NilZero.string_of_int (Z.to_int n).

(** [repr(b)] for a [bool]. *)
Definition repr_bool (b : bool) : string := if b then "True" else "False".

(** [l.index(x)] on a list of booleans: the position of the first element
    equal to [x]; [ValueError] when there is none. *)
Fixpoint index (x : bool) (l : list bool) : result Z :=
  match l with
  | [] => Raise (Exception ValueError (repr_bool x ++ " is not in list"))
  | b :: l' =>
      if Bool.eqb b x then Ok 0
      else match index x l' with
           | Ok i => Ok (i + 1)
           | Raise e => Raise e
           end
  end.

(** [l[::-1]] *)
Definition reversed {A : Type} (l : list A) : list A := rev l.

(** [len(l)] *)
Definition len {A : Type} (l : list A) : Z := Z.of_nat (List.length l).

(** [l[a:b]] for [0 <= a <= b]. *)
Definition slice {A : Type} (l : list A) (a b : Z) : list A :=
  firstn (Z.to_nat (b - a)) (skipn (Z.to_nat a) l).

(** [float(n)] for an [int] of magnitude below [2^63] (every integer the
    program converts is a sample value or a palette size). *)
Definition float_of_int (n : Z) : float :=
  if n <? 0 then PrimFloat.opp (PrimFloat.of_uint63 (Uint63.of_Z (- n)))
  else PrimFloat.of_uint63 (Uint63.of_Z n).

(** [a * b]; an [int] operand is converted when the other one is a [float]. *)
Definition mul (a b : number) : number :=
  match a, b with
  | PyInt m, PyInt n => PyInt (m * n)
  | PyInt m, PyFloat y => PyFloat (PrimFloat.mul (float_of_int m) y)
  | PyFloat x, PyInt n => PyFloat (PrimFloat.mul x (float_of_int n))
  | PyFloat x, PyFloat y => PyFloat (PrimFloat.mul x y)
  end.

(** [m * 2^e] rounded to the nearest integer, ties to the even one. *)
Definition round_half_even (m e : Z) : Z :=
  if 0 <=? e then m * 2 ^ e
  else
    let d := 2 ^ (- e) in
    let q := m / d in
    let r := m mod d in
    if 2 * r <? d then q
    else if d <? 2 * r then q + 1
    else if Z.even q then q else q + 1.

(** [m * 2^e] with its fractional part dropped, for [0 <= m]. *)
Definition truncate (m e : Z) : Z :=
  if 0 <=? e then m * 2 ^ e else m / 2 ^ (- e).

Definition signed (s : bool) (n : Z) : Z := if s then - n else n.

Definition float_to_int (rnd : Z -> Z -> Z) (x : float) : result Z :=
  match Prim2SF x with
  | S754_nan =>
      Raise (Exception ValueError "cannot convert float NaN to integer")
  | S754_infinity _ =>
      Raise (Exception OverflowError "cannot convert float infinity to integer")
  | S754_zero _ => Ok 0
  | S754_finite s m e => Ok (signed s (rnd (Z.pos m) e))
  end.

(** [round(x)] with one argument: an [int]. *)
Definition round (x : number) : result Z :=
  match x with
  | PyInt n => Ok n
  | PyFloat f => float_to_int round_half_even f
  end.

(** [int(x)] on a [float]. *)
Definition int_of_float (x : float) : result Z := float_to_int truncate x.

(** [n ** 0.5] for an [int] [0 <= n]: the binary64 square root of [float(n)]. *)
Definition pow_half (n : Z) : float := PrimFloat.sqrt (float_of_int n).

(** [os.path.basename(p)]: what follows the last slash. *)
Fixpoint has_slash (p : string) : bool :=
  match p with
  | EmptyString => false
  | String c rest => if Ascii.eqb c "/" then true else has_slash rest
  end.

Fixpoint basename (p : string) : string :=
  match p with
  | EmptyString => EmptyString
  | String c rest =>
      if Ascii.eqb c "/" then basename rest
      else if has_slash rest then basename rest
      else p
  end.

(** [os.path.splitext(p)] on a name without slash: the extension starts at
    the last dot, unless only dots come before it.  [lead] tells that every
    character seen so far is a dot. *)
Fixpoint splitext_from (lead : bool) (p : string) : string * string :=
  match p with
  | EmptyString => (EmptyString, EmptyString)
  | String c rest =>
      let '(base, ext) := splitext_from (lead && Ascii.eqb c ".") rest in
      if Ascii.eqb c "." && negb lead && String.eqb ext EmptyString
      then (EmptyString, p)
      else (String c base, ext)
  end.

Definition splitext (p : string) : string * string := splitext_from true p.

End Py.

Export Py.

(* ===================================================================== *)
(** ** The imaging library: what the program uses of [PIL.Image] *)
(* ===================================================================== *)

Module PIL.

(** A decoded image.  [data] holds [height] rows of [width] pixels; a pixel
    is the list of its samples, one per band, each an 8-bit value.
    [palette] is what [getpalette()] returns: the flat list of the palette's
    red, green and blue values, or [None]. *)
Record Image : Type := {
  format : option string;
  mode : string;
  width : Z;
  height : Z;
  data : list (list (list Z));
  palette : option (list Z)
}.

(** The number of bands of a mode ([im.bands]). *)
Definition mode_bands (m : string) : Z :=
  if existsb (String.eqb m) ["1"; "L"; "P"; "I"; "F"] then 1
  else if existsb (String.eqb m) ["LA"; "PA"] then 2
  else if existsb (String.eqb m) ["RGB"; "YCbCr"; "LAB"; "HSV"] then 3
  else 4.

Definition bands (im : Image) : Z := mode_bands (mode im).

Definition size (im : Image) : Z * Z := (width im, height im).

(** The samples of the pixel at column [x] of row [y]. *)
Definition pixel_at (im : Image) (x y : Z) : list Z :=
  nth (Z.to_nat x) (nth (Z.to_nat y) (data im) []) [].

(** [im.getpixel((x, y))]; the program reads inside the image only. *)
Definition getpixel (im : Image) (xy : Z * Z) : list Z :=
  pixel_at im (fst xy) (snd xy).

(** Truth value of what [getpixel] returns: an [int] for a single band, a
    non-empty tuple otherwise. *)
Definition truth (px : list Z) : bool :=
  match px with
  | [] => false
  | [v] => negb (v =? 0)
  | _ => true
  end.

Definition in_image (im : Image) (x y : Z) : bool :=
  (0 <=? x) && (x <? width im) && (0 <=? y) && (y <? height im).

(** [im.getpalette()] *)
Definition getpalette (im : Image) : option (list Z) := palette im.

(** [im.crop((left, upper, right, lower))]: a new image of size
    [(right - left, lower - upper)]; what lies outside the source is zero. *)
Definition crop (im : Image) (box : Z * Z * Z * Z) : Image :=
  let '(x0, y0, x1, y1) := box in
  {| format := None;
     mode := mode im;
     width := Z.max 0 (x1 - x0);
     height := Z.max 0 (y1 - y0);
     data :=
       map (fun y =>
              map (fun x =>
                     if in_image im (x0 + x) (y0 + y)
                     then pixel_at im (x0 + x) (y0 + y)
                     else repeat 0 (Z.to_nat (bands im)))
                  (range (x1 - x0)))
           (range (y1 - y0));
     palette := palette im |}.

(** [CLIP8] of the library's C core. *)
Definition CLIP8 (v : Z) : Z :=
  if v <=? 0 then 0 else if v <? 256 then v else 255.

(** The C conversion of a [long] to a 32-bit [int]: the value modulo
    [2^32], read as a signed number. *)
Definition as_int (n : Z) : Z := (n + 2 ^ 31) mod 2 ^ 32 - 2 ^ 31.

(** [PyLong_AsLong] with a 64-bit [long]. *)
Definition as_long (n : Z) : result Z :=
  if (- 2 ^ 63 <=? n) && (n <? 2 ^ 63) then Ok n
  else Raise (Exception OverflowError "Python int too large to convert to C long").

Fixpoint mapM {A B : Type} (f : A -> result B) (l : list A) : result (list B) :=
  match l with
  | [] => Ok []
  | a :: l' =>
      match f a with
      | Raise e => Raise e
      | Ok b =>
          match mapM f l' with
          | Raise e => Raise e
          | Ok bs => Ok (b :: bs)
          end
      end
  end.

(** The lookup table [point] builds from a function.  The library calls the
    function once for each possible sample value, [lut(i) for i in
    range(256)], repeats that table once per band, rounds every entry
    ([round]) and hands the list to its C core, which reads every entry as a
    [long], stores it in an [int] and clips that to a byte. *)
Definition build_lut (lut : Z -> number) (nbands : Z) : result (list Z) :=
  let flatLut := List.concat (repeat (map lut (range 256)) (Z.to_nat nbands)) in
  match mapM Py.round flatLut with
  | Raise e => Raise e
  | Ok rounded =>
      match mapM as_long rounded with
      | Raise e => Raise e
      | Ok longs => Ok (map (fun n => CLIP8 (as_int n)) longs)
      end
  end.

(** One pixel through the table: band [b] reads entry [256 * b + sample]. *)
Fixpoint point_pixel (table : list Z) (b : Z) (px : list Z) : list Z :=
  match px with
  | [] => []
  | v :: px' => nth (Z.to_nat (v + 256 * b)) table 0 :: point_pixel table (b + 1) px'
  end.

(** [im.point(lut)] with a function, on an image with 8-bit bands: every
    sample of every band is replaced by its entry in the table. *)
Definition point (im : Image) (lut : Z -> number) : result Image :=
  match build_lut lut (bands im) with
  | Raise e => Raise e
  | Ok table =>
      Ok {| format := None;
            mode := mode im;
            width := width im;
            height := height im;
            data := map (map (point_pixel table 0)) (data im);
            palette := palette im |}
  end.

(** [Image.new(mode, size)]: every sample is zero. *)
Definition new (m : string) (sz : Z * Z) : Image :=
  {| format := None;
     mode := m;
     width := fst sz;
     height := snd sz;
     data := repeat (repeat (repeat 0 (Z.to_nat (mode_bands m)))
                            (Z.to_nat (fst sz)))
                    (Z.to_nat (snd sz));
     palette := None |}.

Fixpoint set_nth {A : Type} (n : nat) (a : A) (l : list A) : list A :=
  match l, n with
  | [], _ => []
  | _ :: l', O => a :: l'
  | b :: l', S n' => b :: set_nth n' a l'
  end.

(** [im.putpixel((x, y), value)]; the program writes inside the image only. *)
Definition putpixel (im : Image) (xy : Z * Z) (value : list Z) : Image :=
  let '(x, y) := xy in
  if in_image im x y then
    {| format := format im;
       mode := mode im;
       width := width im;
       height := height im;
       data := set_nth (Z.to_nat y)
                 (set_nth (Z.to_nat x) value (nth (Z.to_nat y) (data im) []))
                 (data im);
       palette := palette im |}
  else im.

(** The regular files of the file system: at each path, nothing, or a
    regular file with what [Image.open] makes of it, the image its data
    decodes to or the exception raised.  (The library identifies a file when
    it opens it and reads the pixel data when the first operation asks for
    them; a file that is identified but whose data cannot be read is not
    among the files described here.) *)
Definition FileSystem : Type := string -> option (result Image).

(** [os.path.isfile(path)] *)
Definition isfile (fs : FileSystem) (path : string) : bool :=
  match fs path with
  | Some _ => true
  | None => false
  end.

(** [Image.open(path)].  The program opens regular files only; without a
    file the call fails underneath, in the built-in [open]. *)
Definition open (fs : FileSystem) (path : string) : result Image :=
  match fs path with
  | Some opened => opened
  | None => Raise (Exception OSError "[Errno 2] No such file or directory")
  end.

(** What [im.save(name)] can come to.  The library chooses the format by
    the extension of the name, opens the file for writing and encodes the
    image into it.  It can raise before the file is opened (no format for
    the extension, a file that cannot be opened): nothing has changed.  It
    can raise while it writes: no image is left under that name (a file
    that the call created is removed, an older one stays truncated).
    Otherwise the file holds the image. *)
Inductive SaveOutcome : Type :=
| Written
| Refused (e : exception)
| Failed (e : exception).

(** The two calls whose outcome belongs to the library and is left open.
    [convert im mode] is [im.convert(mode)]; the program asks for ['L']
    only.  [save_outcome name im] is what [im.save(name)] comes to, taken
    to depend on the name and on the image only. *)
Record Library : Type := {
  convert : Image -> string -> Image;
  save_outcome : string -> Image -> SaveOutcome
}.

(** Writing a file: the content under [name] is replaced, or the file is
    added. *)
Fixpoint write_file (name : string) (im : Image)
    (fs : list (string * Image)) : list (string * Image) :=
  match fs with
  | [] => [(name, im)]
  | (n, old) :: fs' =>
      if String.eqb n name then (name, im) :: fs'
      else (n, old) :: write_file name im fs'
  end.

(** No image is left under [name]. *)
Fixpoint remove_file (name : string) (fs : list (string * Image))
  : list (string * Image) :=
  match fs with
  | [] => []
  | (n, im) :: fs' =>
      if String.eqb n name then remove_file name fs'
      else (n, im) :: remove_file name fs'
  end.

(** The content of the file [name], if there is one. *)
Fixpoint lookup_file (name : string) (fs : list (string * Image))
  : option Image :=
  match fs with
  | [] => None
  | (n, im) :: fs' =>
      if String.eqb n name then Some im else lookup_file name fs'
  end.

(** An image as the library holds it: the rows and pixels agree with the
    size and the mode, and every sample is a byte. *)
Definition sample_ok (v : Z) : Prop := 0 <= v <= 255.

Definition pixel_ok (nbands : Z) (px : list Z) : Prop :=
  len px = nbands /\ Forall sample_ok px.

Definition row_ok (w nbands : Z) (row : list (list Z)) : Prop :=
  len row = w /\ Forall (pixel_ok nbands) row.

Definition wf_image (im : Image) : Prop :=
  0 <= width im /\ 0 <= height im /\
  len (data im) = height im /\
  Forall (row_ok (width im) (bands im)) (data im).

End PIL.

Export PIL.

(* ===================================================================== *)
(** ** The program: [ImageProcessor] and [main] *)
(* ===================================================================== *)

(** The object: [self.image] and [self.image_path]. *)
Record ImageProcessor : Type := {
  image : Image;
  image_path : string
}.

(** What a run leaves behind: the lines printed, in order, and the image
    files, by name (a later write under a name replaces the earlier
    content). *)
Record World : Type := {
  stdout : list string;
  files : list (string * Image)
}.

Record State : Type := {
  self : ImageProcessor;
  world : World
}.

(** A method body: it returns or raises, and hands on the state in both
    cases. *)
Definition M (A : Type) : Type := State -> result A * State.

Definition ret {A : Type} (a : A) : M A := fun s => (Ok a, s).

Definition bind {A B : Type} (m : M A) (k : A -> M B) : M B :=
  fun s =>
    match m s with
    | (Ok a, s') => k a s'
    | (Raise e, s') => (Raise e, s')
    end.

Definition raise {A : Type} (e : exception) : M A := fun s => (Raise e, s).

Definition lift {A : Type} (r : result A) : M A := fun s => (r, s).

Declare Scope py_scope.
Delimit Scope py_scope with py.
Notation "x <- m ;; k" := (bind m (fun x => k))
  (at level 61, m at next level, right associativity) : py_scope.
Notation "m ;; k" := (bind m (fun _ => k))
  (at level 61, right associativity) : py_scope.
Open Scope py_scope.

(** [self.image] *)
Definition get_image : M Image := fun s => (Ok (image (self s)), s).

(** [self.image = im] *)
Definition set_image (im : Image) : M unit :=
  fun s =>
    (Ok tt,
     {| self := {| image := im; image_path := image_path (self s) |};
        world := world s |}).

(** [print(line)] *)
Definition print (line : string) : M unit :=
  fun s =>
    (Ok tt,
     {| self := self s;
        world := {| stdout := (stdout (world s) ++ [line])%list;
                    files := files (world s) |} |}).

(** [ValueError(msg)] *)
Definition ValueError_ (msg : string) : exception := Exception ValueError msg.

Section Program.

Variable lib : Library.

(** [im.save(name)] *)
Definition save (im : Image) (name : string) : M unit :=
  fun s =>
    match save_outcome lib name im with
    | Written =>
        (Ok tt,
         {| self := self s;
            world := {| stdout := stdout (world s);
                        files := write_file name im (files (world s)) |} |})
    | Refused e => (Raise e, s)
    | Failed e =>
        (Raise e,
         {| self := self s;
            world := {| stdout := stdout (world s);
                        files := remove_file name (files (world s)) |} |})
    end.

Definition str_option (o : option string) : string :=
  match o with
  | Some s => s
  | None => "None"
  end.

Definition str_size (sz : Z * Z) : string :=
  "(" ++ str_int (fst sz) ++ ", " ++ str_int (snd sz) ++ ")".

Definition _get_output_filename (prefix : string) : M string :=
  fun s =>
    let basename := Py.basename (image_path (self s)) in
    let '(base, ext) := splitext basename in
    (Ok (prefix ++ "_" ++ base ++ ext), s).

Definition __init__ (fs : FileSystem) (image_path : string)
  : result ImageProcessor :=
  if negb (isfile fs image_path) then
    Raise (ValueError_ ("File not found: " ++ image_path))
  else
    match open fs image_path with
    | Raise e => Raise e
    | Ok im => Ok {| image := im; image_path := image_path |}
    end.

Definition get_info : M unit :=
  im <- get_image ;;
  print ("Format: " ++ str_option (format im)) ;;
  print ("Mode: " ++ mode im) ;;
  print ("Size: " ++ str_size (size im)) ;;
  match palette im with
  | Some _ =>
      print "Palette: this image has a palette. To display it use --palette."
  | None => print "Palette: None"
  end.

Definition bounds_message (width height : Z) : string :=
  "Invalid crop dimensions. Image dimensions are "
  ++ str_int width ++ "x" ++ str_int height ++ "."
  ++ " Please provide crop dimensions within these bounds.".

Definition order_message : string :=
  "Invalid crop dimensions. Please ensure that left < right and upper < lower.".

Definition crop_image (left upper right lower : Z) : M unit :=
  im <- get_image ;;
  let '(width, height) := size im in
  if (left <? 0) || (upper <? 0) || (right >? width) || (lower >? height) then
    raise (ValueError_ (bounds_message width height))
  else if (left >=? right) || (upper >=? lower) then
    raise (ValueError_ order_message)
  else
    let frame := (left, upper, right, lower) in
    let cropped_image := crop im frame in
    name <- _get_output_filename "cropped" ;;
    save cropped_image name.

(** [[any(im.getpixel((x, y)) for y in range(im.height)) for x in
    range(im.width)]] *)
Definition x_projection_of (im : Image) : list bool :=
  map (fun x => any (map (fun y => truth (getpixel im (x, y)))
                         (range (height im))))
      (range (width im)).

Definition y_projection_of (im : Image) : list bool :=
  map (fun y => any (map (fun x => truth (getpixel im (x, y)))
                         (range (width im))))
      (range (height im)).

(** [lambda p: int(p > 0)] *)
Definition binarize_lambda (p : Z) : number := PyInt (Z.b2z (p >? 0)).

Definition crop_empty : M unit :=
  im <- get_image ;;
  let gray_image := convert lib im "L" in
  binary_image <- lift (point gray_image binarize_lambda) ;;
  let x_projection := x_projection_of binary_image in
  let y_projection := y_projection_of binary_image in
  left <- lift (index true x_projection) ;;
  from_right <- lift (index true (reversed x_projection)) ;;
  let right := len x_projection - from_right in
  upper <- lift (index true y_projection) ;;
  from_bottom <- lift (index true (reversed y_projection)) ;;
  let lower := len y_projection - from_bottom in
  set_image (crop im (left, upper, right, lower)) ;;
  im' <- get_image ;;
  name <- _get_output_filename "cropped_empty" ;;
  save im' name.

(** The two loops of [get_palette]: rows outside, columns inside.  The slice
    holds three values whenever [color_index < num_colors]. *)
Definition fill_cell (palette : list Z) (num_colors actual_side : Z)
    (y : Z) (new_image : Image) (x : Z) : Image :=
  let color_index := y * actual_side + x in
  if color_index <? num_colors then
    match slice palette (color_index * 3) (color_index * 3 + 3) with
    | [r; g; b] => putpixel new_image (x, y) [r; g; b]
    | _ => new_image
    end
  else new_image.

Definition fill_row (palette : list Z) (num_colors actual_side : Z)
    (new_image : Image) (y : Z) : Image :=
  fold_left (fill_cell palette num_colors actual_side y)
            (range actual_side) new_image.

Definition fill_grid (palette : list Z) (num_colors actual_side : Z)
    (new_image : Image) : Image :=
  fold_left (fill_row palette num_colors actual_side)
            (range actual_side) new_image.

Definition get_palette : M unit :=
  im <- get_image ;;
  match getpalette im with
  | None => raise (ValueError_ "Image does not have a palette.")
  | Some palette =>
      let num_colors := len palette / 3 in
      side <- lift (int_of_float (pow_half num_colors)) ;;
      let actual_side :=
        if side * side =? num_colors then side else side + 1 in
      let new_image := new "RGB" (actual_side, actual_side) in
      let new_image := fill_grid palette num_colors actual_side new_image in
      name <- _get_output_filename "palette" ;;
      save new_image name
  end.

(** [lambda i: i * coefficients[i % 3]]: the one argument [i] is both the
    factor and, modulo 3, the position in the tuple. *)
Definition adjust_lambda (coefficients : list number) (i : Z) : number :=
  Py.mul (PyInt i) (nth (Z.to_nat (i mod 3)) coefficients (PyInt 0)).

Definition adjust_colors
    (red_coefficient green_coefficient blue_coefficient : number) : M unit :=
  im <- get_image ;;
  if negb (existsb (String.eqb (mode im)) ["RGB"; "RGBA"]) then
    raise (ValueError_
             ("Unsupported image mode for color adjustment: " ++ mode im))
  else
    let coefficients :=
      [red_coefficient; green_coefficient; blue_coefficient] in
    new_image <- lift (point im (adjust_lambda coefficients)) ;;
    name <- _get_output_filename "adjusted" ;;
    save new_image name.

(** [lambda i: 255 - i] *)
Definition invert_lambda (i : Z) : number := PyInt (255 - i).

Definition invert_colors : M unit :=
  im <- get_image ;;
  if negb (existsb (String.eqb (mode im)) ["RGB"; "RGBA"]) then
    raise (ValueError_
             ("Unsupported image mode for color inversion: " ++ mode im))
  else
    new_image <- lift (point im invert_lambda) ;;
    name <- _get_output_filename "inverted" ;;
    save new_image name.

(** The parsed command line. *)
Record Args : Type := {
  arg_image_path : string;
  arg_info : bool;
  arg_crop : option (Z * Z * Z * Z);
  arg_crop_empty : bool;
  arg_palette : bool;
  arg_adjust_colors : option (float * float * float);
  arg_invert : bool
}.

Definition when (b : bool) (m : M unit) : M unit := if b then m else ret tt.

(** The operations of [main] after the processor is built, in the order of
    the [if] statements. *)
Definition run_operations (args : Args) : M unit :=
  when (arg_info args) get_info ;;
  match arg_crop args with
  | Some (l, u, r, b) => crop_image l u r b
  | None => ret tt
  end ;;
  when (arg_crop_empty args) crop_empty ;;
  when (arg_palette args) get_palette ;;
  match arg_adjust_colors args with
  | Some (r, g, b) => adjust_colors (PyFloat r) (PyFloat g) (PyFloat b)
  | None => ret tt
  end ;;
  when (arg_invert args) invert_colors.

Definition report (e : exception) : string :=
  "An error occurred: " ++ exc_msg e.

Definition no_output : World := {| stdout := []; files := [] |}.

(** [main()] from the parsed arguments on: what was printed and saved when
    it returns. *)
Definition main (fs : FileSystem) (args : Args) : World :=
  match __init__ fs (arg_image_path args) with
  | Raise e => {| stdout := [report e]; files := [] |}
  | Ok processor =>
      match run_operations args {| self := processor; world := no_output |} with
      | (Ok _, s) => world s
      | (Raise e, s) => world (snd (print (report e) s))
      end
  end.

End Program.

(* ===================================================================== *)
(** ** Vocabulary of the statements *)
(* ===================================================================== *)

(** [i] is the position of the first [True] of [l]. *)
Definition first_true (l : list bool) (i : Z) : Prop :=
  0 <= i < len l /\
  nth (Z.to_nat i) l false = true /\
  forall j, 0 <= j < i -> nth (Z.to_nat j) l false = false.

(** The value of a pixel of a single-band image. *)
Definition luminance (gray : Image) (x y : Z) : Z :=
  nth 0 (pixel_at gray x y) 0.

(** Column [x] (row [y]) of a single-band image holds a value above zero. *)
Definition column_content (gray : Image) (x : Z) : bool :=
  existsb (fun y => 0 <? luminance gray x y) (range (height gray)).

Definition row_content (gray : Image) (y : Z) : bool :=
  existsb (fun x => 0 <? luminance gray x y) (range (width gray)).

(** The projections of the content onto the two axes. *)
Definition x_content (gray : Image) : list bool :=
  map (column_content gray) (range (width gray)).

Definition y_content (gray : Image) : list bool :=
  map (row_content gray) (range (height gray)).

Definition supported_mode (m : string) : Prop := m = "RGB" \/ m = "RGBA".

(** The state after a method wrote [im] to the file [name] and did nothing
    else. *)
Definition saved (s : State) (name : string) (im : Image) : State :=
  {| self := self s;
     world := {| stdout := stdout (world s);
                 files := write_file name im (files (world s)) |} |}.

(** The state after a method left no image in the file [name] and did
    nothing else. *)
Definition unsaved (s : State) (name : string) : State :=
  {| self := self s;
     world := {| stdout := stdout (world s);
                 files := remove_file name (files (world s)) |} |}.

(** The state after [self.image] was replaced by [im]. *)
Definition with_image (s : State) (im : Image) : State :=
  {| self := {| image := im; image_path := image_path (self s) |};
     world := world s |}.

(** The name the program gives to the output of an operation. *)
Definition output_name (prefix : string) (s : State) : string :=
  prefix ++ "_" ++ basename (image_path (self s)).

(** The last step of an operation: [im] is saved under the output name of
    [prefix]. *)
Definition save_as (lib : Library) (prefix : string) (im : Image) : M unit :=
  fun s => save lib im (output_name prefix s) s.

(** The exception [save] raises, if it raises. *)
Definition save_error (lib : Library) (name : string) (im : Image)
  : option exception :=
  match save_outcome lib name im with
  | Written => None
  | Refused e => Some e
  | Failed e => Some e
  end.

(** An instance of [convert] to run the program on examples: the luma of the
    red, green and blue samples with the ITU-R 601-2 weights in 16-bit fixed
    point; a pixel with fewer than three samples is kept. *)
Definition luma_601 (px : list Z) : list Z :=
  match px with
  | r :: g :: b :: _ =>
      [Z.shiftr (r * 19595 + g * 38470 + b * 7471 + 32768) 16]
  | _ => px
  end.

Definition convert_601 (im : Image) (m : string) : Image :=
  {| format := None;
     mode := m;
     width := width im;
     height := height im;
     data := map (map luma_601) (data im);
     palette := None |}.

(** An instance of the library to run the program on examples.  It knows
    one format: a name is accepted when its extension, in lower case, is
    [.png], and refused otherwise the way the library refuses an extension
    that no format has registered; the encoder fails on an image without
    pixels. *)
Definition lower_ascii (c : ascii) : ascii :=
  let n := nat_of_ascii c in
  if ((65 <=? n) && (n <=? 90))%nat then ascii_of_nat (n + 32) else c.

Fixpoint lower (s : string) : string :=
  match s with
  | EmptyString => EmptyString
  | String c s' => String (lower_ascii c) (lower s')
  end.

Definition png_save_outcome (name : string) (im : Image) : SaveOutcome :=
  let ext := lower (snd (splitext name)) in
  if negb (String.eqb ext ".png") then
    Refused (Exception ValueError ("unknown file extension: " ++ ext))
  else if (width im =? 0) || (height im =? 0) then
    Failed (Exception ValueError "cannot write empty image as PNG")
  else Written.

Definition png_library : Library :=
  {| convert := convert_601; save_outcome := png_save_outcome |}.

(** An integer that [PyLong_AsLong] converts, and one that an [int] holds. *)
Definition fits_long (n : Z) : Prop := - 2 ^ 63 <= n < 2 ^ 63.

Definition fits_int (n : Z) : Prop := - 2 ^ 31 <= n < 2 ^ 31.

(** The image [point] returns when every sample goes through [f]. *)
Definition map_samples (f : Z -> Z) (im : Image) : Image :=
  {| format := None;
     mode := mode im;
     width := width im;
     height := height im;
     data := map (map (map f)) (data im);
     palette := palette im |}.

(** What [main] still runs once the [crop_empty] step is over, and once the
    [crop] step is over. *)
Definition after_crop_empty (lib : Library) (args : Args) : M unit :=
  when (arg_palette args) (get_palette lib) ;;
  match arg_adjust_colors args with
  | Some (r, g, b) => adjust_colors lib (PyFloat r) (PyFloat g) (PyFloat b)
  | None => ret tt
  end ;;
  when (arg_invert args) (invert_colors lib).

Definition after_crop (lib : Library) (args : Args) : M unit :=
  when (arg_crop_empty args) (crop_empty lib) ;;
  after_crop_empty lib args.

(** What C1 expects of a pixel: the sample of channel [c] times
    [coefficients[c mod 3]], before rounding and clipping. *)
Fixpoint by_channel (coefficients : list number) (c : Z) (px : list Z)
  : list number :=
  match px with
  | [] => []
  | v :: px' =>
      Py.mul (PyInt v) (nth (Z.to_nat (c mod 3)) coefficients (PyInt 0))
      :: by_channel coefficients (c + 1) px'
  end.

(** The kinds of failure the specification tells apart, and the kind a
    message reads as. *)
Inductive failure_kind : Type :=
| FileNotFound
| InvalidBounds
| NoPalette
| UnsupportedMode.

Definition kind_of_message (msg : string) : option failure_kind :=
  if prefix "File not found: " msg then Some FileNotFound
  else if prefix "Invalid crop dimensions." msg then Some InvalidBounds
  else if prefix "Image does not have a palette." msg then Some NoPalette
  else if prefix "Unsupported image mode for color " msg
       then Some UnsupportedMode
  else None.

(** The side of the palette grid as the specification words it: the floor
    of the square root when its square is [n], one more otherwise. *)
Definition grid_side (n : Z) : Z :=
  if Z.sqrt n * Z.sqrt n =? n then Z.sqrt n else Z.sqrt n + 1.

(** The cell [(x, y)] of the palette grid: entry [y * side + x] of the
    palette when there is one, black otherwise. *)
Definition palette_cell (palette : list Z) (num_colors side x y : Z)
  : list Z :=
  if y * side + x <? num_colors
  then slice palette ((y * side + x) * 3) ((y * side + x) * 3 + 3)
  else [0; 0; 0].

(** Rows and pixels agree with the size (the samples are left open). *)
Definition shaped (im : Image) : Prop :=
  0 <= width im /\ 0 <= height im /\
  len (data im) = height im /\
  Forall (fun row => len row = width im) (data im).

(** [int(n ** 0.5)] is the integer square root of [n]. *)
Definition sqrt_agrees (n : Z) : bool :=
  match int_of_float (pow_half n) with
  | Ok s => s =? Z.sqrt n
  | Raise _ => false
  end.

(** The four lines [get_info] prints for an image. *)
Definition info_lines (im : Image) : list string :=
  [ "Format: " ++ str_option (format im);
    "Mode: " ++ mode im;
    "Size: " ++ str_size (size im);
    match palette im with
    | Some _ =>
        "Palette: this image has a palette. To display it use --palette."
    | None => "Palette: None"
    end ].

(** The prefixes of the files a command line asks for, in the order in
    which [main] runs the operations. *)
Definition requested (args : Args) : list string :=
  (match arg_crop args with Some _ => ["cropped"] | None => [] end
   ++ (if arg_crop_empty args then ["cropped_empty"] else [])
   ++ (if arg_palette args then ["palette"] else [])
   ++ match arg_adjust_colors args with Some _ => ["adjusted"] | None => [] end
   ++ (if arg_invert args then ["inverted"] else []))%list.

(** [m] raises at once, with the state untouched, or ends in [save_as] under
    [prefix] after changes to the object that keep the path. *)
Definition ends_in_save (lib : Library) (prefix : string) (m : M unit)
  : Prop :=
  forall st,
    (exists e, m st = (Raise e, st))
    \/ exists im s1,
         m st = save_as lib prefix im s1
         /\ world s1 = world st
         /\ image_path (self s1) = image_path (self st).

(** The output names of the prefixes [ps] differ from one another and from
    the names of the files there are. *)
Definition fresh (ps : list string) (st : State) : Prop :=
  NoDup (map fst (files (world st))
         ++ map (fun p => output_name p st) ps)%list.

(** Where the output names are fresh, [m] prints nothing, keeps the path,
    and adds files under the prefixes [ps], in that order: all of them when
    it returns, strictly fewer (the first [k]) when it raises. *)
Definition writes (ps : list string) (m : M unit) : Prop :=
  forall st r st',
    fresh ps st ->
    m st = (r, st') ->
    image_path (self st') = image_path (self st)
    /\ stdout (world st') = stdout (world st)
    /\ exists k,
         map fst (files (world st'))
         = (map fst (files (world st))
            ++ map (fun p => output_name p st) (firstn k ps))%list
         /\ (r = Ok tt -> k = List.length ps)
         /\ (forall e, r = Raise e -> (k < List.length ps)%nat).

(** The state after [lines] were printed. *)
Definition printed (s : State) (lines : list string) : State :=
  {| self := self s;
     world := {| stdout := (stdout (world s) ++ lines)%list;
                 files := files (world s) |} |}.

(** [round(v * 1.0)] gives back the sample value [v]. *)
Definition unit_product_agrees (v : Z) : bool :=
  match Py.round (Py.mul (PyInt v) (PyFloat 1)) with
  | Ok n => n =? v
  | Raise _ => false
  end.

(* ===================================================================== *)
(** ** Images and states to run the program on *)
(* ===================================================================== *)

Definition state_of (im : Image) (path : string) : State :=
  {| self := {| image := im; image_path := path |}; world := no_output |}.

(** A black RGB image of 10 by 10 pixels. *)
Definition black_10x10 : Image := new "RGB" (10, 10).

(** Three by two pixels, RGB, a single pixel that is not black. *)
Definition dot_3x2 : Image :=
  {| format := Some "PNG";
     mode := "RGB";
     width := 3;
     height := 2;
     data := [[[0; 0; 0]; [1; 2; 3]; [0; 0; 0]];
              [[0; 0; 0]; [0; 0; 0]; [0; 0; 0]]];
     palette := None |}.

(** One RGB pixel whose three samples are 1. *)
Definition ones_1x1 : Image :=
  {| format := Some "PNG";
     mode := "RGB";
     width := 1;
     height := 1;
     data := [[[1; 1; 1]]];
     palette := None |}.

(** A single black RGB pixel. *)
Definition black_1x1 : Image := new "RGB" (1, 1).

(** One RGB pixel with a bright red sample. *)
Definition bright_1x1 : Image :=
  {| format := Some "PNG";
     mode := "RGB";
     width := 1;
     height := 1;
     data := [[[200; 100; 1]]];
     palette := None |}.

(** The state [main] starts from on [dot_3x2], and the one [crop_empty]
    leaves. *)
Definition dot_state : State := state_of dot_3x2 "dir/photo.png".

Definition dot_state_cropped : State :=
  saved (with_image dot_state (crop dot_3x2 (1, 0, 2, 1)))
        "cropped_empty_photo.png" (crop dot_3x2 (1, 0, 2, 1)).

(** One RGBA pixel whose four samples are 1. *)
Definition ones_rgba_1x1 : Image :=
  {| format := Some "PNG";
     mode := "RGBA";
     width := 1;
     height := 1;
     data := [[[1; 1; 1; 1]]];
     palette := None |}.

(** A file system without any file, and a command line that asks for
    nothing but names a path. *)
Definition no_files : FileSystem := fun _ => None.

(** A file system whose one regular file, [notes.txt], is not an image. *)
Definition text_file_only : FileSystem :=
  fun p =>
    if String.eqb p "notes.txt"
    then Some (Raise (Exception (OtherError "UnidentifiedImageError")
                                "cannot identify image file 'notes.txt'"))
    else None.

Definition only_path (path : string) : Args :=
  {| arg_image_path := path;
     arg_info := false;
     arg_crop := None;
     arg_crop_empty := false;
     arg_palette := false;
     arg_adjust_colors := None;
     arg_invert := false |}.

(** A file system with one image file, and a command line that asks for
    the inversion only. *)
Definition one_file (path : string) (im : Image) : FileSystem :=
  fun p => if String.eqb p path then Some (Ok im) else None.

Definition invert_only (path : string) : Args :=
  {| arg_image_path := path;
     arg_info := false;
     arg_crop := None;
     arg_crop_empty := false;
     arg_palette := false;
     arg_adjust_colors := None;
     arg_invert := true |}.

(** Command lines on [path]: auto-crop then inversion; the crop of the
    top-left pixel then inversion. *)
Definition crop_empty_and_invert (path : string) : Args :=
  {| arg_image_path := path;
     arg_info := false;
     arg_crop := None;
     arg_crop_empty := true;
     arg_palette := false;
     arg_adjust_colors := None;
     arg_invert := true |}.

Definition crop_and_invert (path : string) : Args :=
  {| arg_image_path := path;
     arg_info := false;
     arg_crop := Some (0, 0, 1, 1);
     arg_crop_empty := false;
     arg_palette := false;
     arg_adjust_colors := None;
     arg_invert := true |}.

(** A grayscale image of one pixel. *)
Definition gray_1x1 : Image :=
  {| format := Some "PNG";
     mode := "L";
     width := 1;
     height := 1;
     data := [[[7]]];
     palette := None |}.

(** A palette image of one pixel whose palette has [n] entries. *)
Definition indexed (n : Z) : Image :=
  {| format := Some "PNG";
     mode := "P";
     width := 1;
     height := 1;
     data := [[[0]]];
     palette := Some (range (3 * n)) |}.

Ltac wf_by_computation :=
  unfold wf_image, row_ok, pixel_ok, sample_ok, len; vm_compute;
  repeat match goal with
         | |- _ /\ _ => split
         | |- Forall _ _ => constructor
         | |- _ = _ => reflexivity
         | |- _ -> False => let H := fresh in intro H; discriminate H
         end.

Ltac failed_case Hcases H :=
  destruct Hcases as [(e0 & He0) | Hok];
  [ rewrite He0 in H; now injection H as _ <-
  | try destruct Hok as (? & Hok); rewrite Hok in H; discriminate H ].

(* ===================================================================== *)
(** ** Lists, ranges and lookups *)
(* ===================================================================== *)

Lemma range_length (n : Z) : List.length (range n) = Z.to_nat n.
Proof. unfold range. now rewrite length_map, length_seq. Qed.

Lemma nth_range (n : Z) (i : nat) (d : Z) :
  (i < Z.to_nat n)%nat -> nth i (range n) d = Z.of_nat i.
Proof.
  intros H. unfold range.
  rewrite nth_indep with (d' := Z.of_nat 0) by (now rewrite length_map, length_seq).
  rewrite map_nth, seq_nth by assumption. reflexivity.
Qed.

Lemma in_range (n x : Z) : In x (range n) <-> 0 <= x < n.
Proof.
  unfold range. rewrite in_map_iff. split.
  - intros (k & <- & Hk). apply in_seq in Hk. lia.
  - intros H. exists (Z.to_nat x). split; [lia |]. apply in_seq. lia.
Qed.

Lemma nth_map_range {A : Type} (f : Z -> A) (n i : Z) (d : A) :
  0 <= i < n -> nth (Z.to_nat i) (map f (range n)) d = f i.
Proof.
  intros H.
  rewrite nth_indep with (d' := f 0) by (rewrite length_map, range_length; lia).
  rewrite map_nth, nth_range by lia. f_equal. lia.
Qed.

Lemma any_existsb {A : Type} (f : A -> bool) (l : list A) :
  any (map f l) = existsb f l.
Proof. induction l as [| a l IH]; simpl; [reflexivity |]. now rewrite IH; destruct (f a). Qed.

(** *** [index] *)

Lemma index_first_true (l : list bool) (i : Z) :
  index true l = Ok i -> first_true l i.
Proof.
  revert i. induction l as [| b l IH]; simpl; intros i H; [discriminate |].
  destruct b; simpl in H.
  - injection H as <-. unfold first_true, len. simpl. repeat split; lia.
  - destruct (index true l) as [k |] eqn:Hk; [| discriminate].
    injection H as <-. destruct (IH k eq_refl) as (Hr & Ht & Hf).
    unfold first_true, len in *. simpl List.length. repeat split; try lia.
    + replace (Z.to_nat (k + 1)) with (S (Z.to_nat k)) by lia. exact Ht.
    + intros j Hj. destruct (Z.eq_dec j 0) as [-> | Hne]; [reflexivity |].
      replace (Z.to_nat j) with (S (Z.to_nat (j - 1))) by lia.
      apply Hf. lia.
Qed.

Lemma index_found (l : list bool) :
  In true l -> exists i, index true l = Ok i.
Proof.
  induction l as [| b l IH]; simpl; [contradiction |].
  intros [-> | Hin]; [now exists 0 |].
  destruct b; simpl; [now exists 0 |].
  destruct (IH Hin) as (k & ->). now exists (k + 1).
Qed.

Lemma index_missing (l : list bool) :
  ~ In true l ->
  index true l = Raise (Exception ValueError "True is not in list").
Proof.
  induction l as [| b l IH]; simpl; intros H; [reflexivity |].
  destruct b; [exfalso; apply H; now left |]. simpl.
  rewrite IH; [reflexivity |]. intros Hin. apply H. now right.
Qed.

Lemma first_true_unique (l : list bool) (i j : Z) :
  first_true l i -> first_true l j -> i = j.
Proof.
  intros (Hi & Hti & Hfi) (Hj & Htj & Hfj).
  destruct (Z.lt_trichotomy i j) as [H | [H | H]]; [| assumption |].
  - rewrite Hfj in Hti by lia. discriminate.
  - rewrite Hfi in Htj by lia. discriminate.
Qed.

(* ===================================================================== *)
(** ** The lookup table of [point] *)
(* ===================================================================== *)

Lemma mapM_round_int (g : Z -> Z) (l : list Z) :
  mapM Py.round (map (fun i => PyInt (g i)) l) = Ok (map g l).
Proof. induction l as [| a l IH]; simpl; [reflexivity |]. now rewrite IH. Qed.

Lemma mapM_as_long (l : list Z) :
  Forall fits_long l -> mapM as_long l = Ok l.
Proof.
  induction 1 as [| a l Ha _ IH]; cbn [mapM]; [reflexivity |].
  rewrite IH. unfold as_long. unfold fits_long in Ha.
  replace ((- 2 ^ 63 <=? a) && (a <? 2 ^ 63)) with true; [reflexivity |].
  symmetry. apply andb_true_iff. lia.
Qed.

Lemma concat_repeat_map {A B : Type} (f : A -> B) (l : list A) (k : nat) :
  List.concat (repeat (map f l) k) = map f (List.concat (repeat l k)).
Proof.
  induction k as [| k IH]; simpl; [reflexivity |]. now rewrite IH, map_app.
Qed.

Lemma nth_concat_repeat {A : Type} (t : list A) (k b v : nat) (d : A) :
  (v < List.length t)%nat -> (b < k)%nat ->
  nth (v + List.length t * b) (List.concat (repeat t k)) d = nth v t d.
Proof.
  intros Hv. revert b. induction k as [| k IH]; intros b Hb; [lia |].
  simpl. destruct b as [| b].
  - rewrite Nat.mul_0_r, Nat.add_0_r. now apply app_nth1.
  - rewrite app_nth2 by lia.
    replace (v + List.length t * S b - List.length t)%nat
      with (v + List.length t * b)%nat by lia.
    apply IH. lia.
Qed.

Lemma in_concat_repeat {A : Type} (t : list A) (k : nat) (a : A) :
  In a (List.concat (repeat t k)) -> In a t.
Proof.
  induction k as [| k IH]; simpl; [contradiction |].
  rewrite in_app_iff. intros [H | H]; auto.
Qed.

Lemma as_int_fits (n : Z) : fits_int n -> as_int n = n.
Proof.
  unfold fits_int, as_int. intros H. rewrite Z.mod_small; lia.
Qed.

Lemma as_int_range (n : Z) : fits_int (as_int n).
Proof.
  unfold fits_int, as_int.
  pose proof (Z.mod_pos_bound (n + 2 ^ 31) (2 ^ 32) ltac:(lia)). lia.
Qed.

(** A function with integer results gives a table that holds, for every
    band, the clipped result at every sample value. *)
Lemma build_lut_int (g : Z -> Z) (nbands : Z) :
  (forall i, 0 <= i < 256 -> fits_long (g i)) ->
  build_lut (fun i => PyInt (g i)) nbands =
  Ok (List.concat (repeat (map (fun i => CLIP8 (as_int (g i))) (range 256))
                          (Z.to_nat nbands))).
Proof.
  intros Hg. unfold build_lut.
  rewrite concat_repeat_map, mapM_round_int, mapM_as_long.
  - rewrite map_map. now rewrite <- concat_repeat_map.
  - apply Forall_forall. intros n Hn. apply in_map_iff in Hn as (i & <- & Hi).
    apply in_concat_repeat, in_range in Hi. now apply Hg.
Qed.

Lemma table_entry (f : Z -> Z) (nbands b v : Z) :
  0 <= v < 256 -> 0 <= b < nbands ->
  nth (Z.to_nat (v + 256 * b))
      (List.concat (repeat (map f (range 256)) (Z.to_nat nbands))) 0 = f v.
Proof.
  intros Hv Hb.
  assert (Hlen : List.length (map f (range 256)) = 256%nat)
    by (rewrite length_map, range_length; reflexivity).
  replace (Z.to_nat (v + 256 * b))
    with (Z.to_nat v + List.length (map f (range 256)) * Z.to_nat b)%nat
    by (rewrite Hlen; lia).
  rewrite nth_concat_repeat by (rewrite ?Hlen; lia).
  now apply nth_map_range.
Qed.

Lemma point_pixel_map (f : Z -> Z) (nbands : Z) (px : list Z) (b : Z) :
  0 <= b -> b + len px <= nbands -> Forall sample_ok px ->
  point_pixel
    (List.concat (repeat (map f (range 256)) (Z.to_nat nbands))) b px
  = map f px.
Proof.
  revert b. induction px as [| v px IH]; intros b Hb Hlen Hok; [reflexivity |].
  inversion Hok as [| ? ? Hv Hrest]; subst. unfold sample_ok in Hv.
  unfold len in Hlen. cbn [List.length] in Hlen. cbn [point_pixel map].
  rewrite table_entry by lia. f_equal.
  apply IH; [lia | unfold len; lia | assumption].
Qed.

Lemma map_ext_Forall {A B : Type} (P : A -> Prop) (f g : A -> B) (l : list A) :
  (forall a, P a -> f a = g a) -> Forall P l -> map f l = map g l.
Proof.
  intros H. induction 1 as [| a l Ha _ IH]; simpl; [reflexivity |].
  now rewrite H, IH.
Qed.

(** [point] with an integer-valued function maps every sample of every band
    of a well-formed image through the same clipped function. *)
Lemma point_int (im : Image) (g : Z -> Z) :
  wf_image im ->
  (forall i, 0 <= i < 256 -> fits_long (g i)) ->
  point im (fun i => PyInt (g i))
  = Ok (map_samples (fun v => CLIP8 (as_int (g v))) im).
Proof.
  intros (_ & _ & _ & Hrows) Hg. unfold point, map_samples.
  rewrite build_lut_int by assumption. do 2 f_equal.
  apply map_ext_Forall with (P := row_ok (width im) (bands im)); [| assumption].
  intros row (_ & Hrow).
  apply map_ext_Forall with (P := pixel_ok (bands im)); [| assumption].
  intros px (Hlen & Hpx).
  apply point_pixel_map; [lia | lia | assumption].
Qed.

(* ===================================================================== *)
(** ** Output names *)
(* ===================================================================== *)

Lemma splitext_from_concat (lead : bool) (p : string) :
  fst (splitext_from lead p) ++ snd (splitext_from lead p) = p.
Proof.
  revert lead. induction p as [| c p IH]; intros lead; [reflexivity |].
  cbn [splitext_from]. specialize (IH (lead && Ascii.eqb c ".")).
  destruct (splitext_from (lead && Ascii.eqb c ".") p) as [base ext].
  cbn [fst snd] in IH.
  destruct (Ascii.eqb c "." && negb lead && String.eqb ext EmptyString);
    cbn [fst snd]; [reflexivity |].
  simpl. now rewrite IH.
Qed.

Lemma get_output_filename_eq (prefix : string) (s : State) :
  _get_output_filename prefix s = (Ok (output_name prefix s), s).
Proof.
  unfold _get_output_filename, output_name, splitext.
  pose proof (splitext_from_concat true (basename (image_path (self s)))) as H.
  destruct (splitext_from true (basename (image_path (self s)))) as [base ext].
  cbn [fst snd] in H. now rewrite H.
Qed.

(* ===================================================================== *)
(** ** Well-formed images and [crop] *)
(* ===================================================================== *)

Lemma mode_bands_nonneg (m : string) : 0 <= mode_bands m.
Proof.
  unfold mode_bands.
  repeat match goal with |- context [if ?c then _ else _] => destruct c end; lia.
Qed.

Lemma wf_pixel_at (im : Image) (x y : Z) :
  wf_image im -> 0 <= x < width im -> 0 <= y < height im ->
  pixel_ok (bands im) (pixel_at im x y).
Proof.
  intros (_ & _ & Hh & Hrows) Hx Hy. unfold pixel_at, len in *.
  assert (Hrow : row_ok (width im) (bands im) (nth (Z.to_nat y) (data im) [])).
  { eapply Forall_forall; [exact Hrows |]. apply nth_In. lia. }
  destruct Hrow as (Hw & Hpx). unfold len in Hw.
  eapply Forall_forall; [exact Hpx |]. apply nth_In. lia.
Qed.

Lemma in_image_iff (im : Image) (x y : Z) :
  in_image im x y = true <-> 0 <= x < width im /\ 0 <= y < height im.
Proof. unfold in_image. rewrite !andb_true_iff. lia. Qed.

Lemma crop_wf (im : Image) (box : Z * Z * Z * Z) :
  wf_image im -> wf_image (crop im box).
Proof.
  intros Hwf. destruct box as [[[x0 y0] x1] y1].
  unfold wf_image.
  change (bands (crop im (x0, y0, x1, y1))) with (bands im).
  unfold crop. cbn [width height data].
  repeat split; try lia.
  - unfold len. rewrite length_map, range_length. lia.
  - apply Forall_forall. intros row Hrow.
    apply in_map_iff in Hrow as (y & <- & Hy). split.
    + unfold len. rewrite length_map, range_length. lia.
    + apply Forall_forall. intros px Hpx.
      apply in_map_iff in Hpx as (x & <- & Hx).
      destruct (in_image im (x0 + x) (y0 + y)) eqn:Hin.
      * apply in_image_iff in Hin. now apply wf_pixel_at.
      * pose proof (mode_bands_nonneg (mode im)) as Hb. split.
        -- unfold len. rewrite repeat_length. unfold bands. lia.
        -- apply Forall_forall. intros v Hv. apply repeat_spec in Hv.
           subst v. unfold sample_ok. lia.
Qed.

Lemma crop_pixel_at (im : Image) (x0 y0 x1 y1 x y : Z) :
  0 <= x < x1 - x0 -> 0 <= y < y1 - y0 ->
  0 <= x0 -> x1 <= width im -> 0 <= y0 -> y1 <= height im ->
  pixel_at (crop im (x0, y0, x1, y1)) x y = pixel_at im (x0 + x) (y0 + y).
Proof.
  intros Hx Hy Hx0 Hx1 Hy0 Hy1. unfold pixel_at at 1. cbn [crop data].
  rewrite nth_map_range by lia. rewrite nth_map_range by lia.
  replace (in_image im (x0 + x) (y0 + y)) with true; [reflexivity |].
  symmetry. apply in_image_iff. lia.
Qed.

(* ===================================================================== *)
(** ** Saving *)
(* ===================================================================== *)

Lemma save_as_ok (lib : Library) (prefix : string) (im : Image) (st : State) :
  save_error lib (output_name prefix st) im = None ->
  save_as lib prefix im st = (Ok tt, saved st (output_name prefix st) im).
Proof.
  unfold save_error, save_as, save. intros H.
  destruct (save_outcome lib (output_name prefix st) im);
    [reflexivity | discriminate H | discriminate H].
Qed.

Lemma save_as_refused (lib : Library) (prefix : string) (im : Image)
    (st : State) (e : exception) :
  save_outcome lib (output_name prefix st) im = Refused e ->
  save_as lib prefix im st = (Raise e, st).
Proof. intros H. unfold save_as, save. now rewrite H. Qed.

Lemma save_as_failed (lib : Library) (prefix : string) (im : Image)
    (st : State) (e : exception) :
  save_outcome lib (output_name prefix st) im = Failed e ->
  save_as lib prefix im st = (Raise e, unsaved st (output_name prefix st)).
Proof. intros H. unfold save_as, save. now rewrite H. Qed.

(** The three outcomes of [save_as]. *)
Lemma save_as_cases (lib : Library) (prefix : string) (im : Image)
    (st : State) :
  (save_error lib (output_name prefix st) im = None
   /\ save_as lib prefix im st
      = (Ok tt, saved st (output_name prefix st) im))
  \/ (exists e,
         save_outcome lib (output_name prefix st) im = Refused e
         /\ save_error lib (output_name prefix st) im = Some e
         /\ save_as lib prefix im st = (Raise e, st))
  \/ (exists e,
         save_outcome lib (output_name prefix st) im = Failed e
         /\ save_error lib (output_name prefix st) im = Some e
         /\ save_as lib prefix im st
            = (Raise e, unsaved st (output_name prefix st))).
Proof.
  unfold save_error, save_as, save.
  destruct (save_outcome lib (output_name prefix st) im) as [| e | e].
  - left. now split.
  - right. left. now exists e.
  - right. right. now exists e.
Qed.

Lemma save_as_raises (lib : Library) (prefix : string) (im : Image)
    (st : State) (e : exception) :
  save_error lib (output_name prefix st) im = Some e ->
  fst (save_as lib prefix im st) = Raise e.
Proof.
  intros H.
  destruct (save_as_cases lib prefix im st)
    as [(Hn & _) | [(e0 & _ & He & ->) | (e0 & _ & He & ->)]];
    [rewrite Hn in H; discriminate H | |];
    rewrite He in H; now injection H as ->.
Qed.

Lemma save_as_raises_inv (lib : Library) (prefix : string) (im : Image)
    (st : State) (e : exception) :
  fst (save_as lib prefix im st) = Raise e ->
  save_error lib (output_name prefix st) im = Some e.
Proof.
  destruct (save_as_cases lib prefix im st)
    as [(_ & ->) | [(e0 & _ & He & ->) | (e0 & _ & He & ->)]]; cbn [fst];
    intros H; [discriminate H | |]; now injection H as <-.
Qed.

Lemma save_as_raise_inv (lib : Library) (prefix : string) (im : Image)
    (st st' : State) (e : exception) :
  save_as lib prefix im st = (Raise e, st') ->
  save_error lib (output_name prefix st) im = Some e
  /\ ((save_outcome lib (output_name prefix st) im = Refused e /\ st' = st)
      \/ (save_outcome lib (output_name prefix st) im = Failed e
          /\ st' = unsaved st (output_name prefix st))).
Proof.
  intros H.
  destruct (save_as_cases lib prefix im st)
    as [(_ & Hs) | [(e0 & Ho & He & Hs) | (e0 & Ho & He & Hs)]];
    rewrite Hs in H; [discriminate H | |]; injection H as <- <-;
    (split; [exact He |]); [left | right]; now split.
Qed.

Lemma save_as_ok_inv (lib : Library) (prefix : string) (im : Image)
    (st st' : State) :
  save_as lib prefix im st = (Ok tt, st') ->
  save_error lib (output_name prefix st) im = None
  /\ st' = saved st (output_name prefix st) im.
Proof.
  intros H.
  destruct (save_as_cases lib prefix im st)
    as [(Hn & Hs) | [(e0 & _ & _ & Hs) | (e0 & _ & _ & Hs)]];
    rewrite Hs in H; [| discriminate H | discriminate H].
  injection H as <-. now split.
Qed.

Lemma save_as_self (lib : Library) (prefix : string) (im : Image) (st : State) :
  self (snd (save_as lib prefix im st)) = self st.
Proof.
  destruct (save_as_cases lib prefix im st)
    as [(_ & ->) | [(e0 & _ & _ & ->) | (e0 & _ & _ & ->)]]; reflexivity.
Qed.

Lemma save_as_stdout (lib : Library) (prefix : string) (im : Image)
    (st : State) :
  stdout (world (snd (save_as lib prefix im st))) = stdout (world st).
Proof.
  destruct (save_as_cases lib prefix im st)
    as [(_ & ->) | [(e0 & _ & _ & ->) | (e0 & _ & _ & ->)]]; reflexivity.
Qed.

(** *** Files by name *)

Lemma lookup_write_same (name : string) (im : Image)
    (fs : list (string * Image)) :
  lookup_file name (write_file name im fs) = Some im.
Proof.
  induction fs as [| [n old] fs IH]; cbn [write_file lookup_file].
  - now rewrite String.eqb_refl.
  - destruct (String.eqb n name) eqn:E; cbn [lookup_file].
    + now rewrite String.eqb_refl.
    + now rewrite E.
Qed.

Lemma lookup_write_other (name other : string) (im : Image)
    (fs : list (string * Image)) :
  other <> name ->
  lookup_file other (write_file name im fs) = lookup_file other fs.
Proof.
  intros Hne. apply String.eqb_neq in Hne.
  induction fs as [| [n old] fs IH]; cbn [write_file lookup_file].
  - rewrite String.eqb_sym. now rewrite Hne.
  - destruct (String.eqb n name) eqn:E; cbn [lookup_file].
    + apply String.eqb_eq in E. subst n.
      rewrite (String.eqb_sym name other). now rewrite Hne.
    + destruct (String.eqb n other); [reflexivity | exact IH].
Qed.

Lemma lookup_remove_same (name : string) (fs : list (string * Image)) :
  lookup_file name (remove_file name fs) = None.
Proof.
  induction fs as [| [n old] fs IH]; cbn [remove_file lookup_file];
    [reflexivity |].
  destruct (String.eqb n name) eqn:E; [exact IH |].
  cbn [lookup_file]. now rewrite E.
Qed.

Lemma lookup_remove_other (name other : string)
    (fs : list (string * Image)) :
  other <> name ->
  lookup_file other (remove_file name fs) = lookup_file other fs.
Proof.
  intros Hne. apply String.eqb_neq in Hne.
  induction fs as [| [n old] fs IH]; cbn [remove_file lookup_file];
    [reflexivity |].
  destruct (String.eqb n name) eqn:E; cbn [lookup_file].
  - apply String.eqb_eq in E. subst n.
    rewrite (String.eqb_sym name other), Hne. exact IH.
  - destruct (String.eqb n other); [reflexivity | exact IH].
Qed.

Lemma remove_file_fresh (name : string) (fs : list (string * Image)) :
  ~ In name (map fst fs) -> remove_file name fs = fs.
Proof.
  induction fs as [| [n old] fs IH]; cbn [remove_file map fst In];
    [reflexivity |].
  intros Hn. destruct (String.eqb_spec n name) as [-> | _].
  - exfalso. apply Hn. now left.
  - f_equal. apply IH. intros Hin. apply Hn. now right.
Qed.

Lemma write_file_fresh (name : string) (im : Image)
    (fs : list (string * Image)) :
  ~ In name (map fst fs) ->
  write_file name im fs = (fs ++ [(name, im)])%list.
Proof.
  induction fs as [| [n old] fs IH]; cbn [write_file map fst In app];
    [reflexivity |].
  intros Hn. destruct (String.eqb_spec n name) as [-> | _].
  - exfalso. apply Hn. now left.
  - f_equal. apply IH. intros Hin. apply Hn. now right.
Qed.

Lemma write_file_twice (name : string) (im im' : Image)
    (fs : list (string * Image)) :
  write_file name im' (write_file name im fs) = write_file name im' fs.
Proof.
  induction fs as [| [n old] fs IH]; cbn [write_file].
  - now rewrite String.eqb_refl.
  - destruct (String.eqb n name) eqn:E; cbn [write_file].
    + now rewrite String.eqb_refl.
    + now rewrite E, IH.
Qed.

(* ===================================================================== *)
(** ** Rectangular crop *)
(* ===================================================================== *)

Lemma crop_image_bounds (lib : Library) (st : State)
    (left upper right lower : Z) :
  left < 0 \/ upper < 0 \/ right > width (image (self st))
  \/ lower > height (image (self st)) ->
  crop_image lib left upper right lower st =
  (Raise (ValueError_ (bounds_message (width (image (self st)))
                                      (height (image (self st))))), st).
Proof.
  intros H. unfold crop_image, bind, get_image, size, raise.
  replace ((left <? 0) || (upper <? 0) || (right >? width (image (self st)))
           || (lower >? height (image (self st)))) with true; [reflexivity |].
  symmetry. rewrite !orb_true_iff, !Z.ltb_lt, !Z.gtb_ltb, !Z.ltb_lt. lia.
Qed.

Lemma crop_image_order (lib : Library) (st : State)
    (left upper right lower : Z) :
  0 <= left -> 0 <= upper ->
  right <= width (image (self st)) -> lower <= height (image (self st)) ->
  left >= right \/ upper >= lower ->
  crop_image lib left upper right lower st
  = (Raise (ValueError_ order_message), st).
Proof.
  intros Hl Hu Hr Hb H. unfold crop_image, bind, get_image, size, raise.
  replace ((left <? 0) || (upper <? 0) || (right >? width (image (self st)))
           || (lower >? height (image (self st)))) with false.
  - replace ((left >=? right) || (upper >=? lower)) with true; [reflexivity |].
    symmetry. rewrite orb_true_iff, !Z.geb_leb, !Z.leb_le. lia.
  - symmetry. rewrite !orb_false_iff, !Z.ltb_ge, !Z.gtb_ltb, !Z.ltb_ge. lia.
Qed.

(** A box that passes the two tests is cropped and the crop handed to
    [save]. *)
Lemma crop_image_accepts (lib : Library) (st : State)
    (left upper right lower : Z) :
  0 <= left < right -> right <= width (image (self st)) ->
  0 <= upper < lower -> lower <= height (image (self st)) ->
  crop_image lib left upper right lower st =
  save_as lib "cropped" (crop (image (self st)) (left, upper, right, lower)) st.
Proof.
  intros Hl Hr Hu Hb. unfold crop_image, bind, get_image, size.
  replace ((left <? 0) || (upper <? 0) || (right >? width (image (self st)))
           || (lower >? height (image (self st)))) with false
    by (symmetry; rewrite !orb_false_iff, !Z.ltb_ge, !Z.gtb_ltb, !Z.ltb_ge; lia).
  replace ((left >=? right) || (upper >=? lower)) with false
    by (symmetry; rewrite orb_false_iff, !Z.geb_leb, !Z.leb_gt; lia).
  rewrite get_output_filename_eq. reflexivity.
Qed.

(** The outcomes of [crop_image]: one of the two rejections, or the crop
    handed to [save]. *)
Lemma crop_image_outcomes (lib : Library) (st : State)
    (left upper right lower : Z) :
  crop_image lib left upper right lower st
  = (Raise (ValueError_ (bounds_message (width (image (self st)))
                                        (height (image (self st))))), st)
  \/ crop_image lib left upper right lower st
     = (Raise (ValueError_ order_message), st)
  \/ crop_image lib left upper right lower st
     = save_as lib "cropped"
               (crop (image (self st)) (left, upper, right, lower)) st.
Proof.
  unfold crop_image, bind, get_image, size, raise.
  destruct ((left <? 0) || (upper <? 0) || (right >? width (image (self st)))
            || (lower >? height (image (self st)))); [now left |].
  destruct ((left >=? right) || (upper >=? lower)); [right; now left |].
  right. right. rewrite get_output_filename_eq. reflexivity.
Qed.

Lemma crop_image_self (lib : Library) (st : State)
    (left upper right lower : Z) :
  self (snd (crop_image lib left upper right lower st)) = self st.
Proof.
  destruct (crop_image_outcomes lib st left upper right lower)
    as [-> | [-> | ->]]; [reflexivity | reflexivity | apply save_as_self].
Qed.

(** C4, as amended.  [crop_image] rejects every invalid box with a
    [ValueError], and nothing is saved.  The test made first is
    [left < 0 or upper < 0 or right > width or lower > height]: a box that
    fails it is rejected with the message that names the image dimensions,
    whatever the order of its coordinates.  A box that passes it and has
    [left >= right] or [upper >= lower] is rejected with the message that
    states the ordering requirement; this is also how a box with
    [left > width], [upper > height], [right < 0] or [lower < 0] alone is
    rejected.  So every box with a coordinate outside the image, and every
    box that is out of order, fails with one of the two messages. *)
Theorem crop_image_rejects (lib : Library) (st : State)
    (left upper right lower : Z) :
  (left < 0 \/ upper < 0 \/ right > width (image (self st))
   \/ lower > height (image (self st)) ->
   crop_image lib left upper right lower st =
   (Raise (ValueError_ (bounds_message (width (image (self st)))
                                       (height (image (self st))))), st))
  /\
  (0 <= left /\ 0 <= upper /\ right <= width (image (self st))
   /\ lower <= height (image (self st)) ->
   left >= right \/ upper >= lower ->
   crop_image lib left upper right lower st =
   (Raise (ValueError_ order_message), st))
  /\
  (~ (0 <= left <= width (image (self st))
      /\ 0 <= right <= width (image (self st))
      /\ 0 <= upper <= height (image (self st))
      /\ 0 <= lower <= height (image (self st)))
   \/ left >= right \/ upper >= lower ->
   exists msg,
     crop_image lib left upper right lower st = (Raise (ValueError_ msg), st)
     /\ (msg = bounds_message (width (image (self st)))
                              (height (image (self st)))
         \/ msg = order_message)).
Proof.
  split; [| split].
  - apply crop_image_bounds.
  - intros (Hl & Hu & Hr & Hb) Hord. now apply crop_image_order.
  - intros H.
    destruct (Z_lt_dec left 0) as [Hl | Hl];
      [eexists; split; [apply crop_image_bounds; lia | now left] |].
    destruct (Z_lt_dec upper 0) as [Hu | Hu];
      [eexists; split; [apply crop_image_bounds; lia | now left] |].
    destruct (Z_gt_dec right (width (image (self st)))) as [Hr | Hr];
      [eexists; split; [apply crop_image_bounds; lia | now left] |].
    destruct (Z_gt_dec lower (height (image (self st)))) as [Hb | Hb];
      [eexists; split; [apply crop_image_bounds; lia | now left] |].
    exists order_message. split; [| now right].
    apply crop_image_order; lia.
Qed.

Lemma crop_image_rejects_witness :
  crop_image png_library (-1) 0 5 5 (state_of black_10x10 "photo.png") =
  (Raise (ValueError_ (bounds_message 10 10)), state_of black_10x10 "photo.png")
  /\
  crop_image png_library 5 0 5 5 (state_of black_10x10 "photo.png") =
  (Raise (ValueError_ order_message), state_of black_10x10 "photo.png")
  /\
  exists msg,
    crop_image png_library 11 0 5 5 (state_of black_10x10 "photo.png") =
    (Raise (ValueError_ msg), state_of black_10x10 "photo.png")
    /\ (msg = bounds_message 10 10 \/ msg = order_message).
Proof.
  split; [| split].
  - apply (proj1 (crop_image_rejects png_library
                    (state_of black_10x10 "photo.png") (-1) 0 5 5)).
    left. lia.
  - apply (proj1 (proj2 (crop_image_rejects png_library
                           (state_of black_10x10 "photo.png") 5 0 5 5))).
    + simpl. lia.
    + left. lia.
  - apply (proj2 (proj2 (crop_image_rejects png_library
                           (state_of black_10x10 "photo.png") 11 0 5 5))).
    left. simpl. lia.
Defined.

(** C4 as stated fails: on an image of 10 by 10 pixels the box
    [(11, 0, 5, 5)] has its left coordinate outside [[0, width]], and it is
    rejected with the message about the order of the coordinates, not with
    the one that names the image dimensions. *)
Lemma crop_image_left_beyond_width :
  size black_10x10 = (10, 10)
  /\ ~ (0 <= 11 <= width black_10x10)
  /\ crop_image png_library 11 0 5 5 (state_of black_10x10 "photo.png") =
     (Raise (ValueError_ order_message), state_of black_10x10 "photo.png")
  /\ crop_image png_library 11 0 5 5 (state_of black_10x10 "photo.png") <>
     (Raise (ValueError_ (bounds_message 10 10)),
      state_of black_10x10 "photo.png").
Proof.
  split; [reflexivity |]. split; [simpl; lia |].
  split; [vm_compute; reflexivity |].
  vm_compute. intros H. discriminate H.
Qed.

Lemma crop_size (im : Image) (x0 y0 x1 y1 : Z) :
  x0 <= x1 -> y0 <= y1 ->
  size (crop im (x0, y0, x1, y1)) = (x1 - x0, y1 - y0).
Proof.
  intros Hx Hy. unfold size, crop. cbn [width height]. f_equal; lia.
Qed.

(** C5, as amended.  On a well-formed image, a box with
    [0 <= left < right <= width] and [0 <= upper < lower <= height] passes
    the two tests, and the cropped image is handed to [save] under the
    [cropped] prefix.  That image has size [(right - left, lower - upper)],
    the mode of the source, rows and pixels that agree with its size, and at
    every position [(x, y)] the pixel of the source at
    [(left + x, upper + y)].  The operation returns, with the file written,
    exactly when the library writes that image under that name; when the
    library raises, its exception comes out of [crop_image]. *)
Theorem crop_image_valid (lib : Library) (st : State)
    (left upper right lower : Z) :
  wf_image (image (self st)) ->
  0 <= left < right /\ right <= width (image (self st)) ->
  0 <= upper < lower /\ lower <= height (image (self st)) ->
  crop_image lib left upper right lower st
  = save_as lib "cropped"
            (crop (image (self st)) (left, upper, right, lower)) st
  /\ (save_error lib (output_name "cropped" st)
                 (crop (image (self st)) (left, upper, right, lower)) = None ->
      crop_image lib left upper right lower st
      = (Ok tt, saved st (output_name "cropped" st)
                      (crop (image (self st)) (left, upper, right, lower))))
  /\ (forall e,
        save_error lib (output_name "cropped" st)
                   (crop (image (self st)) (left, upper, right, lower))
        = Some e ->
        fst (crop_image lib left upper right lower st) = Raise e)
  /\ size (crop (image (self st)) (left, upper, right, lower))
     = (right - left, lower - upper)
  /\ mode (crop (image (self st)) (left, upper, right, lower))
     = mode (image (self st))
  /\ wf_image (crop (image (self st)) (left, upper, right, lower))
  /\ forall x y,
       0 <= x < right - left -> 0 <= y < lower - upper ->
       pixel_at (crop (image (self st)) (left, upper, right, lower)) x y
       = pixel_at (image (self st)) (left + x) (upper + y).
Proof.
  intros Hwf (Hl & Hr) (Hu & Hb).
  assert (Heq := crop_image_accepts lib st left upper right lower Hl Hr Hu Hb).
  split; [exact Heq |].
  split; [intros Hs; rewrite Heq; now apply save_as_ok |].
  split; [intros e Hs; rewrite Heq; now apply save_as_raises |].
  split; [apply crop_size; lia |].
  split; [reflexivity |].
  split; [apply (crop_wf _ (left, upper, right, lower) Hwf) |].
  intros x y Hx Hy. apply crop_pixel_at; lia.
Qed.

Lemma dot_3x2_wf : wf_image dot_3x2.
Proof. wf_by_computation. Defined.

Lemma crop_image_valid_witness :
  crop_image png_library 1 0 3 2 (state_of dot_3x2 "dir/photo.png")
  = save_as png_library "cropped" (crop dot_3x2 (1, 0, 3, 2))
            (state_of dot_3x2 "dir/photo.png")
  /\ (save_error png_library "cropped_photo.png" (crop dot_3x2 (1, 0, 3, 2))
      = None ->
      crop_image png_library 1 0 3 2 (state_of dot_3x2 "dir/photo.png")
      = (Ok tt, saved (state_of dot_3x2 "dir/photo.png") "cropped_photo.png"
                      (crop dot_3x2 (1, 0, 3, 2))))
  /\ (forall e,
        save_error png_library "cropped_photo.png" (crop dot_3x2 (1, 0, 3, 2))
        = Some e ->
        fst (crop_image png_library 1 0 3 2 (state_of dot_3x2 "dir/photo.png"))
        = Raise e)
  /\ size (crop dot_3x2 (1, 0, 3, 2)) = (2, 2)
  /\ mode (crop dot_3x2 (1, 0, 3, 2)) = "RGB"
  /\ wf_image (crop dot_3x2 (1, 0, 3, 2))
  /\ forall x y,
       0 <= x < 2 -> 0 <= y < 2 ->
       pixel_at (crop dot_3x2 (1, 0, 3, 2)) x y = pixel_at dot_3x2 (1 + x) (0 + y).
Proof.
  apply (crop_image_valid png_library (state_of dot_3x2 "dir/photo.png")
                          1 0 3 2).
  - exact dot_3x2_wf.
  - simpl. lia.
  - simpl. lia.
Defined.

(** C5 as stated fails: a valid box does not make the operation succeed.
    The image [dot_3x2] is well formed and the box [(1, 0, 3, 2)] is valid
    for it, but the input path [photo] has no extension, so the output name
    [cropped_photo] has none either and the library finds no format to write
    it: [save] raises, [crop_image] raises with it, and there is no
    output. *)
Lemma crop_image_valid_box_fails :
  wf_image dot_3x2
  /\ (0 <= 1 < 3 /\ 3 <= width dot_3x2)
  /\ (0 <= 0 < 2 /\ 2 <= height dot_3x2)
  /\ output_name "cropped" (state_of dot_3x2 "photo") = "cropped_photo"
  /\ crop_image png_library 1 0 3 2 (state_of dot_3x2 "photo")
     = (Raise (ValueError_ "unknown file extension: "),
        state_of dot_3x2 "photo")
  /\ files (world (snd (crop_image png_library 1 0 3 2
                                   (state_of dot_3x2 "photo")))) = [].
Proof.
  split; [exact dot_3x2_wf |].
  split; [simpl; lia |]. split; [simpl; lia |].
  split; [reflexivity |].
  split; vm_compute; reflexivity.
Qed.

(* ===================================================================== *)
(** ** Auto-crop: projections and bounding box *)
(* ===================================================================== *)

Lemma nth_map_nil {A B : Type} (g : A -> B) (n : nat) (l : list (list A)) :
  nth n (map (map g) l) [] = map g (nth n l []).
Proof. change (@nil B) with (map g (@nil A)). apply map_nth. Qed.

Lemma pixel_at_map_samples (f : Z -> Z) (im : Image) (x y : Z) :
  pixel_at (map_samples f im) x y = map f (pixel_at im x y).
Proof.
  unfold pixel_at, map_samples. cbn [data].
  now rewrite (nth_map_nil (map f)), (nth_map_nil f).
Qed.


Lemma map_samples_ext (f g : Z -> Z) (im : Image) :
  wf_image im -> (forall v, sample_ok v -> f v = g v) ->
  map_samples f im = map_samples g im.
Proof.
  intros (_ & _ & _ & Hrows) Hfg. unfold map_samples. f_equal.
  apply map_ext_Forall with (P := row_ok (width im) (bands im)); [| assumption].
  intros row (_ & Hrow).
  apply map_ext_Forall with (P := pixel_ok (bands im)); [| assumption].
  intros px (_ & Hpx).
  now apply map_ext_Forall with (P := sample_ok).
Qed.

Lemma point_binarize (gray : Image) :
  wf_image gray ->
  point gray binarize_lambda
  = Ok (map_samples (fun v => CLIP8 (Z.b2z (v >? 0))) gray).
Proof.
  intros Hwf. unfold binarize_lambda.
  rewrite (point_int gray (fun p => Z.b2z (p >? 0)) Hwf)
    by (intros i _; unfold fits_long; destruct (i >? 0); simpl; lia).
  f_equal. apply map_samples_ext; [assumption |].
  intros v _. rewrite as_int_fits; [reflexivity |].
  unfold fits_int. destruct (v >? 0); simpl; lia.
Qed.

(** In the binarized image a pixel is true exactly when the gray value is
    above zero. *)
Lemma truth_binarized (gray : Image) (x y : Z) :
  wf_image gray -> bands gray = 1 ->
  0 <= x < width gray -> 0 <= y < height gray ->
  truth (getpixel (map_samples (fun v => CLIP8 (Z.b2z (v >? 0))) gray) (x, y))
  = (0 <? luminance gray x y).
Proof.
  intros Hwf Hb Hx Hy. unfold getpixel, luminance. cbn [fst snd].
  rewrite pixel_at_map_samples.
  destruct (wf_pixel_at gray x y Hwf Hx Hy) as (Hlen & Hok).
  rewrite Hb in Hlen. unfold len in Hlen.
  destruct (pixel_at gray x y) as [| v [| v' px]];
    cbn [List.length] in Hlen; try lia.
  cbn [map truth nth]. rewrite Z.gtb_ltb.
  destruct (0 <? v); reflexivity.
Qed.

Lemma x_projection_binarized (gray : Image) :
  wf_image gray -> bands gray = 1 ->
  x_projection_of (map_samples (fun v => CLIP8 (Z.b2z (v >? 0))) gray)
  = x_content gray.
Proof.
  intros Hwf Hb. unfold x_projection_of, x_content, column_content. cbn [width height map_samples].
  apply map_ext_in. intros x Hx. apply in_range in Hx.
  rewrite <- any_existsb. f_equal.
  apply map_ext_in. intros y Hy. apply in_range in Hy.
  now apply truth_binarized.
Qed.

Lemma y_projection_binarized (gray : Image) :
  wf_image gray -> bands gray = 1 ->
  y_projection_of (map_samples (fun v => CLIP8 (Z.b2z (v >? 0))) gray)
  = y_content gray.
Proof.
  intros Hwf Hb. unfold y_projection_of, y_content, row_content. cbn [width height map_samples].
  apply map_ext_in. intros y Hy. apply in_range in Hy.
  rewrite <- any_existsb. f_equal.
  apply map_ext_in. intros x Hx. apply in_range in Hx.
  now apply truth_binarized.
Qed.


(** [crop_empty], one step after the other: the working image is replaced
    before the new one is saved. *)
Lemma crop_empty_unfold (lib : Library) (st : State) :
  crop_empty lib st =
  match point (convert lib (image (self st)) "L") binarize_lambda with
  | Raise e => (Raise e, st)
  | Ok binary =>
      match index true (x_projection_of binary) with
      | Raise e => (Raise e, st)
      | Ok x0 =>
          match index true (reversed (x_projection_of binary)) with
          | Raise e => (Raise e, st)
          | Ok from_right =>
              match index true (y_projection_of binary) with
              | Raise e => (Raise e, st)
              | Ok y0 =>
                  match index true (reversed (y_projection_of binary)) with
                  | Raise e => (Raise e, st)
                  | Ok from_bottom =>
                      let box :=
                        (x0, y0,
                         len (x_projection_of binary) - from_right,
                         len (y_projection_of binary) - from_bottom) in
                      save_as lib "cropped_empty"
                              (crop (image (self st)) box)
                              (with_image st (crop (image (self st)) box))
                  end
              end
          end
      end
  end.
Proof.
  unfold crop_empty, bind, get_image, lift.
  destruct (point (convert lib (image (self st)) "L") binarize_lambda)
    as [binary |]; [| reflexivity].
  destruct (index true (x_projection_of binary)); [| reflexivity].
  destruct (index true (reversed (x_projection_of binary))); [| reflexivity].
  destruct (index true (y_projection_of binary)); [| reflexivity].
  destruct (index true (reversed (y_projection_of binary))); [| reflexivity].
  cbn [set_image]. rewrite get_output_filename_eq. reflexivity.
Qed.

(** The outcomes of the last two statements of [crop_empty]. *)
Lemma crop_empty_tail (lib : Library) (st : State) (im : Image) :
  self (snd (save_as lib "cropped_empty" im (with_image st im)))
  = {| image := im; image_path := image_path (self st) |}
  /\ (save_error lib (output_name "cropped_empty" st) im = None ->
      save_as lib "cropped_empty" im (with_image st im)
      = (Ok tt, saved (with_image st im) (output_name "cropped_empty" st) im))
  /\ (forall e,
        save_error lib (output_name "cropped_empty" st) im = Some e ->
        fst (save_as lib "cropped_empty" im (with_image st im)) = Raise e).
Proof.
  split; [now rewrite save_as_self |].
  split;
    [intros H; exact (save_as_ok lib "cropped_empty" im (with_image st im) H) |].
  intros e H.
  exact (save_as_raises lib "cropped_empty" im (with_image st im) e H).
Qed.

Lemma len_rev {A : Type} (l : list A) : len (rev l) = len l.
Proof. unfold len. now rewrite length_rev. Qed.

Lemma nth_rev_Z (l : list bool) (k : Z) :
  0 <= k < len l ->
  nth (Z.to_nat k) (rev l) false = nth (Z.to_nat (len l - 1 - k)) l false.
Proof.
  intros Hk. unfold len in *. rewrite rev_nth by lia. f_equal. lia.
Qed.

(** The two lookups of a projection that holds a [True]: the first [True]
    from the left, the first [True] from the right, and every [True] lies
    between them. *)
Lemma projection_bounds (l : list bool) :
  In true l ->
  exists a k,
    index true l = Ok a /\ index true (reversed l) = Ok k
    /\ first_true l a /\ first_true (rev l) k
    /\ 0 <= a < len l - k /\ len l - k <= len l
    /\ nth (Z.to_nat (len l - k - 1)) l false = true
    /\ forall i, 0 <= i < len l -> nth (Z.to_nat i) l false = true ->
                 a <= i < len l - k.
Proof.
  intros Hin.
  destruct (index_found l Hin) as (a & Ha).
  destruct (index_found (rev l)) as (k & Hk); [now apply in_rev in Hin |].
  pose proof (index_first_true _ _ Ha) as Hfa.
  pose proof (index_first_true _ _ Hk) as Hfk.
  exists a, k. unfold reversed.
  destruct Hfa as (Hra & Hta & Hba). destruct Hfk as (Hrk & Htk & Hbk).
  rewrite len_rev in Hrk.
  assert (Hlast : nth (Z.to_nat (len l - k - 1)) l false = true).
  { rewrite nth_rev_Z in Htk by lia.
    now replace (len l - k - 1) with (len l - 1 - k) by lia. }
  assert (Hall : forall i, 0 <= i < len l ->
                   nth (Z.to_nat i) l false = true -> a <= i < len l - k).
  { intros i Hi Hti. split.
    - destruct (Z_lt_dec i a) as [Hlt | Hge]; [| lia].
      rewrite Hba in Hti by lia. discriminate.
    - destruct (Z_lt_dec i (len l - k)) as [Hlt | Hge]; [assumption |].
      specialize (Hbk (len l - 1 - i)).
      rewrite nth_rev_Z in Hbk by lia.
      replace (len l - 1 - (len l - 1 - i)) with i in Hbk by lia.
      rewrite Hbk in Hti by lia. discriminate. }
  assert (Hak : a <= len l - k - 1 < len l - k)
    by (apply Hall; [lia | exact Hlast]).
  repeat split; try assumption; try lia; try (rewrite len_rev; lia).
  - now apply Hall.
  - now apply Hall.
Qed.

Lemma column_content_true (gray : Image) (x : Z) :
  column_content gray x = true <->
  exists y, 0 <= y < height gray /\ 0 < luminance gray x y.
Proof.
  unfold column_content. rewrite existsb_exists. split.
  - intros (y & Hy & H). exists y. apply in_range in Hy. apply Z.ltb_lt in H. auto.
  - intros (y & Hy & H). exists y. split; [now apply in_range | now apply Z.ltb_lt].
Qed.

Lemma row_content_true (gray : Image) (y : Z) :
  row_content gray y = true <->
  exists x, 0 <= x < width gray /\ 0 < luminance gray x y.
Proof.
  unfold row_content. rewrite existsb_exists. split.
  - intros (x & Hx & H). exists x. apply in_range in Hx. apply Z.ltb_lt in H. auto.
  - intros (x & Hx & H). exists x. split; [now apply in_range | now apply Z.ltb_lt].
Qed.

(** C3.  When the luminance view of the working image holds no value above
    zero, [crop_empty] fails: the lookup of the first [True] in the column
    projection raises a [ValueError], no bounding box is formed, the working
    image is not replaced and nothing is saved. *)
Theorem crop_empty_no_content (lib : Library) (st : State) :
  wf_image (convert lib (image (self st)) "L") ->
  bands (convert lib (image (self st)) "L") = 1 ->
  (forall x y,
      0 <= x < width (convert lib (image (self st)) "L") ->
      0 <= y < height (convert lib (image (self st)) "L") ->
      luminance (convert lib (image (self st)) "L") x y <= 0) ->
  crop_empty lib st
  = (Raise (Exception ValueError "True is not in list"), st).
Proof.
  intros Hwf Hb Hempty.
  rewrite crop_empty_unfold, point_binarize by assumption.
  rewrite x_projection_binarized by assumption.
  rewrite index_missing; [reflexivity |].
  intros Hin. unfold x_content in Hin. apply in_map_iff in Hin as (x & Hx & Hr).
  apply in_range in Hr. apply column_content_true in Hx as (y & Hy & Hpos).
  specialize (Hempty x y Hr Hy). lia.
Qed.

Lemma nth_x_content (gray : Image) (x : Z) :
  0 <= x < width gray ->
  nth (Z.to_nat x) (x_content gray) false = column_content gray x.
Proof. intros H. unfold x_content. now apply nth_map_range. Qed.

Lemma nth_y_content (gray : Image) (y : Z) :
  0 <= y < height gray ->
  nth (Z.to_nat y) (y_content gray) false = row_content gray y.
Proof. intros H. unfold y_content. now apply nth_map_range. Qed.

Lemma len_x_content (gray : Image) :
  0 <= width gray -> len (x_content gray) = width gray.
Proof.
  intros H. unfold x_content, len. rewrite length_map, range_length. lia.
Qed.

Lemma len_y_content (gray : Image) :
  0 <= height gray -> len (y_content gray) = height gray.
Proof.
  intros H. unfold y_content, len. rewrite length_map, range_length. lia.
Qed.

(** The run of [crop_empty] on an image with content, and what is known of
    its box. *)
Lemma crop_empty_box (lib : Library) (st : State) :
  wf_image (convert lib (image (self st)) "L") ->
  bands (convert lib (image (self st)) "L") = 1 ->
  (exists x y,
      0 <= x < width (convert lib (image (self st)) "L")
      /\ 0 <= y < height (convert lib (image (self st)) "L")
      /\ 0 < luminance (convert lib (image (self st)) "L") x y) ->
  exists left upper right lower,
    crop_empty lib st
    = save_as lib "cropped_empty"
              (crop (image (self st)) (left, upper, right, lower))
              (with_image st (crop (image (self st))
                                   (left, upper, right, lower)))
    /\ first_true (x_content (convert lib (image (self st)) "L")) left
    /\ first_true (rev (x_content (convert lib (image (self st)) "L")))
                  (width (convert lib (image (self st)) "L") - right)
    /\ first_true (y_content (convert lib (image (self st)) "L")) upper
    /\ first_true (rev (y_content (convert lib (image (self st)) "L")))
                  (height (convert lib (image (self st)) "L") - lower)
    /\ (0 <= left < right
        /\ right <= width (convert lib (image (self st)) "L"))
    /\ (0 <= upper < lower
        /\ lower <= height (convert lib (image (self st)) "L"))
    /\ column_content (convert lib (image (self st)) "L") left = true
    /\ column_content (convert lib (image (self st)) "L") (right - 1) = true
    /\ row_content (convert lib (image (self st)) "L") upper = true
    /\ row_content (convert lib (image (self st)) "L") (lower - 1) = true
    /\ forall x y,
         0 <= x < width (convert lib (image (self st)) "L") ->
         0 <= y < height (convert lib (image (self st)) "L") ->
         0 < luminance (convert lib (image (self st)) "L") x y ->
         left <= x < right /\ upper <= y < lower.
Proof.
  set (gray := convert lib (image (self st)) "L").
  intros Hwf Hb (x & y & Hx & Hy & Hpos).
  assert (Hw : 0 <= width gray) by (destruct Hwf; lia).
  assert (Hh : 0 <= height gray) by (destruct Hwf as (_ & ? & _); lia).
  assert (Hinx : In true (x_content gray)).
  { apply in_map_iff. exists x. split; [| now apply in_range].
    apply column_content_true. now exists y. }
  assert (Hiny : In true (y_content gray)).
  { apply in_map_iff. exists y. split; [| now apply in_range].
    apply row_content_true. now exists x. }
  destruct (projection_bounds _ Hinx)
    as (a & k & Ha & Hk & Hfa & Hfk & Hak & Hk' & Hlx & Hallx).
  destruct (projection_bounds _ Hiny)
    as (b & m & Hb' & Hm & Hfb & Hfm & Hbm & Hm' & Hly & Hally).
  rewrite len_x_content in * by assumption.
  rewrite len_y_content in * by assumption.
  exists a, b, (width gray - k), (height gray - m).
  replace (width gray - (width gray - k)) with k by lia.
  replace (height gray - (height gray - m)) with m by lia.
  split.
  { rewrite crop_empty_unfold. fold gray. rewrite point_binarize by assumption.
    rewrite x_projection_binarized, y_projection_binarized by assumption.
    rewrite Ha, Hk, Hb', Hm.
    rewrite len_x_content, len_y_content by assumption. reflexivity. }
  do 4 (split; [assumption |]).
  split; [lia |]. split; [lia |].
  split; [rewrite <- nth_x_content by lia; apply Hfa |].
  split; [rewrite <- nth_x_content by lia; exact Hlx |].
  split; [rewrite <- nth_y_content by lia; apply Hfb |].
  split; [rewrite <- nth_y_content by lia; exact Hly |].
  intros x' y' Hx' Hy' Hpos'. split.
  - apply Hallx; [lia |]. rewrite nth_x_content by lia.
    apply column_content_true. now exists y'.
  - apply Hally; [lia |]. rewrite nth_y_content by lia.
    apply row_content_true. now exists x'.
Qed.

(** C2.  With [gray] the luminance view of the working image, a pixel is
    content when its value is above zero: the binarized image is true exactly
    there, so the two projections the code builds are [x_content gray] and
    [y_content gray].  When some pixel is content, the four lookups succeed:
    [left] is the position of the first [True] of the column projection,
    [right] is the length of that projection minus the position of the first
    [True] of its reversal, [upper] and [lower] are the same on the row
    projection.  The working image is then replaced by the crop of the former
    one to [(left, upper, right, lower)], and that image is handed to [save]
    under the [cropped_empty] prefix: whether the library writes it or
    raises, the working image is the cropped one after the call.  The new
    image has size [(right - left, lower - upper)] and the mode of the former
    one, and when the luminance view has the size of the image its pixel
    [(x, y)] is the former pixel [(left + x, upper + y)].  The box lies
    inside the image, is not empty, its outer columns and rows hold content,
    and every content pixel is in it. *)
Theorem crop_empty_bounding_box (lib : Library) (st : State) :
  wf_image (convert lib (image (self st)) "L") ->
  bands (convert lib (image (self st)) "L") = 1 ->
  (exists x y,
      0 <= x < width (convert lib (image (self st)) "L")
      /\ 0 <= y < height (convert lib (image (self st)) "L")
      /\ 0 < luminance (convert lib (image (self st)) "L") x y) ->
  exists binary left upper right lower,
    point (convert lib (image (self st)) "L") binarize_lambda = Ok binary
    /\ x_projection_of binary = x_content (convert lib (image (self st)) "L")
    /\ y_projection_of binary = y_content (convert lib (image (self st)) "L")
    /\ first_true (x_projection_of binary) left
    /\ first_true (rev (x_projection_of binary))
                  (len (x_projection_of binary) - right)
    /\ first_true (y_projection_of binary) upper
    /\ first_true (rev (y_projection_of binary))
                  (len (y_projection_of binary) - lower)
    /\ crop_empty lib st
       = save_as lib "cropped_empty"
                 (crop (image (self st)) (left, upper, right, lower))
                 (with_image st (crop (image (self st))
                                      (left, upper, right, lower)))
    /\ image (self (snd (crop_empty lib st)))
       = crop (image (self st)) (left, upper, right, lower)
    /\ (save_error lib (output_name "cropped_empty" st)
                   (crop (image (self st)) (left, upper, right, lower))
        = None ->
        crop_empty lib st
        = (Ok tt,
           saved (with_image st (crop (image (self st))
                                      (left, upper, right, lower)))
                 (output_name "cropped_empty" st)
                 (crop (image (self st)) (left, upper, right, lower))))
    /\ (forall e,
          save_error lib (output_name "cropped_empty" st)
                     (crop (image (self st)) (left, upper, right, lower))
          = Some e ->
          fst (crop_empty lib st) = Raise e)
    /\ size (crop (image (self st)) (left, upper, right, lower))
       = (right - left, lower - upper)
    /\ mode (crop (image (self st)) (left, upper, right, lower))
       = mode (image (self st))
    /\ (size (convert lib (image (self st)) "L") = size (image (self st)) ->
        forall x y,
          0 <= x < right - left -> 0 <= y < lower - upper ->
          pixel_at (crop (image (self st)) (left, upper, right, lower)) x y
          = pixel_at (image (self st)) (left + x) (upper + y))
    /\ (0 <= left < right
        /\ right <= width (convert lib (image (self st)) "L"))
    /\ (0 <= upper < lower
        /\ lower <= height (convert lib (image (self st)) "L"))
    /\ column_content (convert lib (image (self st)) "L") left = true
    /\ column_content (convert lib (image (self st)) "L") (right - 1) = true
    /\ row_content (convert lib (image (self st)) "L") upper = true
    /\ row_content (convert lib (image (self st)) "L") (lower - 1) = true
    /\ forall x y,
         0 <= x < width (convert lib (image (self st)) "L") ->
         0 <= y < height (convert lib (image (self st)) "L") ->
         0 < luminance (convert lib (image (self st)) "L") x y ->
         left <= x < right /\ upper <= y < lower.
Proof.
  intros Hwf Hb Hcontent.
  destruct (crop_empty_box lib st Hwf Hb Hcontent)
    as (left & upper & right & lower & Hrun & Hfl & Hfr & Hfu & Hfb
        & Hx & Hy & Hrest).
  set (gray := convert lib (image (self st)) "L") in *.
  assert (Hw : 0 <= width gray) by (destruct Hwf; lia).
  assert (Hh : 0 <= height gray) by (destruct Hwf as (_ & ? & _); lia).
  destruct (crop_empty_tail lib st
              (crop (image (self st)) (left, upper, right, lower)))
    as (Hself & Hok & Hraise).
  exists (map_samples (fun v => CLIP8 (Z.b2z (v >? 0))) gray),
         left, upper, right, lower.
  rewrite x_projection_binarized, y_projection_binarized by assumption.
  rewrite len_x_content, len_y_content by assumption.
  split; [now apply point_binarize |].
  do 6 (split; [assumption || reflexivity |]).
  split; [exact Hrun |].
  split; [rewrite Hrun, Hself; reflexivity |].
  split; [intros Hs; rewrite Hrun; now apply Hok |].
  split; [intros e Hs; rewrite Hrun; now apply Hraise |].
  split; [apply crop_size; lia |].
  split; [reflexivity |].
  split.
  { intros Hsize x y Hx' Hy'. unfold size in Hsize.
    injection Hsize as Hsw Hsh. apply crop_pixel_at; lia. }
  split; [exact Hx |]. split; [exact Hy |]. exact Hrest.
Qed.

Lemma gray_dot_3x2_wf : wf_image (convert_601 dot_3x2 "L").
Proof. wf_by_computation. Defined.

Lemma gray_black_1x1_wf : wf_image (convert_601 black_1x1 "L").
Proof. wf_by_computation. Defined.

Lemma crop_empty_bounding_box_witness :
  exists binary left upper right lower,
    point (convert_601 dot_3x2 "L") binarize_lambda = Ok binary
    /\ x_projection_of binary = x_content (convert_601 dot_3x2 "L")
    /\ y_projection_of binary = y_content (convert_601 dot_3x2 "L")
    /\ first_true (x_projection_of binary) left
    /\ first_true (rev (x_projection_of binary))
                  (len (x_projection_of binary) - right)
    /\ first_true (y_projection_of binary) upper
    /\ first_true (rev (y_projection_of binary))
                  (len (y_projection_of binary) - lower)
    /\ crop_empty png_library dot_state
       = save_as png_library "cropped_empty"
                 (crop dot_3x2 (left, upper, right, lower))
                 (with_image dot_state
                             (crop dot_3x2 (left, upper, right, lower)))
    /\ image (self (snd (crop_empty png_library dot_state)))
       = crop dot_3x2 (left, upper, right, lower)
    /\ (save_error png_library "cropped_empty_photo.png"
                   (crop dot_3x2 (left, upper, right, lower))
        = None ->
        crop_empty png_library dot_state
        = (Ok tt,
           saved (with_image dot_state
                             (crop dot_3x2 (left, upper, right, lower)))
                 "cropped_empty_photo.png"
                 (crop dot_3x2 (left, upper, right, lower))))
    /\ (forall e,
          save_error png_library "cropped_empty_photo.png"
                     (crop dot_3x2 (left, upper, right, lower))
          = Some e ->
          fst (crop_empty png_library dot_state) = Raise e)
    /\ size (crop dot_3x2 (left, upper, right, lower))
       = (right - left, lower - upper)
    /\ mode (crop dot_3x2 (left, upper, right, lower)) = "RGB"
    /\ (size (convert_601 dot_3x2 "L") = size dot_3x2 ->
        forall x y,
          0 <= x < right - left -> 0 <= y < lower - upper ->
          pixel_at (crop dot_3x2 (left, upper, right, lower)) x y
          = pixel_at dot_3x2 (left + x) (upper + y))
    /\ (0 <= left < right /\ right <= 3)
    /\ (0 <= upper < lower /\ lower <= 2)
    /\ column_content (convert_601 dot_3x2 "L") left = true
    /\ column_content (convert_601 dot_3x2 "L") (right - 1) = true
    /\ row_content (convert_601 dot_3x2 "L") upper = true
    /\ row_content (convert_601 dot_3x2 "L") (lower - 1) = true
    /\ forall x y,
         0 <= x < 3 -> 0 <= y < 2 ->
         0 < luminance (convert_601 dot_3x2 "L") x y ->
         left <= x < right /\ upper <= y < lower.
Proof.
  apply (crop_empty_bounding_box png_library dot_state).
  - exact gray_dot_3x2_wf.
  - reflexivity.
  - exists 1, 0. vm_compute. repeat split; discriminate.
Defined.

Lemma crop_empty_no_content_witness :
  crop_empty png_library (state_of black_1x1 "photo.png")
  = (Raise (Exception ValueError "True is not in list"),
     state_of black_1x1 "photo.png").
Proof.
  apply (crop_empty_no_content png_library (state_of black_1x1 "photo.png")).
  - exact gray_black_1x1_wf.
  - reflexivity.
  - intros x y Hx Hy. simpl in Hx, Hy.
    assert (x = 0) by lia. assert (y = 0) by lia. subst x y.
    vm_compute. discriminate.
Defined.

(* ===================================================================== *)
(** ** Which operation replaces the working image *)
(* ===================================================================== *)

Lemma crop_empty_outcomes (lib : Library) (st : State) :
  (exists e, crop_empty lib st = (Raise e, st))
  \/ exists box,
       crop_empty lib st
       = save_as lib "cropped_empty" (crop (image (self st)) box)
                 (with_image st (crop (image (self st)) box)).
Proof.
  rewrite crop_empty_unfold.
  destruct (point (convert lib (image (self st)) "L") binarize_lambda)
    as [binary | e]; [| left; now exists e].
  destruct (index true (x_projection_of binary)) as [a | e];
    [| left; now exists e].
  destruct (index true (reversed (x_projection_of binary))) as [k | e];
    [| left; now exists e].
  destruct (index true (y_projection_of binary)) as [b | e];
    [| left; now exists e].
  destruct (index true (reversed (y_projection_of binary))) as [m | e];
    [| left; now exists e].
  right.
  now exists (a, b, len (x_projection_of binary) - k,
              len (y_projection_of binary) - m).
Qed.

Lemma crop_empty_ok_inv (lib : Library) (st st' : State) :
  crop_empty lib st = (Ok tt, st') ->
  exists box,
    st' = saved (with_image st (crop (image (self st)) box))
                (output_name "cropped_empty" st)
                (crop (image (self st)) box).
Proof.
  intros H.
  destruct (crop_empty_outcomes lib st) as [(e & He) | (box & Hbox)].
  - rewrite He in H. discriminate H.
  - rewrite Hbox in H. apply save_as_ok_inv in H as (_ & ->).
    now exists box.
Qed.

(** C6.  [crop_image] never touches the object: after the call, whether the
    box was valid or not and whether the file was written or not, [self]
    (the working image with its pixels, size and mode, and the path) is what
    it was.  A valid crop hands a separate image to [save]; when the call
    returns, that image is in the file and the operations [main] runs
    afterwards start from the same working image.  [crop_empty] assigns to
    [self.image]: when it returns, the working image is the cropped one (the
    very image it saved), and the operations [main] runs afterwards start
    from that state. *)
Theorem crop_image_keeps_working_image
    (lib : Library) (st : State) (left upper right lower : Z) :
  self (snd (crop_image lib left upper right lower st)) = self st
  /\
  (0 <= left < right /\ right <= width (image (self st)) ->
   0 <= upper < lower /\ lower <= height (image (self st)) ->
   crop_image lib left upper right lower st
   = save_as lib "cropped"
             (crop (image (self st)) (left, upper, right, lower)) st
   /\ forall st',
        crop_image lib left upper right lower st = (Ok tt, st') ->
        st' = saved st (output_name "cropped" st)
                    (crop (image (self st)) (left, upper, right, lower))
        /\ self st' = self st
        /\ forall args,
             arg_info args = false ->
             arg_crop args = Some (left, upper, right, lower) ->
             run_operations lib args st = after_crop lib args st')
  /\
  (forall st',
     crop_empty lib st = (Ok tt, st') ->
     (exists box,
         st' = saved (with_image st (crop (image (self st)) box))
                     (output_name "cropped_empty" st)
                     (crop (image (self st)) box)
         /\ image (self st') = crop (image (self st)) box)
     /\ forall args,
          arg_info args = false ->
          arg_crop args = None ->
          arg_crop_empty args = true ->
          run_operations lib args st = after_crop_empty lib args st').
Proof.
  split; [apply crop_image_self |]. split.
  - intros (Hl & Hr) (Hu & Hb).
    pose proof (crop_image_accepts lib st left upper right lower Hl Hr Hu Hb)
      as Heq.
    split; [exact Heq |].
    intros st' Hrun.
    assert (Hst : st' = saved st (output_name "cropped" st)
                              (crop (image (self st))
                                    (left, upper, right, lower))).
    { rewrite Heq in Hrun. now apply save_as_ok_inv in Hrun. }
    split; [exact Hst |]. split; [now rewrite Hst |].
    intros args Hinfo Hcrop.
    unfold run_operations, after_crop, after_crop_empty.
    rewrite Hinfo, Hcrop. unfold bind at 1 2. cbn [when ret].
    rewrite Hrun. reflexivity.
  - intros st' H. split.
    + destruct (crop_empty_ok_inv lib st st' H) as (box & ->).
      exists box. split; reflexivity.
    + intros args Hinfo Hcrop Hempty.
      unfold run_operations, after_crop_empty.
      rewrite Hinfo, Hcrop, Hempty. unfold bind at 1 2 3. cbn [when ret].
      rewrite H. reflexivity.
Qed.

Lemma crop_image_keeps_working_image_witness :
  self (snd (crop_image png_library 1 0 3 2 dot_state)) = self dot_state
  /\ crop_image png_library 1 0 3 2 dot_state
     = save_as png_library "cropped" (crop dot_3x2 (1, 0, 3, 2)) dot_state
  /\ self (saved dot_state "cropped_photo.png" (crop dot_3x2 (1, 0, 3, 2)))
     = self dot_state
  /\ exists box,
       dot_state_cropped
       = saved (with_image dot_state (crop dot_3x2 box))
               "cropped_empty_photo.png" (crop dot_3x2 box)
       /\ image (self dot_state_cropped) = crop dot_3x2 box.
Proof.
  destruct (crop_image_keeps_working_image png_library dot_state 1 0 3 2)
    as (Hself & Hcrop & Hempty).
  split; [exact Hself |].
  destruct Hcrop as (Heq & Hret); [simpl; lia | simpl; lia |].
  split; [exact Heq |]. split.
  - apply (Hret (saved dot_state "cropped_photo.png"
                       (crop dot_3x2 (1, 0, 3, 2)))).
    vm_compute. reflexivity.
  - apply (Hempty dot_state_cropped). vm_compute. reflexivity.
Defined.

(** A run of [main] on [dot_3x2]: after [--crop_empty] the inversion is
    that of the cropped pixel; after [--crop] it is that of the whole
    image. *)
Example main_inverts_the_working_image :
  (main png_library (one_file "dir/photo.png" dot_3x2)
        (crop_empty_and_invert "dir/photo.png")
   = {| stdout := [];
        files :=
          [("cropped_empty_photo.png",
            {| format := None; mode := "RGB"; width := 1; height := 1;
               data := [[[1; 2; 3]]]; palette := None |});
           ("inverted_photo.png",
            {| format := None; mode := "RGB"; width := 1; height := 1;
               data := [[[254; 253; 252]]]; palette := None |})] |})
  /\
  (main png_library (one_file "dir/photo.png" dot_3x2)
        (crop_and_invert "dir/photo.png")
   = {| stdout := [];
        files :=
          [("cropped_photo.png",
            {| format := None; mode := "RGB"; width := 1; height := 1;
               data := [[[0; 0; 0]]]; palette := None |});
           ("inverted_photo.png",
            {| format := None; mode := "RGB"; width := 3; height := 2;
               data := [[[255; 255; 255]; [254; 253; 252]; [255; 255; 255]];
                        [[255; 255; 255]; [255; 255; 255]; [255; 255; 255]]];
               palette := None |})] |}).
Proof. split; vm_compute; reflexivity. Qed.

(* ===================================================================== *)
(** ** The two colour operations *)
(* ===================================================================== *)

Lemma mode_check_supported (m : string) :
  supported_mode m -> existsb (String.eqb m) ["RGB"; "RGBA"] = true.
Proof. intros [-> | ->]; reflexivity. Qed.

Lemma mode_check_unsupported (m : string) :
  ~ supported_mode m -> existsb (String.eqb m) ["RGB"; "RGBA"] = false.
Proof.
  intros H. unfold supported_mode in H. cbn [existsb].
  destruct (String.eqb_spec m "RGB"); [tauto |].
  destruct (String.eqb_spec m "RGBA"); [tauto |]. reflexivity.
Qed.

Lemma adjust_colors_unsupported (lib : Library) (st : State) (r g b : number) :
  ~ supported_mode (mode (image (self st))) ->
  adjust_colors lib r g b st
  = (Raise (ValueError_ ("Unsupported image mode for color adjustment: "
                         ++ mode (image (self st)))), st).
Proof.
  intros H. unfold adjust_colors, bind, get_image.
  now rewrite mode_check_unsupported.
Qed.

Lemma invert_colors_unsupported (lib : Library) (st : State) :
  ~ supported_mode (mode (image (self st))) ->
  invert_colors lib st
  = (Raise (ValueError_ ("Unsupported image mode for color inversion: "
                         ++ mode (image (self st)))), st).
Proof.
  intros H. unfold invert_colors, bind, get_image.
  now rewrite mode_check_unsupported.
Qed.

Lemma adjust_colors_supported (lib : Library) (st : State) (r g b : number) :
  supported_mode (mode (image (self st))) ->
  adjust_colors lib r g b st
  = match point (image (self st)) (adjust_lambda [r; g; b]) with
    | Raise e => (Raise e, st)
    | Ok new_image => save_as lib "adjusted" new_image st
    end.
Proof.
  intros H. unfold adjust_colors, bind, get_image, lift.
  rewrite mode_check_supported by assumption. cbn [negb].
  destruct (point (image (self st)) (adjust_lambda [r; g; b]));
    [| reflexivity].
  now rewrite get_output_filename_eq.
Qed.

Lemma invert_colors_supported (lib : Library) (st : State) :
  supported_mode (mode (image (self st))) ->
  invert_colors lib st
  = match point (image (self st)) invert_lambda with
    | Raise e => (Raise e, st)
    | Ok new_image => save_as lib "inverted" new_image st
    end.
Proof.
  intros H. unfold invert_colors, bind, get_image, lift.
  rewrite mode_check_supported by assumption. cbn [negb].
  destruct (point (image (self st)) invert_lambda); [| reflexivity].
  now rewrite get_output_filename_eq.
Qed.

Lemma map_samples_wf (f : Z -> Z) (im : Image) :
  wf_image im -> (forall v, sample_ok v -> sample_ok (f v)) ->
  wf_image (map_samples f im).
Proof.
  intros (Hw & Hh & Hlen & Hrows) Hf. unfold wf_image.
  change (bands (map_samples f im)) with (bands im).
  unfold map_samples. cbn [width height data]. repeat split; try assumption.
  - unfold len in *. now rewrite length_map.
  - apply Forall_map. eapply Forall_impl; [| exact Hrows].
    intros row (Hrl & Hrow). split.
    + unfold len in *. now rewrite length_map.
    + apply Forall_map. eapply Forall_impl; [| exact Hrow].
      intros px (Hpl & Hpx). split.
      * unfold len in *. now rewrite length_map.
      * apply Forall_map. eapply Forall_impl; [| exact Hpx]. exact Hf.
Qed.

Lemma point_invert (im : Image) :
  wf_image im ->
  point im invert_lambda = Ok (map_samples (fun v => 255 - v) im).
Proof.
  intros Hwf. unfold invert_lambda.
  rewrite (point_int im (fun i => 255 - i) Hwf)
    by (intros i Hi; unfold fits_long; lia).
  f_equal. apply map_samples_ext; [assumption |].
  intros v Hv. unfold sample_ok in Hv.
  rewrite as_int_fits by (unfold fits_int; lia). unfold CLIP8.
  destruct (Z.leb_spec (255 - v) 0); [lia |].
  destruct (Z.ltb_spec (255 - v) 256); lia.
Qed.

Lemma invert_twice_data (im : Image) :
  data (map_samples (fun v => 255 - v) (map_samples (fun v => 255 - v) im))
  = data im.
Proof.
  unfold map_samples. cbn [data]. rewrite map_map.
  rewrite <- (map_id (data im)) at 2. apply map_ext. intros row.
  rewrite map_map. rewrite <- (map_id row) at 2. apply map_ext. intros px.
  rewrite map_map. rewrite <- (map_id px) at 2. apply map_ext. intros v. lia.
Qed.


Lemma invert_colors_run (lib : Library) (st : State) :
  wf_image (image (self st)) ->
  supported_mode (mode (image (self st))) ->
  invert_colors lib st
  = save_as lib "inverted"
            (map_samples (fun v => 255 - v) (image (self st))) st.
Proof.
  intros Hwf Hmode.
  rewrite invert_colors_supported, point_invert by assumption. reflexivity.
Qed.

(** C7.  On a well-formed RGB or RGBA image [invert_colors] builds the image
    in which every sample [v] of every band (alpha included) is [255 - v]
    and hands it to [save] under the [inverted] prefix; the call returns,
    with that image in the file, when the library writes it.  Inverting that
    image again gives an image with the pixel data, the size and the mode of
    the original. *)
Theorem invert_colors_involutive (lib : Library) (st : State) :
  wf_image (image (self st)) ->
  supported_mode (mode (image (self st))) ->
  invert_colors lib st
  = save_as lib "inverted"
            (map_samples (fun v => 255 - v) (image (self st))) st
  /\ (save_error lib (output_name "inverted" st)
                 (map_samples (fun v => 255 - v) (image (self st))) = None ->
      invert_colors lib st
      = (Ok tt, saved st (output_name "inverted" st)
                      (map_samples (fun v => 255 - v) (image (self st)))))
  /\ (forall x y,
         pixel_at (map_samples (fun v => 255 - v) (image (self st))) x y
         = map (fun v => 255 - v) (pixel_at (image (self st)) x y))
  /\ forall st2,
       image (self st2) = map_samples (fun v => 255 - v) (image (self st)) ->
       exists out,
         invert_colors lib st2 = save_as lib "inverted" out st2
         /\ (save_error lib (output_name "inverted" st2) out = None ->
             invert_colors lib st2
             = (Ok tt, saved st2 (output_name "inverted" st2) out))
         /\ data out = data (image (self st))
         /\ size out = size (image (self st))
         /\ mode out = mode (image (self st)).
Proof.
  intros Hwf Hmode.
  pose proof (invert_colors_run lib st Hwf Hmode) as Hrun.
  split; [exact Hrun |].
  split; [intros Hs; rewrite Hrun; now apply save_as_ok |].
  split; [intros x y; apply pixel_at_map_samples |].
  intros st2 Him.
  assert (Hwf2 : wf_image (image (self st2))).
  { rewrite Him. apply map_samples_wf; [assumption |].
    unfold sample_ok. intros v Hv. lia. }
  assert (Hrun2 := invert_colors_run lib st2 Hwf2).
  rewrite Him in Hrun2 at 1. specialize (Hrun2 Hmode).
  exists (map_samples (fun v => 255 - v) (image (self st2))).
  split; [exact Hrun2 |].
  split; [intros Hs; rewrite Hrun2; now apply save_as_ok |].
  rewrite Him.
  split; [apply invert_twice_data |]. split; reflexivity.
Qed.

Lemma invert_colors_involutive_witness :
  invert_colors png_library dot_state
  = save_as png_library "inverted" (map_samples (fun v => 255 - v) dot_3x2)
            dot_state
  /\ invert_colors png_library dot_state
     = (Ok tt, saved dot_state "inverted_photo.png"
                     (map_samples (fun v => 255 - v) dot_3x2))
  /\ pixel_at (map_samples (fun v => 255 - v) dot_3x2) 1 0 = [254; 253; 252]
  /\ exists out,
       invert_colors png_library
         (state_of (map_samples (fun v => 255 - v) dot_3x2) "inverted_photo.png")
       = save_as png_library "inverted" out
           (state_of (map_samples (fun v => 255 - v) dot_3x2)
                     "inverted_photo.png")
       /\ data out = data dot_3x2
       /\ size out = (3, 2)
       /\ mode out = "RGB".
Proof.
  destruct (invert_colors_involutive png_library dot_state dot_3x2_wf
                                     (or_introl eq_refl))
    as (Hrun & Hok & Hpix & Htwice).
  split; [exact Hrun |]. split; [apply Hok; reflexivity |].
  split; [exact (Hpix 1 0) |].
  destruct (Htwice (state_of (map_samples (fun v => 255 - v) dot_3x2)
                             "inverted_photo.png") eq_refl)
    as (out & Hrun2 & _ & Hdata & Hsize & Hmode).
  exists out. repeat split; assumption.
Defined.

(** C8.  When the mode of the working image is neither ["RGB"] nor
    ["RGBA"], [adjust_colors] and [invert_colors] both raise a [ValueError]
    that names the operation and the mode, and save nothing.  When the mode
    is ["RGB"] or ["RGBA"] the check passes: each operation goes on to its
    [point] call and hands the image it returns to [save] (a failure can
    then only come out of these two calls). *)
Theorem color_operations_mode_check
    (lib : Library) (st : State) (r g b : number) :
  (~ supported_mode (mode (image (self st))) ->
   adjust_colors lib r g b st
   = (Raise (Exception ValueError
               ("Unsupported image mode for color adjustment: "
                ++ mode (image (self st)))), st)
   /\ invert_colors lib st
      = (Raise (Exception ValueError
                  ("Unsupported image mode for color inversion: "
                   ++ mode (image (self st)))), st))
  /\
  (supported_mode (mode (image (self st))) ->
   adjust_colors lib r g b st
   = match point (image (self st)) (adjust_lambda [r; g; b]) with
     | Raise e => (Raise e, st)
     | Ok new_image => save_as lib "adjusted" new_image st
     end
   /\ invert_colors lib st
      = match point (image (self st)) invert_lambda with
        | Raise e => (Raise e, st)
        | Ok new_image => save_as lib "inverted" new_image st
        end).
Proof.
  split; intros H; split.
  - now apply adjust_colors_unsupported.
  - now apply invert_colors_unsupported.
  - now apply adjust_colors_supported.
  - now apply invert_colors_supported.
Qed.

Lemma color_operations_mode_check_witness :
  (adjust_colors png_library (PyFloat 2) (PyFloat 3) (PyFloat 4)
                 (state_of gray_1x1 "g.png")
   = (Raise (Exception ValueError
               "Unsupported image mode for color adjustment: L"),
      state_of gray_1x1 "g.png")
   /\ invert_colors png_library (state_of gray_1x1 "g.png")
      = (Raise (Exception ValueError
                  "Unsupported image mode for color inversion: L"),
         state_of gray_1x1 "g.png"))
  /\
  (adjust_colors png_library (PyFloat 2) (PyFloat 3) (PyFloat 4) dot_state
   = match point dot_3x2
             (adjust_lambda [PyFloat 2; PyFloat 3; PyFloat 4]) with
     | Raise e => (Raise e, dot_state)
     | Ok new_image => save_as png_library "adjusted" new_image dot_state
     end
   /\ invert_colors png_library dot_state
      = match point dot_3x2 invert_lambda with
        | Raise e => (Raise e, dot_state)
        | Ok new_image => save_as png_library "inverted" new_image dot_state
        end).
Proof.
  split.
  - apply (proj1 (color_operations_mode_check
                    png_library (state_of gray_1x1 "g.png")
                    (PyFloat 2) (PyFloat 3) (PyFloat 4))).
    intros [H | H]; discriminate H.
  - apply (proj2 (color_operations_mode_check
                    png_library dot_state
                    (PyFloat 2) (PyFloat 3) (PyFloat 4))).
    left. reflexivity.
Defined.

(** *** The table of [adjust_colors] is indexed by the sample value *)

Lemma mapM_app {A B : Type} (f : A -> result B) (l1 l2 : list A) :
  mapM f (l1 ++ l2)%list =
  match mapM f l1 with
  | Raise e => Raise e
  | Ok r1 =>
      match mapM f l2 with
      | Raise e => Raise e
      | Ok r2 => Ok (r1 ++ r2)%list
      end
  end.
Proof.
  induction l1 as [| a l1 IH]; cbn [mapM app].
  - now destruct (mapM f l2).
  - destruct (f a); [| reflexivity]. rewrite IH.
    destruct (mapM f l1); [| reflexivity].
    now destruct (mapM f l2).
Qed.

Lemma mapM_repeat {A B : Type} (f : A -> result B) (l : list A) (k : nat)
    (r : list B) :
  mapM f (List.concat (repeat l (S k))) = Ok r ->
  exists r0, mapM f l = Ok r0 /\ r = List.concat (repeat r0 (S k)).
Proof.
  revert r. induction k as [| k IH]; intros r H.
  - cbn [repeat List.concat] in *. rewrite app_nil_r in H.
    exists r. now rewrite app_nil_r.
  - change (List.concat (repeat l (S (S k))))
      with (l ++ List.concat (repeat l (S k)))%list in H.
    rewrite mapM_app in H.
    destruct (mapM f l) as [r1 |] eqn:H1; [| discriminate].
    destruct (mapM f (List.concat (repeat l (S k)))) as [r2 |] eqn:H2;
      [| discriminate].
    injection H as <-.
    destruct (IH r2 eq_refl) as (r0 & Hr0 & ->).
    injection Hr0 as <-. now exists r1.
Qed.

Lemma mapM_nth {A B : Type} (f : A -> result B) (l : list A) (r : list B)
    (da : A) (db : B) :
  mapM f l = Ok r ->
  List.length r = List.length l
  /\ forall i, (i < List.length l)%nat -> f (nth i l da) = Ok (nth i r db).
Proof.
  revert r. induction l as [| a l IH]; cbn [mapM]; intros r H.
  - injection H as <-. split; [reflexivity |]. intros i Hi. inversion Hi.
  - destruct (f a) as [b |] eqn:Hb; [| discriminate].
    destruct (mapM f l) as [bs |]; [| discriminate].
    injection H as <-. destruct (IH bs eq_refl) as (Hlen & Hnth).
    split; [cbn [List.length]; now rewrite Hlen |].
    intros [| i] Hi; [exact Hb |]. apply Hnth. cbn [List.length] in Hi. lia.
Qed.

Lemma mapM_as_long_id (l r : list Z) : mapM as_long l = Ok r -> r = l.
Proof.
  revert r. induction l as [| a l IH]; cbn [mapM]; intros r H.
  - now injection H as <-.
  - unfold as_long at 1 in H.
    destruct ((- 2 ^ 63 <=? a) && (a <? 2 ^ 63)); [| discriminate].
    destruct (mapM as_long l) as [bs |]; [| discriminate].
    injection H as <-. now rewrite (IH bs eq_refl).
Qed.

Lemma map_nth_range (t : list Z) (n : Z) :
  len t = n -> t = map (fun v => nth (Z.to_nat v) t 0) (range n).
Proof.
  intros H. apply nth_ext with (d := 0) (d' := 0).
  - rewrite length_map, range_length. unfold len in H. lia.
  - intros i Hi. unfold len in H.
    replace i with (Z.to_nat (Z.of_nat i)) at 2 by lia.
    rewrite nth_map_range by lia. f_equal. lia.
Qed.

(** Whatever the function, a table that could be built serves every band
    with the same 256 entries, and entry [v] is the function's value at the
    sample value [v], rounded, stored in an [int] and clipped. *)
Lemma build_lut_by_value (lut : Z -> number) (nbands : Z) (table : list Z) :
  0 < nbands ->
  build_lut lut nbands = Ok table ->
  exists t,
    table = List.concat (repeat (map t (range 256)) (Z.to_nat nbands))
    /\ forall v, 0 <= v < 256 ->
         exists n, Py.round (lut v) = Ok n /\ fits_long n
                   /\ t v = CLIP8 (as_int n).
Proof.
  intros Hb H. unfold build_lut in H.
  destruct (Z.to_nat nbands) as [| k] eqn:Hk; [lia |].
  destruct (mapM Py.round (List.concat (repeat (map lut (range 256)) (S k))))
    as [rounded |] eqn:Hr; [| discriminate].
  destruct (mapM as_long rounded) as [longs |] eqn:Hl; [| discriminate].
  injection H as <-.
  pose proof (mapM_as_long_id _ _ Hl) as Hid. subst longs.
  apply mapM_repeat in Hr as (r0 & Hr0 & ->).
  destruct (mapM_nth _ _ _ (PyInt 0) 0 Hr0) as (Hlen & Hnth).
  rewrite length_map, range_length in Hlen, Hnth.
  assert (Hfits : forall v, 0 <= v < 256 ->
                    fits_long (nth (Z.to_nat v) r0 0)).
  { intros v Hv.
    apply mapM_repeat in Hl as (l0 & Hl0 & _).
    destruct (mapM_nth _ _ _ 0 0 Hl0) as (_ & Hn).
    specialize (Hn (Z.to_nat v) ltac:(lia)).
    unfold as_long in Hn.
    destruct ((- 2 ^ 63 <=? nth (Z.to_nat v) r0 0)
              && (nth (Z.to_nat v) r0 0 <? 2 ^ 63)) eqn:E; [| discriminate].
    apply andb_true_iff in E as (E1 & E2). unfold fits_long. lia. }
  exists (fun v => CLIP8 (as_int (nth (Z.to_nat v) r0 0))). split.
  - rewrite <- (map_map (fun v => nth (Z.to_nat v) r0 0)
                        (fun n => CLIP8 (as_int n))).
    rewrite <- (map_nth_range r0 256) by (unfold len; lia).
    now rewrite concat_repeat_map.
  - intros v Hv. exists (nth (Z.to_nat v) r0 0).
    split; [| split; [now apply Hfits | reflexivity]].
    rewrite <- Hnth by lia. f_equal.
    now rewrite nth_map_range.
Qed.

Lemma supported_mode_bands (m : string) :
  supported_mode m -> 0 < mode_bands m.
Proof. intros [-> | ->]; reflexivity. Qed.

(** The image [point] returns for the function of [adjust_colors], when it
    returns one: a sample [v] is multiplied by [coefficients[v mod 3]].  The
    coefficient depends on the value of the sample, and the band the sample
    sits in plays no part. *)
Lemma point_adjust_by_sample_value (im new_image : Image) (r g b : number) :
  wf_image im ->
  supported_mode (mode im) ->
  point im (adjust_lambda [r; g; b]) = Ok new_image ->
  exists t,
    new_image = map_samples t im
    /\ forall v, 0 <= v < 256 ->
         exists n,
           Py.round (Py.mul (PyInt v)
                            (nth (Z.to_nat (v mod 3)) [r; g; b] (PyInt 0)))
           = Ok n
           /\ fits_long n
           /\ t v = CLIP8 (as_int n).
Proof.
  intros Hwf Hmode H. unfold point in H.
  destruct (build_lut (adjust_lambda [r; g; b]) (bands im))
    as [table |] eqn:Ht; [| discriminate].
  apply build_lut_by_value in Ht as (t & -> & Hval);
    [| now apply supported_mode_bands].
  exists t. split; [| exact Hval].
  injection H as <-. unfold map_samples. f_equal.
  destruct Hwf as (_ & _ & _ & Hrows).
  apply map_ext_Forall with (P := row_ok (width im) (bands im));
    [| assumption].
  intros row (_ & Hrow).
  apply map_ext_Forall with (P := pixel_ok (bands im)); [| assumption].
  intros px (Hlen & Hpx).
  apply point_pixel_map; [lia | lia | assumption].
Qed.

(** [adjust_colors], when it returns, has written that image. *)
Lemma adjust_colors_by_sample_value
    (lib : Library) (st st' : State) (r g b : number) :
  wf_image (image (self st)) ->
  supported_mode (mode (image (self st))) ->
  adjust_colors lib r g b st = (Ok tt, st') ->
  exists t,
    st' = saved st (output_name "adjusted" st) (map_samples t (image (self st)))
    /\ forall v, 0 <= v < 256 ->
         exists n,
           Py.round (Py.mul (PyInt v)
                            (nth (Z.to_nat (v mod 3)) [r; g; b] (PyInt 0)))
           = Ok n
           /\ fits_long n
           /\ t v = CLIP8 (as_int n).
Proof.
  intros Hwf Hmode H. rewrite adjust_colors_supported in H by assumption.
  destruct (point (image (self st)) (adjust_lambda [r; g; b]))
    as [new_image |] eqn:Hp; [| discriminate].
  destruct (point_adjust_by_sample_value _ _ r g b Hwf Hmode Hp)
    as (t & -> & Hval).
  exists t. split; [| exact Hval].
  now apply save_as_ok_inv in H.
Qed.

(** C1, evaluated.  With the coefficients [(2.0, 3.0, 4.0)] the claim
    expects the pixel [(1, 1, 1)] to become [(2, 3, 4)], and the RGBA pixel
    [(1, 1, 1, 1)] to become [(2, 3, 4, 2)]: one coefficient per channel,
    chosen by the channel index modulo 3.  The program saves [(3, 3, 3)] and
    [(3, 3, 3, 3)]: the sample value 1 selects [coefficients[1 % 3]], the
    green coefficient, in every band.  These are the images handed to
    [save] whatever the library; with one that writes PNG files they are
    the files written. *)
Theorem adjust_colors_on_ones :
  adjust_colors png_library (PyFloat 2) (PyFloat 3) (PyFloat 4)
                (state_of ones_1x1 "photo.png")
  = (Ok tt,
     saved (state_of ones_1x1 "photo.png") "adjusted_photo.png"
           {| format := None; mode := "RGB"; width := 1; height := 1;
              data := [[[3; 3; 3]]]; palette := None |})
  /\ mapM Py.round (by_channel [PyFloat 2; PyFloat 3; PyFloat 4] 0 [1; 1; 1])
     = Ok [2; 3; 4]
  /\ adjust_colors png_library (PyFloat 2) (PyFloat 3) (PyFloat 4)
                   (state_of ones_rgba_1x1 "photo.png")
     = (Ok tt,
        saved (state_of ones_rgba_1x1 "photo.png") "adjusted_photo.png"
              {| format := None; mode := "RGBA"; width := 1; height := 1;
                 data := [[[3; 3; 3; 3]]]; palette := None |})
  /\ mapM Py.round
          (by_channel [PyFloat 2; PyFloat 3; PyFloat 4] 0 [1; 1; 1; 1])
     = Ok [2; 3; 4; 2]
  /\ (forall lib,
        adjust_colors lib (PyFloat 2) (PyFloat 3) (PyFloat 4)
                      (state_of ones_1x1 "photo.png")
        = save lib {| format := None; mode := "RGB"; width := 1; height := 1;
                      data := [[[3; 3; 3]]]; palette := None |}
               "adjusted_photo.png" (state_of ones_1x1 "photo.png"))
  /\ (forall lib,
        adjust_colors lib (PyFloat 2) (PyFloat 3) (PyFloat 4)
                      (state_of ones_rgba_1x1 "photo.png")
        = save lib {| format := None; mode := "RGBA"; width := 1; height := 1;
                      data := [[[3; 3; 3; 3]]]; palette := None |}
               "adjusted_photo.png" (state_of ones_rgba_1x1 "photo.png")).
Proof.
  split; [vm_compute; reflexivity |].
  split; [vm_compute; reflexivity |].
  split; [vm_compute; reflexivity |].
  split; [vm_compute; reflexivity |].
  split; intros lib; vm_compute; reflexivity.
Qed.

(* ===================================================================== *)
(** ** Failures and what [main] prints *)
(* ===================================================================== *)

Lemma init_missing (fs : FileSystem) (path : string) :
  isfile fs path = false ->
  __init__ fs path = Raise (Exception ValueError ("File not found: " ++ path)).
Proof. intros H. unfold __init__. now rewrite H. Qed.

(** An exception that comes out of [crop_image] is one of its own two, or
    the one [save] raised. *)
Lemma crop_image_failure (lib : Library) (st : State)
    (left upper right lower : Z) (e : exception) :
  fst (crop_image lib left upper right lower st) = Raise e ->
  (exc_type e = ValueError
   /\ (exc_msg e = bounds_message (width (image (self st)))
                                  (height (image (self st)))
       \/ exc_msg e = order_message))
  \/ save_error lib (output_name "cropped" st)
                (crop (image (self st)) (left, upper, right, lower))
     = Some e.
Proof.
  destruct (crop_image_outcomes lib st left upper right lower)
    as [-> | [-> | ->]]; cbn [fst].
  - intros H. injection H as <-. left. split; [reflexivity | now left].
  - intros H. injection H as <-. left. split; [reflexivity | now right].
  - intros H. right. now apply save_as_raises_inv in H.
Qed.

Lemma get_palette_missing (lib : Library) (st : State) :
  getpalette (image (self st)) = None ->
  get_palette lib st
  = (Raise (Exception ValueError "Image does not have a palette."), st).
Proof. intros H. unfold get_palette, bind, get_image. now rewrite H. Qed.

Lemma main_init_failure
    (lib : Library) (fs : FileSystem) (args : Args) (e : exception) :
  __init__ fs (arg_image_path args) = Raise e ->
  main lib fs args
  = {| stdout := [report e]; files := [] |}.
Proof. intros H. unfold main. now rewrite H. Qed.

Lemma main_operation_failure
    (lib : Library) (fs : FileSystem) (args : Args)
    (processor : ImageProcessor) (e : exception) (s : State) :
  __init__ fs (arg_image_path args) = Ok processor ->
  run_operations lib args {| self := processor; world := no_output |}
  = (Raise e, s) ->
  main lib fs args
  = {| stdout := (stdout (world s) ++ [report e])%list;
       files := files (world s) |}.
Proof. intros Hinit Hrun. unfold main. now rewrite Hinit, Hrun. Qed.

Lemma prefix_append (lit rest : string) : prefix lit (lit ++ rest) = true.
Proof.
  induction lit as [| c lit IH]; cbn [append prefix].
  - now destruct rest.
  - destruct (ascii_dec c c) as [_ | Hne]; [exact IH | now elim Hne].
Qed.

(** C10.  The failures the program raises itself all have the class
    [ValueError]: the missing input file, the two rejections of a crop box,
    the missing palette and the unsupported mode of the two colour
    operations.  An exception that comes out of [crop_image] is one of its
    two rejections, or else the one the library raised when asked to write
    the crop.  The handler of [main] prints ["An error occurred: "] followed
    by the message, whatever the class, so two exceptions with the same
    message print the same line; and the message alone tells the
    specification's kinds apart. *)
Theorem failures_are_ValueError
    (lib : Library) (fs : FileSystem) (path : string)
    (st : State) (left upper right lower : Z) (r g b : number) :
  (isfile fs path = false ->
   exists e,
     __init__ fs path = Raise e
     /\ exc_type e = ValueError
     /\ exc_msg e = "File not found: " ++ path
     /\ kind_of_message (exc_msg e) = Some FileNotFound)
  /\
  (forall e,
     fst (crop_image lib left upper right lower st) = Raise e ->
     (exc_type e = ValueError
      /\ (exc_msg e = bounds_message (width (image (self st)))
                                     (height (image (self st)))
          \/ exc_msg e = order_message)
      /\ kind_of_message (exc_msg e) = Some InvalidBounds)
     \/ save_error lib (output_name "cropped" st)
                   (crop (image (self st)) (left, upper, right, lower))
        = Some e)
  /\
  (~ (0 <= left < right /\ right <= width (image (self st))
      /\ 0 <= upper < lower /\ lower <= height (image (self st))) ->
   exists e,
     crop_image lib left upper right lower st = (Raise e, st)
     /\ exc_type e = ValueError
     /\ kind_of_message (exc_msg e) = Some InvalidBounds)
  /\
  (getpalette (image (self st)) = None ->
   exists e,
     get_palette lib st = (Raise e, st)
     /\ exc_type e = ValueError
     /\ exc_msg e = "Image does not have a palette."
     /\ kind_of_message (exc_msg e) = Some NoPalette)
  /\
  (~ supported_mode (mode (image (self st))) ->
   exists e1 e2,
     adjust_colors lib r g b st = (Raise e1, st)
     /\ invert_colors lib st = (Raise e2, st)
     /\ exc_type e1 = ValueError /\ exc_type e2 = ValueError
     /\ exc_msg e1 = "Unsupported image mode for color adjustment: "
                     ++ mode (image (self st))
     /\ exc_msg e2 = "Unsupported image mode for color inversion: "
                     ++ mode (image (self st))
     /\ kind_of_message (exc_msg e1) = Some UnsupportedMode
     /\ kind_of_message (exc_msg e2) = Some UnsupportedMode)
  /\
  (forall args e,
     __init__ fs (arg_image_path args) = Raise e ->
     main lib fs args = {| stdout := [report e]; files := [] |})
  /\
  (forall args processor e s,
     __init__ fs (arg_image_path args) = Ok processor ->
     run_operations lib args {| self := processor; world := no_output |}
     = (Raise e, s) ->
     main lib fs args
     = {| stdout := (stdout (world s) ++ [report e])%list;
          files := files (world s) |})
  /\
  (forall e e', exc_msg e = exc_msg e' -> report e = report e').
Proof.
  split; [| split; [| split; [| split; [| split; [| split; [| split]]]]]].
  - intros H. eexists. split; [now apply init_missing |].
    cbn [exc_type exc_msg]. repeat split.
    unfold kind_of_message. now rewrite prefix_append.
  - intros e H.
    destruct (crop_image_failure _ _ _ _ _ _ _ H) as [(Ht & Hm) | Hs];
      [left | now right].
    split; [exact Ht |]. split; [exact Hm |].
    destruct Hm as [-> | ->]; reflexivity.
  - intros H.
    destruct (Z_lt_dec left 0) as [Hl | Hl];
      [eexists; split; [apply crop_image_bounds; lia | now split] |].
    destruct (Z_lt_dec upper 0) as [Hu | Hu];
      [eexists; split; [apply crop_image_bounds; lia | now split] |].
    destruct (Z_gt_dec right (width (image (self st)))) as [Hr | Hr];
      [eexists; split; [apply crop_image_bounds; lia | now split] |].
    destruct (Z_gt_dec lower (height (image (self st)))) as [Hb | Hb];
      [eexists; split; [apply crop_image_bounds; lia | now split] |].
    exists (ValueError_ order_message).
    split; [apply crop_image_order; lia | now split].
  - intros H. eexists. split; [now apply get_palette_missing |].
    cbn [exc_type exc_msg]. repeat split.
  - intros H. do 2 eexists.
    split; [now apply adjust_colors_unsupported |].
    split; [now apply invert_colors_unsupported |].
    cbn [exc_type exc_msg]. repeat split.
  - intros args e H. now apply main_init_failure.
  - intros args processor e s Hi Hr.
    now apply (main_operation_failure lib fs args processor).
  - intros e e' H. unfold report. now rewrite H.
Qed.

Lemma failures_are_ValueError_witness :
  (exists e,
      __init__ no_files "missing.png" = Raise e
      /\ exc_type e = ValueError
      /\ exc_msg e = "File not found: missing.png"
      /\ kind_of_message (exc_msg e) = Some FileNotFound)
  /\ ((exc_type (ValueError_ (bounds_message 1 1)) = ValueError
       /\ (exc_msg (ValueError_ (bounds_message 1 1)) = bounds_message 1 1
           \/ exc_msg (ValueError_ (bounds_message 1 1)) = order_message)
       /\ kind_of_message (exc_msg (ValueError_ (bounds_message 1 1)))
          = Some InvalidBounds)
      \/ save_error png_library "cropped_g.png"
                    (crop gray_1x1 (-1, 0, 5, 5))
         = Some (ValueError_ (bounds_message 1 1)))
  /\ (exists e,
         crop_image png_library (-1) 0 5 5 (state_of gray_1x1 "g.png")
         = (Raise e, state_of gray_1x1 "g.png")
         /\ exc_type e = ValueError
         /\ kind_of_message (exc_msg e) = Some InvalidBounds)
  /\ (exists e,
         get_palette png_library (state_of gray_1x1 "g.png")
         = (Raise e, state_of gray_1x1 "g.png")
         /\ exc_type e = ValueError
         /\ exc_msg e = "Image does not have a palette."
         /\ kind_of_message (exc_msg e) = Some NoPalette)
  /\ (exists e1 e2,
         adjust_colors png_library (PyFloat 2) (PyFloat 3) (PyFloat 4)
                       (state_of gray_1x1 "g.png")
         = (Raise e1, state_of gray_1x1 "g.png")
         /\ invert_colors png_library (state_of gray_1x1 "g.png")
            = (Raise e2, state_of gray_1x1 "g.png")
         /\ exc_type e1 = ValueError /\ exc_type e2 = ValueError
         /\ exc_msg e1 = "Unsupported image mode for color adjustment: L"
         /\ exc_msg e2 = "Unsupported image mode for color inversion: L"
         /\ kind_of_message (exc_msg e1) = Some UnsupportedMode
         /\ kind_of_message (exc_msg e2) = Some UnsupportedMode)
  /\ main png_library no_files (only_path "missing.png")
     = {| stdout := ["An error occurred: File not found: missing.png"];
          files := [] |}
  /\ main png_library (one_file "g.png" gray_1x1) (invert_only "g.png")
     = {| stdout :=
            ["An error occurred: Unsupported image mode for color inversion: L"];
          files := [] |}.
Proof.
  destruct (failures_are_ValueError
              png_library no_files "missing.png" (state_of gray_1x1 "g.png")
              (-1) 0 5 5 (PyFloat 2) (PyFloat 3) (PyFloat 4))
    as (Hfile & Hcrop & Hbox & Hpal & Hmode & Hinit & _ & _).
  destruct (failures_are_ValueError
              png_library (one_file "g.png" gray_1x1) "g.png"
              (state_of gray_1x1 "g.png")
              (-1) 0 5 5 (PyFloat 2) (PyFloat 3) (PyFloat 4))
    as (_ & _ & _ & _ & _ & _ & Hrun & _).
  split; [apply Hfile; reflexivity |].
  split; [apply Hcrop; reflexivity |].
  split; [apply Hbox; simpl; lia |].
  split; [apply Hpal; reflexivity |].
  split; [apply Hmode; intros [H | H]; discriminate H |].
  split.
  - apply (Hinit (only_path "missing.png")
                 (ValueError_ "File not found: missing.png")).
    reflexivity.
  - apply (Hrun (invert_only "g.png")
                {| image := gray_1x1; image_path := "g.png" |}
                (ValueError_ "Unsupported image mode for color inversion: L")
                (state_of gray_1x1 "g.png")).
    + reflexivity.
    + reflexivity.
Defined.

(* ===================================================================== *)
(** ** The palette grid *)
(* ===================================================================== *)

Lemma set_nth_length {A : Type} (n : nat) (a : A) (l : list A) :
  List.length (set_nth n a l) = List.length l.
Proof.
  revert n. induction l as [| b l IH]; intros [| n]; cbn [set_nth List.length];
    auto.
Qed.

Lemma nth_set_nth {A : Type} (n m : nat) (a d : A) (l : list A) :
  (n < List.length l)%nat ->
  nth m (set_nth n a l) d = if Nat.eqb m n then a else nth m l d.
Proof.
  revert n m. induction l as [| b l IH]; intros n m H; cbn [List.length] in H;
    [lia |].
  destruct n as [| n], m as [| m]; cbn [set_nth nth Nat.eqb]; auto.
  apply IH. lia.
Qed.

Lemma set_nth_Forall {A : Type} (P : A -> Prop) (n : nat) (a : A) (l : list A) :
  P a -> Forall P l -> Forall P (set_nth n a l).
Proof.
  intros Ha H. revert n. induction H as [| b l Hb Hl IH]; intros [| n];
    cbn [set_nth]; constructor; auto.
Qed.

Lemma shaped_row (im : Image) (y : Z) :
  shaped im -> 0 <= y < height im ->
  len (nth (Z.to_nat y) (data im) []) = width im.
Proof.
  intros (_ & _ & Hlen & Hrows) Hy. unfold len in Hlen.
  eapply (proj1 (Forall_forall _ _) Hrows). apply nth_In. lia.
Qed.

Lemma putpixel_shaped (im : Image) (x y : Z) (v : list Z) :
  shaped im ->
  shaped (putpixel im (x, y) v)
  /\ width (putpixel im (x, y) v) = width im
  /\ height (putpixel im (x, y) v) = height im
  /\ mode (putpixel im (x, y) v) = mode im.
Proof.
  intros Hs. unfold putpixel.
  destruct (in_image im x y) eqn:Hin; [| split; [exact Hs | repeat split]].
  apply in_image_iff in Hin as (Hx & Hy).
  pose proof (shaped_row im y Hs Hy) as Hrow.
  destruct Hs as (Hw & Hh & Hlen & Hrows).
  unfold shaped. cbn [width height mode data]. repeat split; try assumption.
  - unfold len in *. now rewrite set_nth_length.
  - apply set_nth_Forall; [| assumption].
    unfold len in *. now rewrite set_nth_length.
Qed.

Lemma pixel_at_putpixel (im : Image) (x y x' y' : Z) (v : list Z) :
  shaped im -> in_image im x y = true -> 0 <= x' -> 0 <= y' ->
  pixel_at (putpixel im (x, y) v) x' y'
  = if (x' =? x) && (y' =? y) then v else pixel_at im x' y'.
Proof.
  intros Hs Hin Hx' Hy'. unfold putpixel. rewrite Hin.
  apply in_image_iff in Hin as (Hx & Hy).
  pose proof (shaped_row im y Hs Hy) as Hrow.
  destruct Hs as (Hw & Hh & Hlen & Hrows).
  unfold pixel_at. cbn [data]. unfold len in *.
  rewrite nth_set_nth by lia.
  destruct (Nat.eqb_spec (Z.to_nat y') (Z.to_nat y)) as [Hey | Hney].
  - assert (y' = y) by lia. subst y'. rewrite Z.eqb_refl, andb_true_r.
    rewrite nth_set_nth by lia.
    destruct (Nat.eqb_spec (Z.to_nat x') (Z.to_nat x)) as [Hex | Hnex].
    + assert (x' = x) by lia. subst x'. now rewrite Z.eqb_refl.
    + destruct (Z.eqb_spec x' x); [subst; contradiction | reflexivity].
  - destruct (Z.eqb_spec y' y); [subst; contradiction |].
    now rewrite andb_false_r.
Qed.

Lemma slice_three (palette : list Z) (i : Z) :
  0 <= i < len palette / 3 ->
  exists r g b, slice palette (i * 3) (i * 3 + 3) = [r; g; b].
Proof.
  intros Hi. unfold len in Hi.
  assert (Hle : 3 * (Z.of_nat (List.length palette) / 3)
                <= Z.of_nat (List.length palette))
    by (apply Z.mul_div_le; lia).
  assert (Hl : List.length (slice palette (i * 3) (i * 3 + 3)) = 3%nat).
  { unfold slice. rewrite length_firstn, length_skipn. lia. }
  destruct (slice palette (i * 3) (i * 3 + 3)) as [| r [| g [| b [| c l]]]];
    cbn [List.length] in Hl; try lia.
  now exists r, g, b.
Qed.

Lemma fill_cell_eq (palette : list Z) (side x y : Z) (im : Image) :
  0 <= x -> 0 <= y -> 0 <= side ->
  fill_cell palette (len palette / 3) side y im x
  = if y * side + x <? len palette / 3
    then putpixel im (x, y)
           (slice palette ((y * side + x) * 3) ((y * side + x) * 3 + 3))
    else im.
Proof.
  intros Hx Hy Hs. unfold fill_cell.
  destruct (Z.ltb_spec (y * side + x) (len palette / 3)) as [Hlt | Hge];
    [| reflexivity].
  destruct (slice_three palette (y * side + x)) as (r & g & b & ->);
    [nia | reflexivity].
Qed.

Section Grid.

Variable palette : list Z.
Variable side : Z.
Hypothesis side_nonneg : 0 <= side.

(** The invariant of the two loops: the image keeps its shape and its size. *)
Let grid (im : Image) : Prop :=
  shaped im /\ width im = side /\ height im = side.

Let entry (x y : Z) : list Z :=
  slice palette ((y * side + x) * 3) ((y * side + x) * 3 + 3).

Let present (x y : Z) : bool := y * side + x <? len palette / 3.

Lemma fill_cell_step (im : Image) (x y : Z) :
  grid im -> 0 <= x < side -> 0 <= y < side ->
  grid (fill_cell palette (len palette / 3) side y im x)
  /\ mode (fill_cell palette (len palette / 3) side y im x) = mode im
  /\ forall x' y', 0 <= x' -> 0 <= y' ->
       pixel_at (fill_cell palette (len palette / 3) side y im x) x' y'
       = if (y' =? y) && (x' =? x) && present x y then entry x y
         else pixel_at im x' y'.
Proof.
  intros (Hs & Hw & Hh) Hx Hy. rewrite fill_cell_eq by lia.
  unfold present, entry.
  destruct (y * side + x <? len palette / 3).
  - destruct (putpixel_shaped im x y
                (slice palette ((y * side + x) * 3) ((y * side + x) * 3 + 3)) Hs)
      as (Hs' & Hw' & Hh' & Hm').
    split; [unfold grid; rewrite Hw', Hh'; auto |]. split; [exact Hm' |].
    intros x' y' Hx' Hy'.
    rewrite pixel_at_putpixel by (try assumption; apply in_image_iff; lia).
    rewrite andb_true_r, andb_comm. reflexivity.
  - split; [unfold grid; auto |]. split; [reflexivity |].
    intros x' y' _ _. now rewrite andb_false_r.
Qed.

Lemma fill_row_cells (xs : list Z) (y : Z) :
  0 <= y < side ->
  Forall (fun x => 0 <= x < side) xs ->
  forall im,
    grid im ->
    grid (fold_left (fill_cell palette (len palette / 3) side y) xs im)
    /\ mode (fold_left (fill_cell palette (len palette / 3) side y) xs im)
       = mode im
    /\ forall x' y', 0 <= x' -> 0 <= y' ->
         pixel_at (fold_left (fill_cell palette (len palette / 3) side y) xs im)
                  x' y'
         = if (y' =? y) && existsb (Z.eqb x') xs && present x' y
           then entry x' y
           else pixel_at im x' y'.
Proof.
  intros Hy. induction 1 as [| x xs Hx _ IH]; intros im Hg; cbn [fold_left].
  - split; [assumption |]. split; [reflexivity |].
    intros x' y' _ _. cbn [existsb]. now rewrite andb_false_r.
  - destruct (fill_cell_step im x y Hg Hx Hy) as (Hg1 & Hm1 & Hp1).
    destruct (IH _ Hg1) as (Hg2 & Hm2 & Hp2).
    split; [assumption |]. split; [now rewrite Hm2 |].
    intros x' y' Hx' Hy'. rewrite Hp2, Hp1 by assumption. cbn [existsb].
    destruct (Z.eqb_spec y' y) as [-> | Hny]; [| reflexivity].
    destruct (Z.eqb_spec x' x) as [-> | Hnx]; cbn [andb orb].
    + destruct (existsb (Z.eqb x) xs), (present x y); reflexivity.
    + destruct (existsb (Z.eqb x') xs), (present x' y); reflexivity.
Qed.

Lemma existsb_range (n x : Z) :
  existsb (Z.eqb x) (range n) = (0 <=? x) && (x <? n).
Proof.
  destruct ((0 <=? x) && (x <? n)) eqn:H.
  - apply existsb_exists. exists x. split; [| apply Z.eqb_refl].
    apply in_range. apply andb_true_iff in H. lia.
  - destruct (existsb (Z.eqb x) (range n)) eqn:He; [| reflexivity].
    apply existsb_exists in He as (z & Hz & Hxz).
    apply in_range in Hz. apply Z.eqb_eq in Hxz. subst z.
    apply andb_false_iff in H. lia.
Qed.

Lemma range_bounded (n : Z) : Forall (fun x => 0 <= x < n) (range n).
Proof. apply Forall_forall. intros x. apply in_range. Qed.

Lemma fill_grid_rows (ys : list Z) :
  Forall (fun y => 0 <= y < side) ys ->
  forall im,
    grid im ->
    grid (fold_left (fill_row palette (len palette / 3) side) ys im)
    /\ mode (fold_left (fill_row palette (len palette / 3) side) ys im)
       = mode im
    /\ forall x' y', 0 <= x' < side -> 0 <= y' ->
         pixel_at (fold_left (fill_row palette (len palette / 3) side) ys im)
                  x' y'
         = if existsb (Z.eqb y') ys && present x' y'
           then entry x' y'
           else pixel_at im x' y'.
Proof.
  induction 1 as [| y ys Hy _ IH]; intros im Hg; cbn [fold_left].
  - split; [assumption |]. split; [reflexivity |]. reflexivity.
  - destruct (fill_row_cells (range side) y Hy (range_bounded side) im Hg)
      as (Hg1 & Hm1 & Hp1).
    fold (fill_row palette (len palette / 3) side im y) in Hg1, Hm1, Hp1.
    destruct (IH _ Hg1) as (Hg2 & Hm2 & Hp2).
    split; [assumption |]. split; [now rewrite Hm2 |].
    intros x' y' Hx' Hy'. rewrite Hp2 by assumption.
    rewrite Hp1 by lia. rewrite existsb_range. cbn [existsb].
    replace ((0 <=? x') && (x' <? side)) with true
      by (symmetry; apply andb_true_iff; lia).
    rewrite andb_true_r.
    destruct (Z.eqb_spec y' y) as [-> | Hny]; cbn [andb orb].
    + destruct (existsb (Z.eqb y) ys), (present x' y); reflexivity.
    + destruct (existsb (Z.eqb y') ys), (present x' y'); reflexivity.
Qed.

Lemma new_grid : grid (new "RGB" (side, side)).
Proof.
  unfold grid, shaped, new. cbn [width height data fst snd].
  repeat split; try assumption.
  - unfold len. rewrite repeat_length. lia.
  - apply Forall_forall. intros row Hrow. apply repeat_spec in Hrow. subst row.
    unfold len. rewrite repeat_length. lia.
Qed.

Lemma pixel_at_new (x y : Z) :
  0 <= x < side -> 0 <= y < side ->
  pixel_at (new "RGB" (side, side)) x y = [0; 0; 0].
Proof.
  intros Hx Hy. unfold pixel_at, new. cbn [data fst snd].
  rewrite nth_repeat_lt by lia. rewrite nth_repeat_lt by lia. reflexivity.
Qed.

(** After the two loops every cell of the grid holds its palette entry, or
    black when the palette has no entry for it. *)
Lemma fill_grid_cells :
  grid (fill_grid palette (len palette / 3) side (new "RGB" (side, side)))
  /\ mode (fill_grid palette (len palette / 3) side (new "RGB" (side, side)))
     = "RGB"
  /\ forall x y, 0 <= x < side -> 0 <= y < side ->
       pixel_at (fill_grid palette (len palette / 3) side
                           (new "RGB" (side, side))) x y
       = palette_cell palette (len palette / 3) side x y.
Proof.
  unfold fill_grid.
  destruct (fill_grid_rows (range side) (range_bounded side) _ new_grid)
    as (Hg & Hm & Hp).
  split; [assumption |]. split; [exact Hm |].
  intros x y Hx Hy. rewrite Hp by lia. rewrite existsb_range.
  replace ((0 <=? y) && (y <? side)) with true
    by (symmetry; apply andb_true_iff; lia).
  rewrite pixel_at_new by assumption. reflexivity.
Qed.

End Grid.

Lemma int_sqrt_small (n : Z) :
  0 <= n <= 256 -> int_of_float (pow_half n) = Ok (Z.sqrt n).
Proof.
  intros Hn.
  assert (Hall : forallb sqrt_agrees (range 257) = true)
    by (vm_compute; reflexivity).
  assert (Hin : In n (range 257)) by (apply in_range; lia).
  pose proof (proj1 (forallb_forall _ _) Hall n Hin) as H.
  unfold sqrt_agrees in H.
  destruct (int_of_float (pow_half n)) as [s |]; [| discriminate H].
  f_equal. now apply Z.eqb_eq.
Qed.

Lemma grid_side_spec (n : Z) :
  0 <= n ->
  0 <= grid_side n
  /\ (grid_side n = Z.sqrt n \/ grid_side n = Z.sqrt n + 1)
  /\ n <= grid_side n * grid_side n
  /\ forall t, t = Z.sqrt n \/ t = Z.sqrt n + 1 -> n <= t * t ->
               grid_side n <= t.
Proof.
  intros Hn. pose proof (Z.sqrt_spec n Hn) as Hs. cbv zeta in Hs.
  pose proof (Z.sqrt_nonneg n) as Hs0. unfold grid_side.
  destruct (Z.eqb_spec (Z.sqrt n * Z.sqrt n) n) as [He | Hne].
  - repeat split; try lia; try (intros t [-> | ->] Ht; lia).
  - repeat split; try lia; try (intros t [-> | ->] Ht; lia).
Qed.
(** The run of [get_palette] on an image with a palette: the grid is handed
    to [save]. *)
Lemma get_palette_run (lib : Library) (st : State) (palette : list Z) :
  getpalette (image (self st)) = Some palette ->
  len palette / 3 <= 256 ->
  get_palette lib st
  = save_as lib "palette"
            (fill_grid palette (len palette / 3) (grid_side (len palette / 3))
                       (new "RGB" (grid_side (len palette / 3),
                                   grid_side (len palette / 3))))
            st.
Proof.
  intros Hpal Hmax.
  assert (Hn : 0 <= len palette / 3)
    by (apply Z.div_pos; unfold len; lia).
  unfold get_palette, bind, get_image, lift. rewrite Hpal.
  rewrite int_sqrt_small by lia. fold (grid_side (len palette / 3)).
  now rewrite get_output_filename_eq.
Qed.

(** C9.  For a palette of [n] entries ([n] at most 256, as in every palette
    image) [get_palette] builds an RGB image whose two sides are
    [grid_side n]: the floor of the square root of [n] when its square is
    [n], one more otherwise, which is the smaller of the two candidates
    whose square reaches [n].  The cell [(x, y)] holds palette entry
    [y * side + x] when that index is below [n], and black otherwise.  With
    256 entries the grid is 16 by 16, with 10 entries it is 4 by 4.  The
    grid is handed to [save] under the [palette] prefix: the call returns,
    with the grid in the file, when the library writes it, and raises the
    library's exception otherwise (a palette without entries gives a grid
    without pixels). *)
Theorem get_palette_grid (lib : Library) (st : State) (palette : list Z) :
  getpalette (image (self st)) = Some palette ->
  len palette / 3 <= 256 ->
  exists out,
    get_palette lib st = save_as lib "palette" out st
    /\ (save_error lib (output_name "palette" st) out = None ->
        get_palette lib st
        = (Ok tt, saved st (output_name "palette" st) out))
    /\ (forall e,
          save_error lib (output_name "palette" st) out = Some e ->
          fst (get_palette lib st) = Raise e)
    /\ mode out = "RGB"
    /\ size out = (grid_side (len palette / 3), grid_side (len palette / 3))
    /\ shaped out
    /\ (grid_side (len palette / 3) = Z.sqrt (len palette / 3)
        \/ grid_side (len palette / 3) = Z.sqrt (len palette / 3) + 1)
    /\ len palette / 3
       <= grid_side (len palette / 3) * grid_side (len palette / 3)
    /\ (forall t,
           t = Z.sqrt (len palette / 3) \/ t = Z.sqrt (len palette / 3) + 1 ->
           len palette / 3 <= t * t ->
           grid_side (len palette / 3) <= t)
    /\ (forall x y,
           0 <= x < grid_side (len palette / 3) ->
           0 <= y < grid_side (len palette / 3) ->
           pixel_at out x y
           = palette_cell palette (len palette / 3)
                          (grid_side (len palette / 3)) x y)
    /\ (len palette / 3 = 256 -> size out = (16, 16))
    /\ (len palette / 3 = 10 -> size out = (4, 4)).
Proof.
  intros Hpal Hmax.
  assert (Hn : 0 <= len palette / 3)
    by (apply Z.div_pos; unfold len; lia).
  destruct (grid_side_spec _ Hn) as (Hside & Hcand & Hfit & Hmin).
  destruct (fill_grid_cells palette _ Hside) as ((Hs & Hw & Hh) & Hm & Hp).
  pose proof (get_palette_run lib st palette Hpal Hmax) as Hrun.
  exists (fill_grid palette (len palette / 3) (grid_side (len palette / 3))
                    (new "RGB" (grid_side (len palette / 3),
                                grid_side (len palette / 3)))).
  assert (Hsize :
            size (fill_grid palette (len palette / 3)
                            (grid_side (len palette / 3))
                            (new "RGB" (grid_side (len palette / 3),
                                        grid_side (len palette / 3))))
            = (grid_side (len palette / 3), grid_side (len palette / 3)))
    by (unfold size; now rewrite Hw, Hh).
  split; [exact Hrun |].
  split; [intros Hsv; rewrite Hrun; now apply save_as_ok |].
  split; [intros e Hsv; rewrite Hrun; now apply save_as_raises |].
  split; [exact Hm |]. split; [exact Hsize |]. split; [exact Hs |].
  split; [exact Hcand |]. split; [exact Hfit |]. split; [exact Hmin |].
  split; [exact Hp |].
  split; intros Heq; rewrite Hsize, Heq; reflexivity.
Qed.

Lemma get_palette_grid_witness :
  exists out,
    get_palette png_library (state_of (indexed 10) "p.png")
    = save_as png_library "palette" out (state_of (indexed 10) "p.png")
    /\ (save_error png_library "palette_p.png" out = None ->
        get_palette png_library (state_of (indexed 10) "p.png")
        = (Ok tt, saved (state_of (indexed 10) "p.png") "palette_p.png" out))
    /\ (forall e,
          save_error png_library "palette_p.png" out = Some e ->
          fst (get_palette png_library (state_of (indexed 10) "p.png"))
          = Raise e)
    /\ mode out = "RGB"
    /\ size out = (4, 4)
    /\ shaped out
    /\ (4 = 3 \/ 4 = 3 + 1)
    /\ 10 <= 4 * 4
    /\ (forall t, t = 3 \/ t = 3 + 1 -> 10 <= t * t -> 4 <= t)
    /\ (forall x y,
           0 <= x < 4 -> 0 <= y < 4 ->
           pixel_at out x y = palette_cell (range 30) 10 4 x y)
    /\ (10 = 256 -> size out = (16, 16))
    /\ (10 = 10 -> size out = (4, 4)).
Proof.
  apply (get_palette_grid png_library (state_of (indexed 10) "p.png")
                          (range 30)).
  - reflexivity.
  - vm_compute. discriminate.
Defined.

(* ===================================================================== *)
(** * Further properties of the program *)
(* ===================================================================== *)

(** ** Output names *)

Lemma has_slash_append (a b : string) :
  has_slash (a ++ b) = has_slash a || has_slash b.
Proof.
  induction a as [| c a IH]; cbn [append has_slash]; [reflexivity |].
  now destruct (Ascii.eqb c "/").
Qed.

Lemma basename_no_slash (p : string) : has_slash (basename p) = false.
Proof.
  induction p as [| c p IH]; cbn [basename]; [reflexivity |].
  destruct (Ascii.eqb c "/") eqn:Hc; [exact IH |].
  destruct (has_slash p) eqn:Hp; [exact IH |].
  cbn [has_slash]. now rewrite Hc.
Qed.

Lemma length_append (a b : string) :
  String.length (a ++ b) = (String.length a + String.length b)%nat.
Proof.
  induction a as [| c a IH]; cbn [append String.length]; [reflexivity |].
  now rewrite IH.
Qed.

Lemma append_inj_l (a a' c : string) : a ++ c = a' ++ c -> a = a'.
Proof.
  revert a'. induction a as [| x a IH]; intros [| y a'] H; try reflexivity.
  - apply (f_equal String.length) in H. cbn [append String.length] in H.
    rewrite length_append in H. lia.
  - apply (f_equal String.length) in H. cbn [append String.length] in H.
    rewrite length_append in H. lia.
  - cbn [append] in H. injection H as -> H. f_equal. now apply IH.
Qed.

(** X1.  [_get_output_filename] returns [prefix_basename] and changes
    nothing.  The name holds no slash when the prefix holds none, so the
    file goes to the working directory; it is never the base name of the
    input, so the input is not overwritten there; and two prefixes give the
    same name only when they are equal, so the operations of a run write
    five different files. *)
Theorem output_filename_properties (prefix : string) (st : State) :
  _get_output_filename prefix st
  = (Ok (prefix ++ "_" ++ basename (image_path (self st))), st)
  /\ (has_slash prefix = false ->
      has_slash (prefix ++ "_" ++ basename (image_path (self st))) = false)
  /\ prefix ++ "_" ++ basename (image_path (self st))
     <> basename (image_path (self st))
  /\ forall prefix',
       prefix ++ "_" ++ basename (image_path (self st))
       = prefix' ++ "_" ++ basename (image_path (self st)) ->
       prefix = prefix'.
Proof.
  split; [apply get_output_filename_eq |]. split; [| split].
  - intros Hp. rewrite !has_slash_append, Hp, basename_no_slash. reflexivity.
  - intros H. apply (f_equal String.length) in H.
    rewrite !length_append in H. cbn [String.length] in H. lia.
  - intros prefix' H.
    change (prefix ++ "_" ++ basename (image_path (self st)))
      with (prefix ++ ("_" ++ basename (image_path (self st)))) in H.
    apply (append_inj_l prefix prefix' ("_" ++ basename (image_path (self st)))).
    exact H.
Qed.

Lemma output_filename_properties_witness :
  has_slash ("cropped" ++ "_" ++ basename "dir/sub/photo.png") = false.
Proof.
  apply (proj1 (proj2 (output_filename_properties
                         "cropped" (state_of dot_3x2 "dir/sub/photo.png")))).
  reflexivity.
Defined.

(** ** What one operation does to the state *)

Lemma get_info_run (st : State) :
  get_info st = (Ok tt, printed st (info_lines (image (self st)))).
Proof.
  unfold get_info, bind, get_image, print, printed, info_lines.
  destruct (palette (image (self st))); cbn [self world stdout files];
    now rewrite <- !app_assoc.
Qed.

(** Every operation that writes a file raises at once or ends in
    [save_as]. *)
Lemma crop_image_ends_in_save (lib : Library) (left upper right lower : Z) :
  ends_in_save lib "cropped" (crop_image lib left upper right lower).
Proof.
  intros st.
  destruct (crop_image_outcomes lib st left upper right lower)
    as [H | [H | H]]; [left; eauto | left; eauto | right].
  eexists _, st.
  split; [eassumption || reflexivity | split; reflexivity].
Qed.

Lemma crop_empty_ends_in_save (lib : Library) :
  ends_in_save lib "cropped_empty" (crop_empty lib).
Proof.
  intros st.
  destruct (crop_empty_outcomes lib st) as [H | (box & H)];
    [now left | right].
  now exists (crop (image (self st)) box),
             (with_image st (crop (image (self st)) box)).
Qed.

Lemma get_palette_ends_in_save (lib : Library) :
  ends_in_save lib "palette" (get_palette lib).
Proof.
  intros st. unfold get_palette, bind, get_image, lift, raise.
  destruct (getpalette (image (self st))) as [pal |]; [| left; eauto].
  destruct (int_of_float (pow_half (len pal / 3))) as [side |];
    [| left; eauto].
  right. rewrite get_output_filename_eq. eexists _, st.
  split; [eassumption || reflexivity | split; reflexivity].
Qed.

Lemma adjust_colors_ends_in_save (lib : Library) (r g b : number) :
  ends_in_save lib "adjusted" (adjust_colors lib r g b).
Proof.
  intros st. unfold adjust_colors, bind, get_image, lift, raise.
  destruct (negb (existsb (String.eqb (mode (image (self st))))
                          ["RGB"; "RGBA"])); [left; eauto |].
  destruct (point (image (self st)) (adjust_lambda [r; g; b])) as [im |];
    [| left; eauto].
  right. rewrite get_output_filename_eq. eexists _, st.
  split; [eassumption || reflexivity | split; reflexivity].
Qed.

Lemma invert_colors_ends_in_save (lib : Library) :
  ends_in_save lib "inverted" (invert_colors lib).
Proof.
  intros st. unfold invert_colors, bind, get_image, lift, raise.
  destruct (negb (existsb (String.eqb (mode (image (self st))))
                          ["RGB"; "RGBA"])); [left; eauto |].
  destruct (point (image (self st)) invert_lambda) as [im |];
    [| left; eauto].
  right. rewrite get_output_filename_eq. eexists _, st.
  split; [eassumption || reflexivity | split; reflexivity].
Qed.

(** An operation that leaves [self] alone before it saves. *)
Lemma keeps_self (lib : Library) (prefix : string) (m : M unit) (st : State) :
  ((exists e, m st = (Raise e, st))
   \/ exists im, m st = save_as lib prefix im st) ->
  self (snd (m st)) = self st.
Proof.
  intros [(e & ->) | (im & ->)]; [reflexivity | apply save_as_self].
Qed.

Lemma get_palette_cases (lib : Library) (st : State) :
  (exists e, get_palette lib st = (Raise e, st))
  \/ exists im, get_palette lib st = save_as lib "palette" im st.
Proof.
  unfold get_palette, bind, get_image, lift, raise.
  destruct (getpalette (image (self st))) as [pal |]; [| left; eauto].
  destruct (int_of_float (pow_half (len pal / 3))) as [side |];
    [| left; eauto].
  right. rewrite get_output_filename_eq. eexists. reflexivity.
Qed.

Lemma adjust_colors_cases (lib : Library) (st : State) (r g b : number) :
  (exists e, adjust_colors lib r g b st = (Raise e, st))
  \/ exists im, adjust_colors lib r g b st = save_as lib "adjusted" im st.
Proof.
  unfold adjust_colors, bind, get_image, lift, raise.
  destruct (negb (existsb (String.eqb (mode (image (self st))))
                          ["RGB"; "RGBA"])); [left; eauto |].
  destruct (point (image (self st)) (adjust_lambda [r; g; b])) as [im |];
    [| left; eauto].
  right. rewrite get_output_filename_eq. eexists. reflexivity.
Qed.

Lemma invert_colors_cases (lib : Library) (st : State) :
  (exists e, invert_colors lib st = (Raise e, st))
  \/ exists im, invert_colors lib st = save_as lib "inverted" im st.
Proof.
  unfold invert_colors, bind, get_image, lift, raise.
  destruct (negb (existsb (String.eqb (mode (image (self st))))
                          ["RGB"; "RGBA"])); [left; eauto |].
  destruct (point (image (self st)) invert_lambda) as [im |];
    [| left; eauto].
  right. rewrite get_output_filename_eq. eexists. reflexivity.
Qed.

Lemma crop_image_cases (lib : Library) (st : State)
    (left upper right lower : Z) :
  (exists e, crop_image lib left upper right lower st = (Raise e, st))
  \/ exists im, crop_image lib left upper right lower st
                = save_as lib "cropped" im st.
Proof.
  destruct (crop_image_outcomes lib st left upper right lower)
    as [H | [H | H]]; [left; eauto | left; eauto | right; eauto].
Qed.

(** What the failure of an operation that leaves [self] alone hands on: the
    state received, or that state without an image under the output name
    when the library failed while it wrote the file. *)
Lemma failure_state (lib : Library) (prefix : string) (m : M unit)
    (st st' : State) (e : exception) :
  ((exists e0, m st = (Raise e0, st))
   \/ exists im, m st = save_as lib prefix im st) ->
  m st = (Raise e, st') ->
  st' = st
  \/ (st' = unsaved st (output_name prefix st)
      /\ exists im,
           m st = save_as lib prefix im st
           /\ save_outcome lib (output_name prefix st) im = Failed e).
Proof.
  intros [(e0 & He0) | (im & Him)] H.
  - rewrite He0 in H. injection H as _ <-. now left.
  - rewrite Him in H.
    apply save_as_raise_inv in H as (_ & [(_ & ->) | (Ho & ->)]);
      [now left | right].
    split; [reflexivity |]. now exists im.
Qed.

(** X2.  What a failing operation leaves behind.  [crop_image],
    [get_palette], [adjust_colors] and [invert_colors] hand on the state
    they received (working image, path, printed lines, files), with one
    exception: when the library fails while it writes the output file, no
    image is left under the output name, and this is the only change.
    [crop_empty] prints nothing and keeps the path; it hands on the state it
    received unless the failure is that of [save], in which case the working
    image has already been replaced by the crop that could not be
    written. *)
Theorem failed_operation_changes_nothing
    (lib : Library) (st st' : State) (e : exception)
    (left upper right lower : Z) (r g b : number) :
  (crop_image lib left upper right lower st = (Raise e, st') ->
   st' = st
   \/ (st' = unsaved st (output_name "cropped" st)
       /\ exists im,
            crop_image lib left upper right lower st
            = save_as lib "cropped" im st
            /\ save_outcome lib (output_name "cropped" st) im = Failed e))
  /\ (get_palette lib st = (Raise e, st') ->
      st' = st
      \/ (st' = unsaved st (output_name "palette" st)
          /\ exists im,
               get_palette lib st = save_as lib "palette" im st
               /\ save_outcome lib (output_name "palette" st) im = Failed e))
  /\ (adjust_colors lib r g b st = (Raise e, st') ->
      st' = st
      \/ (st' = unsaved st (output_name "adjusted" st)
          /\ exists im,
               adjust_colors lib r g b st = save_as lib "adjusted" im st
               /\ save_outcome lib (output_name "adjusted" st) im = Failed e))
  /\ (invert_colors lib st = (Raise e, st') ->
      st' = st
      \/ (st' = unsaved st (output_name "inverted" st)
          /\ exists im,
               invert_colors lib st = save_as lib "inverted" im st
               /\ save_outcome lib (output_name "inverted" st) im = Failed e))
  /\ (crop_empty lib st = (Raise e, st') ->
      stdout (world st') = stdout (world st)
      /\ image_path (self st') = image_path (self st)
      /\ (st' = st
          \/ exists box,
               image (self st') = crop (image (self st)) box
               /\ save_error lib (output_name "cropped_empty" st)
                             (crop (image (self st)) box) = Some e)).
Proof.
  split; [| split; [| split; [| split]]]; intros H.
  - now apply (failure_state lib "cropped" _ st st' e
                 (crop_image_cases lib st left upper right lower)).
  - now apply (failure_state lib "palette" _ st st' e
                 (get_palette_cases lib st)).
  - now apply (failure_state lib "adjusted" _ st st' e
                 (adjust_colors_cases lib st r g b)).
  - now apply (failure_state lib "inverted" _ st st' e
                 (invert_colors_cases lib st)).
  - destruct (crop_empty_outcomes lib st) as [(e0 & H0) | (box & H0)].
    + rewrite H0 in H. injection H as _ <-. repeat split. now left.
    + rewrite H0 in H.
      pose proof (save_as_self lib "cropped_empty"
                    (crop (image (self st)) box)
                    (with_image st (crop (image (self st)) box))) as Hself.
      pose proof (save_as_stdout lib "cropped_empty"
                    (crop (image (self st)) box)
                    (with_image st (crop (image (self st)) box))) as Hout.
      rewrite H in Hself, Hout. cbn [snd] in Hself, Hout.
      split; [exact Hout |]. split; [now rewrite Hself |].
      right. exists box. split; [now rewrite Hself |].
      apply (save_as_raises_inv lib "cropped_empty" _
               (with_image st (crop (image (self st)) box))).
      now rewrite H.
Qed.

Lemma failed_operation_changes_nothing_witness :
  (state_of gray_1x1 "g.png" = state_of gray_1x1 "g.png"
   \/ (state_of gray_1x1 "g.png"
       = unsaved (state_of gray_1x1 "g.png") "inverted_g.png"
       /\ exists im,
            invert_colors png_library (state_of gray_1x1 "g.png")
            = save_as png_library "inverted" im (state_of gray_1x1 "g.png")
            /\ save_outcome png_library "inverted_g.png" im
               = Failed (ValueError_
                           "Unsupported image mode for color inversion: L")))
  /\ (stdout (world (with_image (state_of dot_3x2 "photo")
                                (crop dot_3x2 (1, 0, 2, 1))))
      = []
      /\ image_path (self (with_image (state_of dot_3x2 "photo")
                                      (crop dot_3x2 (1, 0, 2, 1))))
         = "photo"
      /\ (with_image (state_of dot_3x2 "photo") (crop dot_3x2 (1, 0, 2, 1))
          = state_of dot_3x2 "photo"
          \/ exists box,
               crop dot_3x2 (1, 0, 2, 1) = crop dot_3x2 box
               /\ save_error png_library "cropped_empty_photo"
                             (crop dot_3x2 box)
                  = Some (ValueError_ "unknown file extension: "))).
Proof.
  split.
  - apply (proj1 (proj2 (proj2 (proj2
             (failed_operation_changes_nothing
                png_library (state_of gray_1x1 "g.png")
                (state_of gray_1x1 "g.png")
                (ValueError_ "Unsupported image mode for color inversion: L")
                0 0 1 1 (PyFloat 1) (PyFloat 1) (PyFloat 1)))))).
    reflexivity.
  - apply (proj2 (proj2 (proj2 (proj2
             (failed_operation_changes_nothing
                png_library (state_of dot_3x2 "photo")
                (with_image (state_of dot_3x2 "photo")
                            (crop dot_3x2 (1, 0, 2, 1)))
                (ValueError_ "unknown file extension: ")
                0 0 1 1 (PyFloat 1) (PyFloat 1) (PyFloat 1)))))).
    vm_compute. reflexivity.
Defined.

(** An operation that ends in [save_as] leaves every other file alone. *)
Lemma save_as_other_files (lib : Library) (prefix : string) (im : Image)
    (st : State) (name : string) :
  name <> output_name prefix st ->
  lookup_file name (files (world (snd (save_as lib prefix im st))))
  = lookup_file name (files (world st)).
Proof.
  intros Hne.
  destruct (save_as_cases lib prefix im st)
    as [(_ & ->) | [(e & _ & _ & ->) | (e & _ & _ & ->)]];
    cbn [snd saved unsaved world files].
  - now apply lookup_write_other.
  - reflexivity.
  - now apply lookup_remove_other.
Qed.

Lemma save_as_written (lib : Library) (prefix : string) (im : Image)
    (st st' : State) :
  save_as lib prefix im st = (Ok tt, st') ->
  lookup_file (output_name prefix st) (files (world st')) = Some im.
Proof.
  intros H. apply save_as_ok_inv in H as (_ & ->).
  cbn [saved world files]. apply lookup_write_same.
Qed.

(** X3.  Of all the operations only [crop_empty] assigns to [self.image]:
    [get_info], [crop_image], [get_palette], [adjust_colors] and
    [invert_colors] hand on the object they received, whether they return
    or raise; [crop_empty] keeps the path.  [get_info] touches no file.
    Each of the other operations touches one file at most, the one under its
    own output name: every file under another name keeps its content, and
    when the operation returns, the file under its output name holds an
    image (what was there before is replaced). *)
Theorem operations_keep_the_object
    (lib : Library) (st : State)
    (left upper right lower : Z) (r g b : number) :
  self (snd (get_info st)) = self st
  /\ self (snd (crop_image lib left upper right lower st)) = self st
  /\ self (snd (get_palette lib st)) = self st
  /\ self (snd (adjust_colors lib r g b st)) = self st
  /\ self (snd (invert_colors lib st)) = self st
  /\ image_path (self (snd (crop_empty lib st))) = image_path (self st)
  /\ files (world (snd (get_info st))) = files (world st)
  /\ (forall prefix m,
        In (prefix, m)
           [("cropped", crop_image lib left upper right lower);
            ("cropped_empty", crop_empty lib);
            ("palette", get_palette lib);
            ("adjusted", adjust_colors lib r g b);
            ("inverted", invert_colors lib)] ->
        (forall name,
            name <> output_name prefix st ->
            lookup_file name (files (world (snd (m st))))
            = lookup_file name (files (world st)))
        /\ (forall st',
              m st = (Ok tt, st') ->
              exists im,
                lookup_file (output_name prefix st) (files (world st'))
                = Some im)).
Proof.
  split; [now rewrite get_info_run |].
  split; [apply crop_image_self |].
  split; [apply (keeps_self lib "palette"), get_palette_cases |].
  split; [apply (keeps_self lib "adjusted"), adjust_colors_cases |].
  split; [apply (keeps_self lib "inverted"), invert_colors_cases |].
  split; [destruct (crop_empty_outcomes lib st) as [(e & ->) | (box & ->)];
          [reflexivity | now rewrite save_as_self] |].
  split; [now rewrite get_info_run |].
  assert (Hgen : forall prefix m,
             ends_in_save lib prefix m ->
             (forall name,
                 name <> output_name prefix st ->
                 lookup_file name (files (world (snd (m st))))
                 = lookup_file name (files (world st)))
             /\ (forall st',
                   m st = (Ok tt, st') ->
                   exists im,
                     lookup_file (output_name prefix st) (files (world st'))
                     = Some im)).
  { intros prefix m Hm.
    destruct (Hm st) as [(e & He) | (im & s1 & Hrun & Hw & Hp)].
    - rewrite He. split; [reflexivity |]. intros st' H. discriminate H.
    - assert (Hn : output_name prefix s1 = output_name prefix st)
        by (unfold output_name; now rewrite Hp).
      rewrite Hrun. split.
      + intros name Hne. rewrite save_as_other_files by now rewrite Hn.
        now rewrite Hw.
      + intros st' H. exists im. rewrite <- Hn.
        now apply (save_as_written lib prefix im s1). }
  intros prefix m Hm. cbn [In] in Hm.
  destruct Hm as [Hm | [Hm | [Hm | [Hm | [Hm | []]]]]];
    injection Hm as <- <-; apply Hgen.
  - apply crop_image_ends_in_save.
  - apply crop_empty_ends_in_save.
  - apply get_palette_ends_in_save.
  - apply adjust_colors_ends_in_save.
  - apply invert_colors_ends_in_save.
Qed.

Lemma operations_keep_the_object_witness :
  (forall name,
      name <> "inverted_photo.png" ->
      lookup_file name (files (world (snd (invert_colors png_library
                                                         dot_state_cropped))))
      = lookup_file name (files (world dot_state_cropped)))
  /\ (forall st',
        invert_colors png_library dot_state_cropped = (Ok tt, st') ->
        exists im,
          lookup_file "inverted_photo.png" (files (world st')) = Some im).
Proof.
  apply (proj2 (proj2 (proj2 (proj2 (proj2 (proj2 (proj2
           (operations_keep_the_object
              png_library dot_state_cropped 0 0 1 1
              (PyFloat 1) (PyFloat 1) (PyFloat 1))))))))
           "inverted" (invert_colors png_library)).
  cbn [In]. do 4 right. left. reflexivity.
Defined.

(** ** The shape of a run *)

Lemma fresh_one (p : string) (st : State) :
  fresh [p] st -> ~ In (output_name p st) (map fst (files (world st))).
Proof.
  unfold fresh. cbn [map]. intros H Hin.
  apply NoDup_remove_2 in H. apply H. now rewrite app_nil_r.
Qed.

Lemma writes_ret : writes [] (ret tt).
Proof.
  intros st r st' _ H. unfold ret in H. injection H as <- <-.
  repeat split. exists 0%nat. cbn [firstn map]. rewrite app_nil_r.
  repeat split. intros e H. discriminate H.
Qed.

(** An operation that raises at once or ends in [save_as] writes its one
    file, or none when it raises. *)
Lemma writes_save (lib : Library) (p : string) (m : M unit) :
  ends_in_save lib p m -> writes [p] m.
Proof.
  intros Hm st r st' Hfresh H. apply fresh_one in Hfresh.
  destruct (Hm st) as [(e & He) | (im & s1 & Hrun & Hw & Hp)].
  - rewrite He in H. injection H as <- <-.
    split; [reflexivity |]. split; [reflexivity |].
    exists 0%nat. cbn [firstn map List.length]. rewrite app_nil_r.
    repeat split; [discriminate | intros; lia].
  - assert (Hn : output_name p s1 = output_name p st)
      by (unfold output_name; now rewrite Hp).
    rewrite Hrun in H.
    destruct (save_as_cases lib p im s1)
      as [(_ & Hs) | [(e & _ & _ & Hs) | (e & _ & _ & Hs)]];
      rewrite Hs in H; injection H as <- <-;
      cbn [saved unsaved self world stdout files]; rewrite ?Hn, ?Hw.
    + split; [assumption |]. split; [reflexivity |].
      exists 1%nat. cbn [firstn map List.length].
      rewrite write_file_fresh by assumption. rewrite map_app.
      repeat split. intros e H. discriminate H.
    + split; [assumption |]. split; [reflexivity |].
      exists 0%nat. cbn [firstn map List.length]. rewrite app_nil_r.
      repeat split; [discriminate | intros; lia].
    + split; [assumption |]. split; [reflexivity |].
      exists 0%nat. cbn [firstn map List.length]. rewrite app_nil_r.
      rewrite remove_file_fresh by assumption.
      repeat split; [discriminate | intros; lia].
Qed.

Lemma writes_when (b : bool) (ps : list string) (m : M unit) :
  writes ps m -> writes (if b then ps else []) (when b m).
Proof. destruct b; [trivial | intros _; apply writes_ret]. Qed.

Lemma writes_bind (ps1 ps2 : list string) (m1 m2 : M unit) :
  writes ps1 m1 -> writes ps2 m2 -> writes (ps1 ++ ps2) (m1 ;; m2).
Proof.
  intros H1 H2 st r st' Hfresh H. unfold bind in H.
  unfold fresh in Hfresh. rewrite map_app, app_assoc in Hfresh.
  assert (Hfresh1 : fresh ps1 st)
    by (unfold fresh; now apply NoDup_app_remove_r in Hfresh).
  destruct (m1 st) as [[[] | e1] s1] eqn:E1.
  - destruct (H1 _ _ _ Hfresh1 E1) as (Hp1 & Ho1 & k1 & Hf1 & Hk1 & _).
    specialize (Hk1 eq_refl). subst k1. rewrite firstn_all in Hf1.
    assert (Hnames : forall l,
               map (fun p => output_name p s1) l
               = map (fun p => output_name p st) l).
    { intros l. apply map_ext. intros p. unfold output_name.
      now rewrite Hp1. }
    assert (Hfresh2 : fresh ps2 s1)
      by (unfold fresh; now rewrite Hf1, Hnames).
    destruct (H2 _ _ _ Hfresh2 H) as (Hp2 & Ho2 & k2 & Hf2 & Hk2 & Hlt2).
    split; [congruence |]. split; [congruence |].
    exists (List.length ps1 + k2)%nat. rewrite firstn_app_2, map_app.
    split; [| split].
    + now rewrite Hf2, Hf1, Hnames, <- app_assoc.
    + intros Hr. rewrite length_app, (Hk2 Hr). reflexivity.
    + intros e Hr. rewrite length_app. specialize (Hlt2 e Hr). lia.
  - injection H as <- <-.
    destruct (H1 _ _ _ Hfresh1 E1) as (Hp1 & Ho1 & k1 & Hf1 & _ & Hlt1).
    specialize (Hlt1 e1 eq_refl).
    split; [assumption |]. split; [assumption |].
    exists k1. rewrite firstn_app.
    replace (k1 - List.length ps1)%nat with 0%nat by lia.
    cbn [firstn]. rewrite app_nil_r.
    split; [assumption |]. split; [discriminate |].
    intros e _. rewrite length_app. lia.
Qed.

Lemma writes_crop_image (lib : Library) (left upper right lower : Z) :
  writes ["cropped"] (crop_image lib left upper right lower).
Proof. apply (writes_save lib), crop_image_ends_in_save. Qed.

Lemma writes_crop_empty (lib : Library) :
  writes ["cropped_empty"] (crop_empty lib).
Proof. apply (writes_save lib), crop_empty_ends_in_save. Qed.

Lemma writes_get_palette (lib : Library) :
  writes ["palette"] (get_palette lib).
Proof. apply (writes_save lib), get_palette_ends_in_save. Qed.

Lemma writes_adjust_colors (lib : Library) (r g b : number) :
  writes ["adjusted"] (adjust_colors lib r g b).
Proof. apply (writes_save lib), adjust_colors_ends_in_save. Qed.

Lemma writes_invert_colors (lib : Library) :
  writes ["inverted"] (invert_colors lib).
Proof. apply (writes_save lib), invert_colors_ends_in_save. Qed.

(** The operations [main] runs after [get_info]. *)
Lemma writes_requested (lib : Library) (args : Args) :
  writes (requested args)
         (match arg_crop args with
          | Some (l, u, r, b) => crop_image lib l u r b
          | None => ret tt
          end ;;
          after_crop lib args).
Proof.
  unfold requested, after_crop, after_crop_empty.
  apply writes_bind.
  { destruct (arg_crop args) as [[[[l u] r] b] |];
      [apply writes_crop_image | apply writes_ret]. }
  apply writes_bind; [apply writes_when, writes_crop_empty |].
  apply writes_bind; [apply writes_when, writes_get_palette |].
  apply writes_bind.
  { destruct (arg_adjust_colors args) as [[[r g] b] |];
      [apply writes_adjust_colors | apply writes_ret]. }
  apply writes_when, writes_invert_colors.
Qed.

Lemma requested_NoDup (args : Args) : NoDup (requested args).
Proof.
  unfold requested.
  destruct (arg_crop args), (arg_crop_empty args), (arg_palette args),
    (arg_adjust_colors args), (arg_invert args); cbn [app];
    repeat (constructor;
            [cbn [In]; intros H;
             repeat (destruct H as [H | H]; [discriminate H |]);
             exact H |]);
    constructor.
Qed.

Lemma output_names_NoDup (base : string) (ps : list string) :
  NoDup ps -> NoDup (map (fun p => p ++ "_" ++ base) ps).
Proof.
  induction 1 as [| p ps Hp _ IH]; cbn [map]; constructor; [| exact IH].
  intros Hin. apply in_map_iff in Hin as (p' & Heq & Hin).
  apply (append_inj_l p' p ("_" ++ base)) in Heq. now subst p'.
Qed.

Lemma init_ok_path (fs : FileSystem) (path : string)
    (processor : ImageProcessor) :
  __init__ fs path = Ok processor ->
  image_path processor = path /\ fs path = Some (Ok (image processor)).
Proof.
  unfold __init__, isfile, open.
  destruct (fs path) as [[im | e] |]; cbn [negb]; try discriminate.
  intros H. injection H as <-. split; reflexivity.
Qed.

(** X4.  A run on a file that loads writes its files in a fixed order,
    whatever the order of the flags: [cropped_], [cropped_empty_],
    [palette_], [adjusted_], [inverted_] followed by the base name of the
    input, one per requested operation.  When every operation returns, the
    files are exactly the requested ones and the output is the four lines of
    [--info] (when asked for) and nothing else.  When an operation raises,
    the files are those of the operations before it, strictly fewer than
    requested, the operations after it do not run, and exactly one line,
    ["An error occurred: "] with the message, follows the [--info] lines. *)
Theorem main_run_shape
    (lib : Library) (fs : FileSystem) (args : Args)
    (processor : ImageProcessor) :
  __init__ fs (arg_image_path args) = Ok processor ->
  exists k,
    map fst (files (main lib fs args))
    = map (fun p => p ++ "_" ++ basename (arg_image_path args))
          (firstn k (requested args))
    /\ ((k = List.length (requested args)
         /\ stdout (main lib fs args)
            = (if arg_info args then info_lines (image processor) else []))
        \/ ((k < List.length (requested args))%nat
            /\ exists e,
                 stdout (main lib fs args)
                 = ((if arg_info args then info_lines (image processor)
                     else []) ++ [report e])%list)).
Proof.
  intros Hinit. destruct (init_ok_path _ _ _ Hinit) as (Hpath & _).
  set (st0 := {| self := processor; world := no_output |}).
  set (rest := (match arg_crop args with
                | Some (l, u, r, b) => crop_image lib l u r b
                | None => ret tt
                end ;; after_crop lib args)).
  assert (Hstep :
            exists st1,
              when (arg_info args) get_info st0 = (Ok tt, st1)
              /\ image_path (self st1) = arg_image_path args
              /\ files (world st1) = []
              /\ stdout (world st1)
                 = (if arg_info args then info_lines (image processor)
                    else [])).
  { destruct (arg_info args); cbn [when].
    - rewrite get_info_run. eexists. split; [reflexivity |].
      cbn [printed self world stdout files st0 no_output].
      repeat split. exact Hpath.
    - exists st0. cbn [ret]. repeat split. exact Hpath. }
  destruct Hstep as (st1 & Hinfo & Hp1 & Hf1 & Ho1).
  assert (Hrun : run_operations lib args st0 = rest st1).
  { unfold run_operations.
    change (run_operations lib args st0)
      with ((when (arg_info args) get_info ;; rest) st0).
    unfold bind at 1. now rewrite Hinfo. }
  assert (Hmain :
            main lib fs args
            = match rest st1 with
              | (Ok _, s) => world s
              | (Raise e, s) => world (snd (print (report e) s))
              end).
  { unfold main. rewrite Hinit. fold st0. now rewrite Hrun. }
  rewrite Hmain.
  destruct (rest st1) as [r st2] eqn:Hrest.
  assert (Hfresh : fresh (requested args) st1).
  { unfold fresh, output_name. rewrite Hf1. cbn [map app].
    apply output_names_NoDup, requested_NoDup. }
  destruct (writes_requested lib args _ _ _ Hfresh Hrest)
    as (Hp2 & Ho2 & k & Hfiles & Hall & Hless).
  rewrite Hf1 in Hfiles. cbn [map app] in Hfiles.
  assert (Hnames :
            map fst (files (world st2))
            = map (fun p => p ++ "_" ++ basename (arg_image_path args))
                  (firstn k (requested args))).
  { rewrite Hfiles. apply map_ext. intros p. unfold output_name.
    now rewrite Hp1. }
  exists k. destruct r as [[] | e].
  - split; [exact Hnames |]. left.
    split; [now apply Hall |]. now rewrite Ho2.
  - cbn [print snd world files stdout].
    split; [exact Hnames |]. right.
    split; [now apply (Hless e) |]. exists e. now rewrite Ho2, Ho1.
Qed.

Lemma main_run_shape_witness :
  exists k,
    map fst (files (main png_library (one_file "dir/photo.png" dot_3x2)
                         (crop_empty_and_invert "dir/photo.png")))
    = map (fun p => p ++ "_" ++ basename "dir/photo.png")
          (firstn k (requested (crop_empty_and_invert "dir/photo.png")))
    /\ ((k = List.length (requested (crop_empty_and_invert "dir/photo.png"))
         /\ stdout (main png_library (one_file "dir/photo.png" dot_3x2)
                         (crop_empty_and_invert "dir/photo.png"))
            = [])
        \/ ((k < List.length
                   (requested (crop_empty_and_invert "dir/photo.png")))%nat
            /\ exists e,
                 stdout (main png_library (one_file "dir/photo.png" dot_3x2)
                              (crop_empty_and_invert "dir/photo.png"))
                 = ([] ++ [report e])%list)).
Proof.
  apply (main_run_shape png_library (one_file "dir/photo.png" dot_3x2)
                        (crop_empty_and_invert "dir/photo.png")
                        {| image := dot_3x2; image_path := "dir/photo.png" |}).
  reflexivity.
Defined.

(** X5.  What [__init__] makes of the path.  Without a regular file there it
    raises the "File not found" [ValueError].  With a regular file that the
    library refuses to open it raises nothing of its own: the library's
    exception comes out as it is.  With a file that the library opens, the
    object holds that image and the path as given.  In the two failing
    cases [main] prints one line, the message after ["An error occurred: "],
    runs no operation and writes no file, whatever the flags. *)
Theorem init_outcomes (lib : Library) (fs : FileSystem) (args : Args) :
  (fs (arg_image_path args) = None ->
   __init__ fs (arg_image_path args)
   = Raise (Exception ValueError
              ("File not found: " ++ arg_image_path args))
   /\ main lib fs args
      = {| stdout := ["An error occurred: File not found: "
                      ++ arg_image_path args];
           files := [] |})
  /\
  (forall e,
     fs (arg_image_path args) = Some (Raise e) ->
     __init__ fs (arg_image_path args) = Raise e
     /\ main lib fs args
        = {| stdout := ["An error occurred: " ++ exc_msg e]; files := [] |})
  /\
  (forall im,
     fs (arg_image_path args) = Some (Ok im) ->
     __init__ fs (arg_image_path args)
     = Ok {| image := im; image_path := arg_image_path args |}).
Proof.
  split; [| split].
  - intros H.
    assert (Hi : __init__ fs (arg_image_path args)
                 = Raise (Exception ValueError
                            ("File not found: " ++ arg_image_path args)))
      by (unfold __init__, isfile; now rewrite H).
    split; [exact Hi |]. unfold main. now rewrite Hi.
  - intros e H.
    assert (Hi : __init__ fs (arg_image_path args) = Raise e)
      by (unfold __init__, isfile, open; now rewrite H).
    split; [exact Hi |]. unfold main. now rewrite Hi.
  - intros im H. unfold __init__, isfile, open. now rewrite H.
Qed.

Lemma init_outcomes_witness :
  (__init__ no_files "missing.png"
   = Raise (Exception ValueError "File not found: missing.png")
   /\ main png_library no_files (only_path "missing.png")
      = {| stdout := ["An error occurred: File not found: missing.png"];
           files := [] |})
  /\ (__init__ text_file_only "notes.txt"
      = Raise (Exception (OtherError "UnidentifiedImageError")
                         "cannot identify image file 'notes.txt'")
      /\ main png_library text_file_only (invert_only "notes.txt")
         = {| stdout :=
                ["An error occurred: cannot identify image file 'notes.txt'"];
              files := [] |}).
Proof.
  split.
  - apply (proj1 (init_outcomes png_library no_files
                                (only_path "missing.png"))).
    reflexivity.
  - apply (proj1 (proj2 (init_outcomes png_library text_file_only
                                       (invert_only "notes.txt")))
             (Exception (OtherError "UnidentifiedImageError")
                        "cannot identify image file 'notes.txt'")).
    reflexivity.
Defined.

(** ** The box [crop_empty] finds *)

Lemma crop_empty_image (lib : Library) (st : State) (box : Z * Z * Z * Z) :
  crop_empty lib st
  = save_as lib "cropped_empty" (crop (image (self st)) box)
            (with_image st (crop (image (self st)) box)) ->
  image (self (snd (crop_empty lib st))) = crop (image (self st)) box.
Proof. intros H. rewrite H, save_as_self. reflexivity. Qed.

(** X6.  The box of [crop_empty] is the smallest one: it holds every pixel
    whose luminance is above zero, and every box that holds them all
    contains it. *)
Theorem crop_empty_smallest_box (lib : Library) (st : State) :
  wf_image (convert lib (image (self st)) "L") ->
  bands (convert lib (image (self st)) "L") = 1 ->
  (exists x y,
      0 <= x < width (convert lib (image (self st)) "L")
      /\ 0 <= y < height (convert lib (image (self st)) "L")
      /\ 0 < luminance (convert lib (image (self st)) "L") x y) ->
  exists left upper right lower,
    image (self (snd (crop_empty lib st)))
    = crop (image (self st)) (left, upper, right, lower)
    /\ (forall x y,
           0 <= x < width (convert lib (image (self st)) "L") ->
           0 <= y < height (convert lib (image (self st)) "L") ->
           0 < luminance (convert lib (image (self st)) "L") x y ->
           left <= x < right /\ upper <= y < lower)
    /\ forall left' upper' right' lower',
         (forall x y,
             0 <= x < width (convert lib (image (self st)) "L") ->
             0 <= y < height (convert lib (image (self st)) "L") ->
             0 < luminance (convert lib (image (self st)) "L") x y ->
             left' <= x < right' /\ upper' <= y < lower') ->
         left' <= left /\ right <= right'
         /\ upper' <= upper /\ lower <= lower'.
Proof.
  intros Hwf Hb Hcontent.
  destruct (crop_empty_box lib st Hwf Hb Hcontent)
    as (left & upper & right & lower & Hrun & _ & _ & _ & _ & Hx & Hy
        & Hcl & Hcr & Hru & Hrl & Hall).
  exists left, upper, right, lower.
  split; [now apply crop_empty_image |]. split; [exact Hall |].
  intros left' upper' right' lower' Hbox.
  apply column_content_true in Hcl as (y1 & Hy1 & Hp1).
  apply column_content_true in Hcr as (y2 & Hy2 & Hp2).
  apply row_content_true in Hru as (x3 & Hx3 & Hp3).
  apply row_content_true in Hrl as (x4 & Hx4 & Hp4).
  pose proof (Hbox left y1 ltac:(lia) Hy1 Hp1).
  pose proof (Hbox (right - 1) y2 ltac:(lia) Hy2 Hp2).
  pose proof (Hbox x3 upper Hx3 ltac:(lia) Hp3).
  pose proof (Hbox x4 (lower - 1) Hx4 ltac:(lia) Hp4).
  lia.
Qed.

(** X7.  When a single pixel [(px, py)] has a luminance above zero,
    [crop_empty] crops to the box [(px, py, px + 1, py + 1)]: the new
    working image, which is also the one handed to [save], is one pixel
    wide and one pixel high.  The call returns, with that image in the
    file, when the library writes it. *)
Theorem crop_empty_single_pixel (lib : Library) (st : State) (px py : Z) :
  wf_image (convert lib (image (self st)) "L") ->
  bands (convert lib (image (self st)) "L") = 1 ->
  0 <= px < width (convert lib (image (self st)) "L") ->
  0 <= py < height (convert lib (image (self st)) "L") ->
  (forall x y,
      0 <= x < width (convert lib (image (self st)) "L") ->
      0 <= y < height (convert lib (image (self st)) "L") ->
      (0 < luminance (convert lib (image (self st)) "L") x y
       <-> x = px /\ y = py)) ->
  crop_empty lib st
  = save_as lib "cropped_empty"
            (crop (image (self st)) (px, py, px + 1, py + 1))
            (with_image st (crop (image (self st)) (px, py, px + 1, py + 1)))
  /\ image (self (snd (crop_empty lib st)))
     = crop (image (self st)) (px, py, px + 1, py + 1)
  /\ size (crop (image (self st)) (px, py, px + 1, py + 1)) = (1, 1)
  /\ (save_error lib (output_name "cropped_empty" st)
                 (crop (image (self st)) (px, py, px + 1, py + 1)) = None ->
      crop_empty lib st
      = (Ok tt,
         saved (with_image st (crop (image (self st))
                                    (px, py, px + 1, py + 1)))
               (output_name "cropped_empty" st)
               (crop (image (self st)) (px, py, px + 1, py + 1)))).
Proof.
  intros Hwf Hb Hpx Hpy Hone.
  destruct (crop_empty_box lib st Hwf Hb)
    as (left & upper & right & lower & Hrun & _ & _ & _ & _ & Hx & Hy
        & Hcl & Hcr & Hru & Hrl & _).
  { exists px, py. repeat split; try lia. now apply Hone. }
  apply column_content_true in Hcl as (y1 & Hy1 & Hp1).
  apply column_content_true in Hcr as (y2 & Hy2 & Hp2).
  apply row_content_true in Hru as (x3 & Hx3 & Hp3).
  apply row_content_true in Hrl as (x4 & Hx4 & Hp4).
  apply Hone in Hp1; [| lia | lia]. apply Hone in Hp2; [| lia | lia].
  apply Hone in Hp3; [| lia | lia]. apply Hone in Hp4; [| lia | lia].
  assert (left = px) by lia. assert (right = px + 1) by lia.
  assert (upper = py) by lia. assert (lower = py + 1) by lia.
  subst left right upper lower.
  split; [exact Hrun |].
  split; [now apply crop_empty_image |].
  split; [unfold size, crop; cbn [width height]; f_equal; lia |].
  intros Hs. rewrite Hrun.
  now apply (crop_empty_tail lib st
               (crop (image (self st)) (px, py, px + 1, py + 1))).
Qed.

Lemma dot_content_only_at_1_0 (x y : Z) :
  0 <= x < 3 -> 0 <= y < 2 ->
  (0 < luminance (convert_601 dot_3x2 "L") x y <-> x = 1 /\ y = 0).
Proof.
  intros Hx Hy.
  assert (Hxs : x = 0 \/ x = 1 \/ x = 2) by lia.
  assert (Hys : y = 0 \/ y = 1) by lia.
  destruct Hxs as [-> | [-> | ->]]; destruct Hys as [-> | ->];
    (split;
     [ intros H; vm_compute in H; try discriminate H; split; reflexivity
     | intros [H1 H2]; try discriminate H1; try discriminate H2;
       vm_compute; reflexivity ]).
Defined.

Lemma crop_empty_smallest_box_witness :
  exists left upper right lower,
    image (self (snd (crop_empty png_library dot_state)))
    = crop dot_3x2 (left, upper, right, lower).
Proof.
  destruct (crop_empty_smallest_box png_library dot_state)
    as (left & upper & right & lower & H & _).
  - exact gray_dot_3x2_wf.
  - reflexivity.
  - exists 1, 0. vm_compute. repeat split; discriminate.
  - exists left, upper, right, lower. exact H.
Defined.

Lemma crop_empty_single_pixel_witness :
  crop_empty png_library dot_state
  = save_as png_library "cropped_empty"
            (crop dot_3x2 (1, 0, 1 + 1, 0 + 1))
            (with_image dot_state (crop dot_3x2 (1, 0, 1 + 1, 0 + 1)))
  /\ image (self (snd (crop_empty png_library dot_state)))
     = crop dot_3x2 (1, 0, 1 + 1, 0 + 1)
  /\ size (crop dot_3x2 (1, 0, 1 + 1, 0 + 1)) = (1, 1)
  /\ (save_error png_library "cropped_empty_photo.png"
                 (crop dot_3x2 (1, 0, 1 + 1, 0 + 1)) = None ->
      crop_empty png_library dot_state
      = (Ok tt,
         saved (with_image dot_state (crop dot_3x2 (1, 0, 1 + 1, 0 + 1)))
               "cropped_empty_photo.png"
               (crop dot_3x2 (1, 0, 1 + 1, 0 + 1)))).
Proof.
  apply (crop_empty_single_pixel png_library dot_state 1 0).
  - exact gray_dot_3x2_wf.
  - reflexivity.
  - simpl. lia.
  - simpl. lia.
  - exact dot_content_only_at_1_0.
Defined.

(** ** Cropping twice *)

Lemma pixel_at_crop_in (im : Image) (x0 y0 x1 y1 x y : Z) :
  0 <= x < x1 - x0 -> 0 <= y < y1 - y0 ->
  pixel_at (crop im (x0, y0, x1, y1)) x y
  = if in_image im (x0 + x) (y0 + y) then pixel_at im (x0 + x) (y0 + y)
    else repeat 0 (Z.to_nat (bands im)).
Proof.
  intros Hx Hy. unfold pixel_at at 1. cbn [crop data].
  rewrite nth_map_range by lia. now rewrite nth_map_range by lia.
Qed.

Lemma image_ext (a b : Image) :
  format a = format b -> mode a = mode b ->
  width a = width b -> height a = height b ->
  data a = data b -> palette a = palette b -> a = b.
Proof.
  destruct a, b. cbn [format mode width height data palette].
  intros; subst; reflexivity.
Qed.

(** Cropping a crop to its full size gives the same image. *)
Lemma crop_full (im : Image) (x0 y0 x1 y1 : Z) :
  crop (crop im (x0, y0, x1, y1)) (0, 0, x1 - x0, y1 - y0)
  = crop im (x0, y0, x1, y1).
Proof.
  assert (Hw : width (crop im (x0, y0, x1, y1)) = Z.max 0 (x1 - x0))
    by reflexivity.
  assert (Hh : height (crop im (x0, y0, x1, y1)) = Z.max 0 (y1 - y0))
    by reflexivity.
  assert (Hd : data (crop im (x0, y0, x1, y1))
               = map (fun y =>
                        map (fun x =>
                               pixel_at (crop im (x0, y0, x1, y1)) x y)
                            (range (x1 - x0)))
                     (range (y1 - y0))).
  { unfold crop at 1. cbn [data].
    apply map_ext_in. intros y Hy. apply in_range in Hy.
    apply map_ext_in. intros x Hx. apply in_range in Hx.
    now rewrite pixel_at_crop_in. }
  set (c := crop im (x0, y0, x1, y1)) in *.
  apply image_ext.
  - reflexivity.
  - reflexivity.
  - unfold crop at 1. cbn [width]. rewrite Hw. lia.
  - unfold crop at 1. cbn [height]. rewrite Hh. lia.
  - unfold crop at 1. cbn [data]. rewrite Hd, !Z.sub_0_r.
    apply map_ext_in. intros y Hy. apply in_range in Hy.
    apply map_ext_in. intros x Hx. apply in_range in Hx.
    rewrite !Z.add_0_l.
    replace (in_image c x y) with true; [reflexivity |].
    symmetry. apply in_image_iff. rewrite Hw, Hh. lia.
  - reflexivity.
Qed.

Lemma luminance_crop (gray : Image) (x0 y0 x1 y1 x y : Z) :
  0 <= x < x1 - x0 -> 0 <= y < y1 - y0 ->
  0 <= x0 -> x1 <= width gray -> 0 <= y0 -> y1 <= height gray ->
  luminance (crop gray (x0, y0, x1, y1)) x y = luminance gray (x0 + x) (y0 + y).
Proof.
  intros. unfold luminance. now rewrite crop_pixel_at.
Qed.

(** On the image a first [crop_empty] left, a second one finds the whole
    image as its box. *)
Lemma crop_empty_again (lib : Library) (st st1 : State) :
  (forall box,
      convert lib (crop (image (self st)) box) "L"
      = crop (convert lib (image (self st)) "L") box) ->
  wf_image (convert lib (image (self st)) "L") ->
  bands (convert lib (image (self st)) "L") = 1 ->
  (exists x y,
      0 <= x < width (convert lib (image (self st)) "L")
      /\ 0 <= y < height (convert lib (image (self st)) "L")
      /\ 0 < luminance (convert lib (image (self st)) "L") x y) ->
  image (self st1) = image (self (snd (crop_empty lib st))) ->
  crop_empty lib st1
  = save_as lib "cropped_empty" (image (self st1))
            (with_image st1 (image (self st1))).
Proof.
  intros Hcomm Hwf Hb Hcontent Him.
  destruct (crop_empty_box lib st Hwf Hb Hcontent)
    as (l & u & r & b & Hrun & _ & _ & _ & _ & Hx & Hy
        & Hcl & Hcr & Hru & Hrl & Hall).
  rewrite (crop_empty_image lib st _ Hrun) in Him.
  set (gray := convert lib (image (self st)) "L") in *.
  assert (Hgray1 : convert lib (image (self st1)) "L"
                   = crop gray (l, u, r, b))
    by (rewrite Him; apply Hcomm).
  assert (Hw1 : width (crop gray (l, u, r, b)) = r - l)
    by (unfold crop; cbn [width]; lia).
  assert (Hh1 : height (crop gray (l, u, r, b)) = b - u)
    by (unfold crop; cbn [height]; lia).
  apply column_content_true in Hcl as (y1 & Hy1 & Hp1).
  apply column_content_true in Hcr as (y2 & Hy2 & Hp2).
  apply row_content_true in Hru as (x3 & Hx3 & Hp3).
  apply row_content_true in Hrl as (x4 & Hx4 & Hp4).
  pose proof (Hall l y1 ltac:(lia) Hy1 Hp1) as Hin1.
  pose proof (Hall (r - 1) y2 ltac:(lia) Hy2 Hp2) as Hin2.
  pose proof (Hall x3 u Hx3 ltac:(lia) Hp3) as Hin3.
  pose proof (Hall x4 (b - 1) Hx4 ltac:(lia) Hp4) as Hin4.
  destruct (crop_empty_box lib st1)
    as (l1 & u1 & r1 & b1 & Hrun1 & _ & _ & _ & _ & Hx1' & Hy1'
        & _ & _ & _ & _ & Hall1).
  { rewrite Hgray1. now apply crop_wf. }
  { rewrite Hgray1. exact Hb. }
  { rewrite Hgray1, Hw1, Hh1. exists 0, (y1 - u).
    split; [lia |]. split; [lia |].
    rewrite luminance_crop by lia.
    now replace (l + 0) with l by lia; replace (u + (y1 - u)) with y1 by lia. }
  rewrite Hgray1, Hw1, Hh1 in *.
  assert (Hc1 := Hall1 0 (y1 - u) ltac:(lia) ltac:(lia)).
  rewrite luminance_crop in Hc1 by lia.
  replace (l + 0) with l in Hc1 by lia.
  replace (u + (y1 - u)) with y1 in Hc1 by lia. specialize (Hc1 Hp1).
  assert (Hc2 := Hall1 (r - 1 - l) (y2 - u) ltac:(lia) ltac:(lia)).
  rewrite luminance_crop in Hc2 by lia.
  replace (l + (r - 1 - l)) with (r - 1) in Hc2 by lia.
  replace (u + (y2 - u)) with y2 in Hc2 by lia. specialize (Hc2 Hp2).
  assert (Hc3 := Hall1 (x3 - l) 0 ltac:(lia) ltac:(lia)).
  rewrite luminance_crop in Hc3 by lia.
  replace (l + (x3 - l)) with x3 in Hc3 by lia.
  replace (u + 0) with u in Hc3 by lia. specialize (Hc3 Hp3).
  assert (Hc4 := Hall1 (x4 - l) (b - 1 - u) ltac:(lia) ltac:(lia)).
  rewrite luminance_crop in Hc4 by lia.
  replace (l + (x4 - l)) with x4 in Hc4 by lia.
  replace (u + (b - 1 - u)) with (b - 1) in Hc4 by lia. specialize (Hc4 Hp4).
  assert (l1 = 0) by lia. assert (r1 = r - l) by lia.
  assert (u1 = 0) by lia. assert (b1 = b - u) by lia.
  subst l1 r1 u1 b1.
  rewrite Hrun1, Him, crop_full. reflexivity.
Qed.

(** X8.  [crop_empty] is idempotent.  Take the luminance view of a crop to be
    the crop of the luminance view (the conversion works pixel by pixel).
    Then, on an image with content, a second [crop_empty] finds the whole
    image as its box: the image it hands to [save] is the working image the
    first call left, and that image stays the working image.  When the
    first call returned, the second one returns too and hands on the very
    state it received: the same object, the same output, and the same files
    (the file is written again with the same content). *)
Theorem crop_empty_idempotent (lib : Library) (st : State) :
  (forall box,
      convert lib (crop (image (self st)) box) "L"
      = crop (convert lib (image (self st)) "L") box) ->
  wf_image (convert lib (image (self st)) "L") ->
  bands (convert lib (image (self st)) "L") = 1 ->
  (exists x y,
      0 <= x < width (convert lib (image (self st)) "L")
      /\ 0 <= y < height (convert lib (image (self st)) "L")
      /\ 0 < luminance (convert lib (image (self st)) "L") x y) ->
  (forall st1,
      image (self st1) = image (self (snd (crop_empty lib st))) ->
      crop_empty lib st1
      = save_as lib "cropped_empty" (image (self st1))
                (with_image st1 (image (self st1)))
      /\ image (self (snd (crop_empty lib st1))) = image (self st1))
  /\ image (self (snd (crop_empty lib (snd (crop_empty lib st)))))
     = image (self (snd (crop_empty lib st)))
  /\ forall st',
       crop_empty lib st = (Ok tt, st') ->
       crop_empty lib st' = (Ok tt, st').
Proof.
  intros Hcomm Hwf Hb Hcontent.
  assert (Hagain : forall st1,
             image (self st1) = image (self (snd (crop_empty lib st))) ->
             crop_empty lib st1
             = save_as lib "cropped_empty" (image (self st1))
                       (with_image st1 (image (self st1)))
             /\ image (self (snd (crop_empty lib st1))) = image (self st1)).
  { intros st1 Him.
    pose proof (crop_empty_again lib st st1 Hcomm Hwf Hb Hcontent Him) as H.
    split; [exact H |]. rewrite H, save_as_self. reflexivity. }
  split; [exact Hagain |].
  split; [now apply Hagain |].
  intros st' Hrun.
  destruct (Hagain st') as (Hrun' & _); [now rewrite Hrun |].
  destruct (crop_empty_ok_inv lib st st' Hrun) as (box & Hst').
  rewrite Hst' in Hrun.
  destruct (crop_empty_outcomes lib st) as [(e & He) | (box' & Hbox')];
    [rewrite He in Hrun; discriminate Hrun |].
  rewrite Hbox' in Hrun.
  apply save_as_ok_inv in Hrun as (Hnone & Heq).
  assert (Hbox : crop (image (self st)) box' = crop (image (self st)) box).
  { apply (f_equal (fun s => image (self s))) in Heq.
    cbn [saved with_image self image] in Heq. now symmetry. }
  rewrite Hbox in Hnone.
  rewrite Hrun', Hst'. cbn [saved with_image self image].
  rewrite (save_as_ok lib "cropped_empty") by exact Hnone.
  unfold saved, with_image. cbn [self world stdout files image_path].
  now rewrite write_file_twice.
Qed.

Lemma pixel_at_convert_601 (im : Image) (m : string) (x y : Z) :
  pixel_at (convert_601 im m) x y = luma_601 (pixel_at im x y).
Proof.
  unfold pixel_at, convert_601. cbn [data].
  rewrite (nth_map_nil luma_601).
  change (@nil Z) with (luma_601 (@nil Z)) at 1.
  now rewrite map_nth.
Qed.

Lemma convert_601_crop (im : Image) (box : Z * Z * Z * Z) :
  bands im = 3 ->
  convert_601 (crop im box) "L" = crop (convert_601 im "L") box.
Proof.
  intros Hb. destruct box as [[[x0 y0] x1] y1].
  apply image_ext; try reflexivity.
  assert (Hin : forall x y,
             in_image (convert_601 im "L") x y = in_image im x y)
    by reflexivity.
  assert (Hbg : bands (convert_601 im "L") = 1) by reflexivity.
  set (g := convert_601 im "L") in *.
  unfold convert_601. cbn [data]. unfold crop. cbn [data].
  rewrite map_map. apply map_ext. intros y.
  rewrite map_map. apply map_ext. intros x.
  rewrite Hin, Hbg, Hb.
  destruct (in_image im (x0 + x) (y0 + y)); [| reflexivity].
  subst g. now rewrite pixel_at_convert_601.
Defined.

Lemma crop_empty_idempotent_witness :
  (forall st1,
      image (self st1) = image (self (snd (crop_empty png_library dot_state))) ->
      crop_empty png_library st1
      = save_as png_library "cropped_empty" (image (self st1))
                (with_image st1 (image (self st1)))
      /\ image (self (snd (crop_empty png_library st1))) = image (self st1))
  /\ image (self (snd (crop_empty png_library
                                  (snd (crop_empty png_library dot_state)))))
     = image (self (snd (crop_empty png_library dot_state)))
  /\ forall st',
       crop_empty png_library dot_state = (Ok tt, st') ->
       crop_empty png_library st' = (Ok tt, st').
Proof.
  apply (crop_empty_idempotent png_library dot_state).
  - intros box. apply convert_601_crop. reflexivity.
  - exact gray_dot_3x2_wf.
  - reflexivity.
  - exists 1, 0. vm_compute. repeat split; discriminate.
Defined.

(** ** Colour adjustment: scaling, clamping, failures *)

Lemma mapM_map_ok {A B C : Type} (f : B -> result C) (h : A -> B) (g : A -> C)
    (l : list A) :
  (forall a, In a l -> f (h a) = Ok (g a)) ->
  mapM f (map h l) = Ok (map g l).
Proof.
  induction l as [| a l IH]; intros H; cbn [map mapM]; [reflexivity |].
  rewrite (H a (or_introl eq_refl)), IH; [reflexivity |].
  intros a' Ha'. apply H. now right.
Qed.

(** A function whose rounded values are known gives the table that holds
    them, stored in an [int] and clipped, for every band. *)
Lemma build_lut_values (lut : Z -> number) (g : Z -> Z) (nbands : Z) :
  (forall i, 0 <= i < 256 -> Py.round (lut i) = Ok (g i) /\ fits_long (g i)) ->
  build_lut lut nbands
  = Ok (List.concat (repeat (map (fun i => CLIP8 (as_int (g i))) (range 256))
                            (Z.to_nat nbands))).
Proof.
  intros Hg. unfold build_lut.
  rewrite concat_repeat_map.
  rewrite (mapM_map_ok Py.round lut g).
  - rewrite mapM_as_long.
    + rewrite map_map. now rewrite <- concat_repeat_map.
    + apply Forall_forall. intros n Hn. apply in_map_iff in Hn as (i & <- & Hi).
      apply in_concat_repeat, in_range in Hi. now apply Hg.
  - intros i Hi. apply in_concat_repeat, in_range in Hi. now apply Hg.
Qed.

Lemma point_values (im : Image) (lut : Z -> number) (g : Z -> Z) :
  wf_image im ->
  (forall i, 0 <= i < 256 -> Py.round (lut i) = Ok (g i) /\ fits_long (g i)) ->
  point im lut = Ok (map_samples (fun v => CLIP8 (as_int (g v))) im).
Proof.
  intros (_ & _ & _ & Hrows) Hg. unfold point, map_samples.
  rewrite (build_lut_values lut g) by assumption. do 2 f_equal.
  apply map_ext_Forall with (P := row_ok (width im) (bands im)); [| assumption].
  intros row (_ & Hrow).
  apply map_ext_Forall with (P := pixel_ok (bands im)); [| assumption].
  intros px (Hlen & Hpx).
  apply point_pixel_map; [lia | lia | assumption].
Qed.

Lemma CLIP8_range (n : Z) : sample_ok (CLIP8 n).
Proof.
  unfold sample_ok, CLIP8.
  destruct (Z.leb_spec n 0); [lia |]. destruct (Z.ltb_spec n 256); lia.
Qed.

Lemma CLIP8_sample (v : Z) : sample_ok v -> CLIP8 v = v.
Proof.
  unfold sample_ok, CLIP8. intros Hv.
  destruct (Z.leb_spec v 0); [lia |]. destruct (Z.ltb_spec v 256); lia.
Qed.

Lemma map_samples_id_data (f : Z -> Z) (im : Image) :
  wf_image im -> (forall v, sample_ok v -> f v = v) ->
  data (map_samples f im) = data im.
Proof.
  intros (_ & _ & _ & Hrows) Hf. unfold map_samples. cbn [data].
  rewrite <- (map_id (data im)) at 2.
  apply map_ext_Forall with (P := row_ok (width im) (bands im)); [| assumption].
  intros row (_ & Hrow). rewrite <- (map_id row) at 2.
  apply map_ext_Forall with (P := pixel_ok (bands im)); [| assumption].
  intros px (_ & Hpx). rewrite <- (map_id px) at 2.
  now apply map_ext_Forall with (P := sample_ok).
Qed.

(** X9.  When the table of [adjust_colors] can be built, the image handed to
    [save] has the size and the mode of the working image and all its
    samples lie in 0..255.  A sample [v] becomes the product
    [v * coefficients[v mod 3]], rounded, stored in a 32-bit [int] and then
    clamped to 0..255: a rounded product that fits 32 bits is clamped (below
    at 0, above at 255), a larger one is first reduced modulo [2^32].  With
    three equal coefficients the product is [v * c] in every band. *)
Theorem adjust_colors_clamps
    (lib : Library) (st : State) (r g b : number) (new_image : Image) :
  wf_image (image (self st)) ->
  supported_mode (mode (image (self st))) ->
  point (image (self st)) (adjust_lambda [r; g; b]) = Ok new_image ->
  exists t,
    new_image = map_samples t (image (self st))
    /\ adjust_colors lib r g b st = save_as lib "adjusted" new_image st
    /\ wf_image new_image
    /\ size new_image = size (image (self st))
    /\ mode new_image = mode (image (self st))
    /\ (forall x y, pixel_at new_image x y
                    = map t (pixel_at (image (self st)) x y))
    /\ (forall v, 0 <= v < 256 -> 0 <= t v <= 255)
    /\ (forall v, 0 <= v < 256 ->
          exists n,
            Py.round (Py.mul (PyInt v)
                             (nth (Z.to_nat (v mod 3)) [r; g; b] (PyInt 0)))
            = Ok n
            /\ t v = CLIP8 (as_int n)
            /\ (fits_int n ->
                t v = (if n <=? 0 then 0 else if n <? 256 then n else 255)))
    /\ (g = r -> b = r ->
        forall v, 0 <= v < 256 ->
          exists n,
            Py.round (Py.mul (PyInt v) r) = Ok n
            /\ t v = CLIP8 (as_int n)
            /\ (fits_int n ->
                t v = (if n <=? 0 then 0 else if n <? 256 then n else 255))).
Proof.
  intros Hwf Hmode Hp.
  destruct (point_adjust_by_sample_value _ _ r g b Hwf Hmode Hp)
    as (t & Hnew & Ht).
  assert (Hrange : forall v, 0 <= v < 256 -> 0 <= t v <= 255).
  { intros v Hv. destruct (Ht v Hv) as (n & _ & _ & ->). apply CLIP8_range. }
  assert (Hval : forall v, 0 <= v < 256 ->
            exists n,
              Py.round (Py.mul (PyInt v)
                               (nth (Z.to_nat (v mod 3)) [r; g; b] (PyInt 0)))
              = Ok n
              /\ t v = CLIP8 (as_int n)
              /\ (fits_int n ->
                  t v = (if n <=? 0 then 0
                         else if n <? 256 then n else 255))).
  { intros v Hv. destruct (Ht v Hv) as (n & Hn & _ & Htv).
    exists n. split; [exact Hn |]. split; [exact Htv |].
    intros Hfit. rewrite Htv, as_int_fits by assumption. reflexivity. }
  exists t. subst new_image.
  split; [reflexivity |].
  split; [rewrite adjust_colors_supported, Hp by assumption; reflexivity |].
  split.
  { apply map_samples_wf; [assumption |].
    intros v Hv. apply Hrange. unfold sample_ok in Hv. lia. }
  split; [reflexivity |]. split; [reflexivity |].
  split; [intros x y; apply pixel_at_map_samples |].
  split; [exact Hrange |]. split; [exact Hval |].
  intros -> -> v Hv. destruct (Hval v Hv) as (n & Hn & Htv).
  exists n. split; [| exact Htv].
  rewrite <- Hn. do 2 f_equal.
  assert (Hm : 0 <= v mod 3 < 3) by (apply Z.mod_pos_bound; lia).
  assert (Hc : v mod 3 = 0 \/ v mod 3 = 1 \/ v mod 3 = 2) by lia.
  destruct Hc as [-> | [-> | ->]]; reflexivity.
Qed.

Lemma bright_1x1_wf : wf_image bright_1x1.
Proof. wf_by_computation. Defined.

Lemma adjust_colors_clamps_witness :
  (exists t,
      {| format := None; mode := "RGB"; width := 1; height := 1;
         data := [[[255; 200; 2]]]; palette := None |}
      = map_samples t bright_1x1
      /\ adjust_colors png_library (PyFloat 2) (PyFloat 2) (PyFloat 2)
                       (state_of bright_1x1 "photo.png")
         = save_as png_library "adjusted"
                   {| format := None; mode := "RGB"; width := 1; height := 1;
                      data := [[[255; 200; 2]]]; palette := None |}
                   (state_of bright_1x1 "photo.png")
      /\ t 200 = 255 /\ t 100 = 200 /\ t 1 = 2)
  /\ (exists t,
         {| format := None; mode := "RGB"; width := 1; height := 1;
            data := [[[0; 0; 0]]]; palette := None |}
         = map_samples t bright_1x1
         /\ adjust_colors png_library (PyFloat 4294967296)
                          (PyFloat 4294967296) (PyFloat 4294967296)
                          (state_of bright_1x1 "photo.png")
            = save_as png_library "adjusted"
                      {| format := None; mode := "RGB"; width := 1;
                         height := 1; data := [[[0; 0; 0]]];
                         palette := None |}
                      (state_of bright_1x1 "photo.png")
         /\ Py.round (Py.mul (PyInt 200) (PyFloat 4294967296))
            = Ok 858993459200
         /\ t 200 = CLIP8 (as_int 858993459200)
         /\ t 200 = 0).
Proof.
  split.
  - destruct (adjust_colors_clamps
                png_library (state_of bright_1x1 "photo.png")
                (PyFloat 2) (PyFloat 2) (PyFloat 2)
                {| format := None; mode := "RGB"; width := 1; height := 1;
                   data := [[[255; 200; 2]]]; palette := None |}
                bright_1x1_wf (or_introl eq_refl) eq_refl)
      as (t & Hnew & Hrun & _ & _ & _ & Hpix & _).
    exists t. split; [exact Hnew |]. split; [exact Hrun |].
    specialize (Hpix 0 0). vm_compute in Hpix.
    injection Hpix as H1 H2 H3. repeat split; congruence.
  - destruct (adjust_colors_clamps
                png_library (state_of bright_1x1 "photo.png")
                (PyFloat 4294967296) (PyFloat 4294967296)
                (PyFloat 4294967296)
                {| format := None; mode := "RGB"; width := 1; height := 1;
                   data := [[[0; 0; 0]]]; palette := None |}
                bright_1x1_wf (or_introl eq_refl) eq_refl)
      as (t & Hnew & Hrun & _ & _ & _ & Hpix & _ & _ & Hsame).
    exists t. split; [exact Hnew |]. split; [exact Hrun |].
    destruct (Hsame eq_refl eq_refl 200 ltac:(lia)) as (n & Hn & Htn & _).
    assert (Hn' : Py.round (Py.mul (PyInt 200) (PyFloat 4294967296))
                  = Ok 858993459200) by (vm_compute; reflexivity).
    rewrite Hn' in Hn. injection Hn as <-.
    split; [exact Hn' |]. split; [exact Htn |].
    rewrite Htn. vm_compute. reflexivity.
Defined.

Lemma unit_products (v : Z) :
  0 <= v < 256 -> Py.round (Py.mul (PyInt v) (PyFloat 1)) = Ok v.
Proof.
  intros Hv.
  assert (Hall : forallb unit_product_agrees (range 256) = true)
    by (vm_compute; reflexivity).
  assert (Hin : In v (range 256)) by (apply in_range; lia).
  pose proof (proj1 (forallb_forall _ _) Hall v Hin) as H.
  unfold unit_product_agrees in H.
  destruct (Py.round (Py.mul (PyInt v) (PyFloat 1))) as [n |];
    [| discriminate H].
  f_equal. now apply Z.eqb_eq.
Qed.

(** X10.  With the coefficients [(1.0, 1.0, 1.0)] [adjust_colors] hands to
    [save] an image with the pixel data, the size and the mode of the
    working image; the call returns, with that image in the file, when the
    library writes it. *)
Theorem adjust_colors_unit_coefficients (lib : Library) (st : State) :
  wf_image (image (self st)) ->
  supported_mode (mode (image (self st))) ->
  exists out,
    adjust_colors lib (PyFloat 1) (PyFloat 1) (PyFloat 1) st
    = save_as lib "adjusted" out st
    /\ (save_error lib (output_name "adjusted" st) out = None ->
        adjust_colors lib (PyFloat 1) (PyFloat 1) (PyFloat 1) st
        = (Ok tt, saved st (output_name "adjusted" st) out))
    /\ data out = data (image (self st))
    /\ size out = size (image (self st))
    /\ mode out = mode (image (self st)).
Proof.
  intros Hwf Hmode.
  exists (map_samples (fun v => CLIP8 (as_int v)) (image (self st))).
  assert (Hrun : adjust_colors lib (PyFloat 1) (PyFloat 1) (PyFloat 1) st
                 = save_as lib "adjusted"
                     (map_samples (fun v => CLIP8 (as_int v))
                                  (image (self st))) st).
  { rewrite adjust_colors_supported by assumption.
    rewrite (point_values _ _ (fun v => v) Hwf); [reflexivity |].
    intros i Hi. split; [| unfold fits_long; lia].
    unfold adjust_lambda.
    assert (Hm : 0 <= i mod 3 < 3) by (apply Z.mod_pos_bound; lia).
    assert (Hc : i mod 3 = 0 \/ i mod 3 = 1 \/ i mod 3 = 2) by lia.
    destruct Hc as [-> | [-> | ->]]; now apply unit_products. }
  split; [exact Hrun |].
  split; [intros Hs; rewrite Hrun; now apply save_as_ok |].
  split; [| split; reflexivity].
  apply map_samples_id_data; [assumption |].
  intros v Hv. unfold sample_ok in Hv.
  rewrite as_int_fits by (unfold fits_int; lia). now apply CLIP8_sample.
Qed.

Lemma adjust_colors_unit_coefficients_witness :
  exists out,
    adjust_colors png_library (PyFloat 1) (PyFloat 1) (PyFloat 1) dot_state
    = save_as png_library "adjusted" out dot_state
    /\ (save_error png_library "adjusted_photo.png" out = None ->
        adjust_colors png_library (PyFloat 1) (PyFloat 1) (PyFloat 1) dot_state
        = (Ok tt, saved dot_state "adjusted_photo.png" out))
    /\ data out = data dot_3x2
    /\ size out = (3, 2)
    /\ mode out = "RGB".
Proof.
  apply (adjust_colors_unit_coefficients png_library dot_state).
  - exact dot_3x2_wf.
  - left. reflexivity.
Defined.

Lemma build_lut_first_fails (lut : Z -> number) (nbands : Z) (e : exception) :
  0 < nbands ->
  Py.round (lut 0) = Raise e ->
  build_lut lut nbands = Raise e.
Proof.
  intros Hb H0. unfold build_lut.
  destruct (Z.to_nat nbands) as [| k] eqn:Hk; [lia |].
  change (range 256) with (0 :: tl (range 256)).
  cbn [repeat List.concat map app mapM]. now rewrite H0.
Qed.

(** X11.  A red coefficient that is NaN or infinite makes [adjust_colors]
    fail on every RGB or RGBA image, whatever the other two coefficients:
    the first entry of the table is [0 * red], which is NaN, and rounding it
    raises [ValueError]; nothing is saved. *)
Theorem adjust_colors_red_not_finite
    (lib : Library) (st : State) (red : float) (g b : number) :
  supported_mode (mode (image (self st))) ->
  red = nan \/ red = infinity \/ red = neg_infinity ->
  adjust_colors lib (PyFloat red) g b st
  = (Raise (Exception ValueError "cannot convert float NaN to integer"), st).
Proof.
  intros Hmode Hred. rewrite adjust_colors_supported by assumption.
  unfold point.
  rewrite (build_lut_first_fails _ _
             (Exception ValueError "cannot convert float NaN to integer"));
    [reflexivity | now apply supported_mode_bands |].
  destruct Hred as [-> | [-> | ->]]; vm_compute; reflexivity.
Qed.

Lemma adjust_colors_red_not_finite_witness :
  adjust_colors png_library (PyFloat infinity) (PyFloat 1) (PyFloat 1)
                dot_state
  = (Raise (Exception ValueError "cannot convert float NaN to integer"),
     dot_state).
Proof.
  apply (adjust_colors_red_not_finite png_library dot_state infinity).
  - left. reflexivity.
  - right. left. reflexivity.
Defined.

(** ** The palette grid, entry by entry *)

(** X12.  No palette entry is lost and their order is kept: in the grid
    that [get_palette] hands to [save], entry [i] of a palette of [n]
    entries is the cell in column [i mod side] of row [i / side].  Fewer
    than [2 * side] cells are padding.  An empty palette gives a grid of
    size 0 by 0, and whether the call then returns is the library's
    decision on an image without pixels. *)
Theorem get_palette_entries (lib : Library) (st : State) (palette : list Z) :
  getpalette (image (self st)) = Some palette ->
  len palette / 3 <= 256 ->
  exists out,
    get_palette lib st = save_as lib "palette" out st
    /\ (forall i,
           0 <= i < len palette / 3 ->
           pixel_at out (i mod grid_side (len palette / 3))
                        (i / grid_side (len palette / 3))
           = slice palette (i * 3) (i * 3 + 3))
    /\ (0 < len palette / 3 ->
        grid_side (len palette / 3) * grid_side (len palette / 3)
        - len palette / 3
        < 2 * grid_side (len palette / 3))
    /\ (len palette / 3 = 0 ->
        size out = (0, 0)
        /\ (forall e,
              save_error lib (output_name "palette" st) out = Some e ->
              fst (get_palette lib st) = Raise e)).
Proof.
  intros Hpal Hmax.
  assert (Hn : 0 <= len palette / 3)
    by (apply Z.div_pos; unfold len; lia).
  destruct (grid_side_spec _ Hn) as (Hside & Hcand & Hfit & _).
  destruct (fill_grid_cells palette _ Hside) as ((Hs & Hw & Hh) & _ & Hp).
  pose proof (Z.sqrt_spec _ Hn) as Hsq. cbv zeta in Hsq.
  pose proof (Z.sqrt_nonneg (len palette / 3)) as Hs0.
  pose proof (get_palette_run lib st palette Hpal Hmax) as Hrun.
  set (n := len palette / 3) in *. set (s := grid_side n) in *.
  exists (fill_grid palette n s (new "RGB" (s, s))).
  split; [exact Hrun | split; [| split]].
  - intros i Hi.
    assert (Hspos : 0 < s) by nia.
    assert (Hx : 0 <= i mod s < s) by (apply Z.mod_pos_bound; lia).
    assert (Hy : 0 <= i / s < s).
    { split; [apply Z.div_pos; lia |].
      apply Z.div_lt_upper_bound; [lia | nia]. }
    rewrite Hp by assumption. unfold palette_cell.
    assert (Hi' : i / s * s + i mod s = i)
      by (pose proof (Z.div_mod i s ltac:(lia)); lia).
    rewrite Hi'.
    destruct (Z.ltb_spec i n) as [_ | Hge]; [reflexivity | lia].
  - intros Hpos. destruct Hcand as [Hc | Hc]; rewrite Hc in *; nia.
  - intros H0. split.
    + unfold size. rewrite Hw, Hh. subst s. rewrite H0. reflexivity.
    + intros e Hsv. rewrite Hrun. now apply save_as_raises.
Qed.

Lemma get_palette_entries_witness :
  (exists out,
      get_palette png_library (state_of (indexed 10) "p.png")
      = save_as png_library "palette" out (state_of (indexed 10) "p.png")
      /\ (forall i,
             0 <= i < 10 ->
             pixel_at out (i mod 4) (i / 4)
             = slice (range 30) (i * 3) (i * 3 + 3))
      /\ (0 < 10 -> 4 * 4 - 10 < 2 * 4))
  /\ fst (get_palette png_library (state_of (indexed 0) "p.png"))
     = Raise (ValueError_ "cannot write empty image as PNG").
Proof.
  split.
  - destruct (get_palette_entries png_library (state_of (indexed 10) "p.png")
                                  (range 30))
      as (out & Hrun & Hcells & Hpad & _).
    + reflexivity.
    + vm_compute. discriminate.
    + exists out. repeat split; assumption.
  - destruct (get_palette_entries png_library (state_of (indexed 0) "p.png")
                                  (range 0))
      as (out & Hrun & _ & _ & Hempty).
    + reflexivity.
    + vm_compute. discriminate.
    + destruct (Hempty eq_refl) as (_ & Hraise). apply Hraise.
      apply (save_as_raises_inv png_library "palette" out
                                (state_of (indexed 0) "p.png")).
      rewrite <- Hrun. vm_compute. reflexivity.
Defined.

(** ** Cropping a crop, cropping everything *)

Lemma crop_crop (im : Image) (l u r b l' u' r' b' : Z) :
  0 <= l' -> r' <= r - l -> 0 <= u' -> b' <= b - u ->
  crop (crop im (l, u, r, b)) (l', u', r', b')
  = crop im (l + l', u + u', l + r', u + b').
Proof.
  intros Hl' Hr' Hu' Hb'.
  assert (Hw : width (crop im (l, u, r, b)) = Z.max 0 (r - l)) by reflexivity.
  assert (Hh : height (crop im (l, u, r, b)) = Z.max 0 (b - u)) by reflexivity.
  assert (Hbands : bands (crop im (l, u, r, b)) = bands im) by reflexivity.
  assert (Hm : mode (crop im (l, u, r, b)) = mode im) by reflexivity.
  assert (Hpal : palette (crop im (l, u, r, b)) = palette im) by reflexivity.
  assert (Hpix : forall x y, 0 <= x < r - l -> 0 <= y < b - u ->
             pixel_at (crop im (l, u, r, b)) x y
             = if in_image im (l + x) (u + y) then pixel_at im (l + x) (u + y)
               else repeat 0 (Z.to_nat (bands im)))
    by (intros; now apply pixel_at_crop_in).
  set (c := crop im (l, u, r, b)) in *.
  apply image_ext; unfold crop; cbn [format mode width height data palette];
    try assumption; try reflexivity; try lia.
  replace (l + r' - (l + l')) with (r' - l') by lia.
  replace (u + b' - (u + u')) with (b' - u') by lia.
  apply map_ext_in. intros y Hy. apply in_range in Hy.
  apply map_ext_in. intros x Hx. apply in_range in Hx.
  replace (in_image c (l' + x) (u' + y)) with true
    by (symmetry; apply in_image_iff; rewrite Hw, Hh; lia).
  rewrite Hpix by lia. now rewrite !Z.add_assoc.
Qed.

(** X13.  Cropping the output of a crop is a crop of the original: on an
    image that is the crop of [im] to [(l, u, r, b)], a box
    [(l', u', r', b')] that is valid for that crop passes the two tests,
    and the image handed to [save] is the crop of [im] to
    [(l + l', u + u', l + r', u + b')]; the call returns, with that image
    in the file, when the library writes it. *)
Theorem crop_image_of_a_crop
    (lib : Library) (st2 : State) (im : Image) (l u r b l' u' r' b' : Z) :
  image (self st2) = crop im (l, u, r, b) ->
  0 <= l' < r' /\ r' <= r - l ->
  0 <= u' < b' /\ b' <= b - u ->
  crop_image lib l' u' r' b' st2
  = save_as lib "cropped" (crop im (l + l', u + u', l + r', u + b')) st2
  /\ (save_error lib (output_name "cropped" st2)
                 (crop im (l + l', u + u', l + r', u + b')) = None ->
      crop_image lib l' u' r' b' st2
      = (Ok tt, saved st2 (output_name "cropped" st2)
                      (crop im (l + l', u + u', l + r', u + b')))).
Proof.
  intros Him (Hl & Hr) (Hu & Hb).
  assert (Hrun : crop_image lib l' u' r' b' st2
                 = save_as lib "cropped"
                           (crop im (l + l', u + u', l + r', u + b')) st2).
  { rewrite crop_image_accepts; try assumption.
    - rewrite Him, crop_crop by lia. reflexivity.
    - rewrite Him. unfold crop. cbn [width]. lia.
    - rewrite Him. unfold crop. cbn [height]. lia. }
  split; [exact Hrun |].
  intros Hs. rewrite Hrun. now apply save_as_ok.
Qed.

Lemma crop_image_of_a_crop_witness :
  crop_image png_library 1 0 2 1
             (state_of (crop dot_3x2 (0, 0, 2, 2)) "cropped_photo.png")
  = save_as png_library "cropped"
            (crop dot_3x2 (0 + 1, 0 + 0, 0 + 2, 0 + 1))
            (state_of (crop dot_3x2 (0, 0, 2, 2)) "cropped_photo.png")
  /\ (save_error png_library "cropped_cropped_photo.png"
                 (crop dot_3x2 (0 + 1, 0 + 0, 0 + 2, 0 + 1)) = None ->
      crop_image png_library 1 0 2 1
                 (state_of (crop dot_3x2 (0, 0, 2, 2)) "cropped_photo.png")
      = (Ok tt,
         saved (state_of (crop dot_3x2 (0, 0, 2, 2)) "cropped_photo.png")
               "cropped_cropped_photo.png"
               (crop dot_3x2 (0 + 1, 0 + 0, 0 + 2, 0 + 1)))).
Proof.
  apply (crop_image_of_a_crop
           png_library
           (state_of (crop dot_3x2 (0, 0, 2, 2)) "cropped_photo.png")
           dot_3x2 0 0 2 2 1 0 2 1).
  - reflexivity.
  - lia.
  - lia.
Defined.

Lemma list_as_range {A : Type} (l : list A) (d : A) :
  l = map (fun i => nth (Z.to_nat i) l d) (range (len l)).
Proof.
  apply nth_ext with (d := d) (d' := d).
  - rewrite length_map, range_length. unfold len. lia.
  - intros i Hi.
    replace i with (Z.to_nat (Z.of_nat i)) at 2 by lia.
    rewrite nth_map_range by (unfold len; lia). f_equal. lia.
Qed.

Lemma data_as_pixels (im : Image) :
  wf_image im ->
  data im
  = map (fun y => map (fun x => pixel_at im x y) (range (width im)))
        (range (height im)).
Proof.
  intros (_ & _ & Hlen & Hrows).
  rewrite (list_as_range (data im) []) at 1. rewrite Hlen.
  apply map_ext_in. intros y Hy. apply in_range in Hy.
  assert (Hrow : row_ok (width im) (bands im) (nth (Z.to_nat y) (data im) [])).
  { eapply Forall_forall; [exact Hrows |]. apply nth_In. unfold len in Hlen. lia. }
  destruct Hrow as (Hw & _).
  rewrite (list_as_range (nth (Z.to_nat y) (data im) []) []) at 1.
  rewrite Hw. reflexivity.
Qed.

(** X14.  The full box [(0, 0, width, height)] of a well-formed image with
    at least one pixel passes the two tests, and the image handed to [save]
    has the pixel data, the size and the mode of the working image; the
    call returns, with that image in the file, when the library writes it.
    An image of zero width or zero height has no valid box: every call of
    [crop_image] on it raises. *)
Theorem crop_image_full_box (lib : Library) (st : State) :
  wf_image (image (self st)) ->
  (0 < width (image (self st)) -> 0 < height (image (self st)) ->
   exists out,
     crop_image lib 0 0 (width (image (self st))) (height (image (self st))) st
     = save_as lib "cropped" out st
     /\ (save_error lib (output_name "cropped" st) out = None ->
         crop_image lib 0 0 (width (image (self st)))
                    (height (image (self st))) st
         = (Ok tt, saved st (output_name "cropped" st) out))
     /\ data out = data (image (self st))
     /\ size out = size (image (self st))
     /\ mode out = mode (image (self st)))
  /\
  (width (image (self st)) = 0 \/ height (image (self st)) = 0 ->
   forall left upper right lower,
     exists e, crop_image lib left upper right lower st = (Raise e, st)).
Proof.
  intros Hwf. split.
  - intros Hw Hh.
    exists (crop (image (self st))
                 (0, 0, width (image (self st)), height (image (self st)))).
    assert (Hrun : crop_image lib 0 0 (width (image (self st)))
                              (height (image (self st))) st
                   = save_as lib "cropped"
                       (crop (image (self st))
                             (0, 0, width (image (self st)),
                              height (image (self st)))) st)
      by (apply crop_image_accepts; lia).
    split; [exact Hrun |].
    split; [intros Hs; rewrite Hrun; now apply save_as_ok |].
    split; [| split].
    + unfold crop. cbn [data]. rewrite (data_as_pixels _ Hwf), !Z.sub_0_r.
      apply map_ext_in. intros y Hy. apply in_range in Hy.
      apply map_ext_in. intros x Hx. apply in_range in Hx.
      rewrite !Z.add_0_l.
      replace (in_image (image (self st)) x y) with true; [reflexivity |].
      symmetry. apply in_image_iff. lia.
    + unfold size, crop. cbn [width height]. f_equal; lia.
    + reflexivity.
  - intros Hzero left upper right lower.
    destruct (Z_lt_dec left 0) as [Hl | Hl];
      [eexists; apply crop_image_bounds; lia |].
    destruct (Z_lt_dec upper 0) as [Hu | Hu];
      [eexists; apply crop_image_bounds; lia |].
    destruct (Z_gt_dec right (width (image (self st)))) as [Hr | Hr];
      [eexists; apply crop_image_bounds; lia |].
    destruct (Z_gt_dec lower (height (image (self st)))) as [Hb | Hb];
      [eexists; apply crop_image_bounds; lia |].
    eexists. apply crop_image_order; lia.
Qed.

Lemma crop_image_full_box_witness :
  exists out,
    crop_image png_library 0 0 3 2 dot_state
    = save_as png_library "cropped" out dot_state
    /\ (save_error png_library "cropped_photo.png" out = None ->
        crop_image png_library 0 0 3 2 dot_state
        = (Ok tt, saved dot_state "cropped_photo.png" out))
    /\ data out = data dot_3x2
    /\ size out = (3, 2)
    /\ mode out = "RGB".
Proof.
  apply (proj1 (crop_image_full_box png_library dot_state dot_3x2_wf)).
  - reflexivity.
  - reflexivity.
Defined.

(** X15.  What [crop_empty] leaves as the working image is a rectangle cut
    out of the original, in the original mode: with a luminance view of the
    size of the image, the new image is well formed, not larger than the
    old one, and its pixel [(x, y)] is the old pixel [(left + x, upper + y)]
    with all its bands (the luminance view only decides the box). *)
Theorem crop_empty_keeps_pixels (lib : Library) (st : State) :
  wf_image (image (self st)) ->
  wf_image (convert lib (image (self st)) "L") ->
  bands (convert lib (image (self st)) "L") = 1 ->
  size (convert lib (image (self st)) "L") = size (image (self st)) ->
  (exists x y,
      0 <= x < width (convert lib (image (self st)) "L")
      /\ 0 <= y < height (convert lib (image (self st)) "L")
      /\ 0 < luminance (convert lib (image (self st)) "L") x y) ->
  exists left upper,
    wf_image (image (self (snd (crop_empty lib st))))
    /\ mode (image (self (snd (crop_empty lib st))))
       = mode (image (self st))
    /\ 0 < width (image (self (snd (crop_empty lib st))))
         <= width (image (self st)) - left
    /\ 0 < height (image (self (snd (crop_empty lib st))))
         <= height (image (self st)) - upper
    /\ 0 <= left /\ 0 <= upper
    /\ forall x y,
         0 <= x < width (image (self (snd (crop_empty lib st)))) ->
         0 <= y < height (image (self (snd (crop_empty lib st)))) ->
         pixel_at (image (self (snd (crop_empty lib st)))) x y
         = pixel_at (image (self st)) (left + x) (upper + y).
Proof.
  intros Hwf Hwfg Hb Hsize Hcontent.
  destruct (crop_empty_box lib st Hwfg Hb Hcontent)
    as (l & u & r & b & Hrun & _ & _ & _ & _ & Hx & Hy & _).
  unfold size in Hsize. injection Hsize as Hw Hh. rewrite Hw in Hx.
  rewrite Hh in Hy.
  exists l, u. rewrite (crop_empty_image lib st _ Hrun).
  assert (Hcw : width (crop (image (self st)) (l, u, r, b)) = r - l)
    by (unfold crop; cbn [width]; lia).
  assert (Hch : height (crop (image (self st)) (l, u, r, b)) = b - u)
    by (unfold crop; cbn [height]; lia).
  rewrite Hcw, Hch.
  split; [now apply crop_wf |]. split; [reflexivity |].
  split; [lia |]. split; [lia |]. split; [lia |]. split; [lia |].
  intros x y Hx' Hy'. apply crop_pixel_at; lia.
Qed.

Lemma crop_empty_keeps_pixels_witness :
  exists left upper,
    wf_image (image (self (snd (crop_empty png_library dot_state))))
    /\ mode (image (self (snd (crop_empty png_library dot_state)))) = "RGB"
    /\ 0 < width (image (self (snd (crop_empty png_library dot_state))))
         <= 3 - left
    /\ 0 < height (image (self (snd (crop_empty png_library dot_state))))
         <= 2 - upper
    /\ 0 <= left /\ 0 <= upper
    /\ forall x y,
         0 <= x < width (image (self (snd (crop_empty png_library dot_state)))) ->
         0 <= y < height (image (self (snd (crop_empty png_library dot_state)))) ->
         pixel_at (image (self (snd (crop_empty png_library dot_state)))) x y
         = pixel_at dot_3x2 (left + x) (upper + y).
Proof.
  apply (crop_empty_keeps_pixels png_library dot_state).
  - exact dot_3x2_wf.
  - exact gray_dot_3x2_wf.
  - reflexivity.
  - reflexivity.
  - exists 1, 0. vm_compute. repeat split; discriminate.
Defined.
